(** * QuickStor site builder: document store, polling adapter, AI gateway,
      context summarizer and backup restore

    A shallow embedding of the JavaScript sources

    - [quickstor-backend/index.js]        (module [Backend])
    - [quickstor-frontend/src/firebase.js] and
      [quickstor-admin/src/firebase.js]   (module [Adapter])
    - [geminiClient.js]                   (module [Gemini])
    - [aiService.js]                      (module [Summarizer])
    - [Settings.jsx], [handleFileChange]  (module [Settings])

    followed by the properties proved about them.  Asynchronous functions
    are embedded as functions of the outcomes their awaited calls deliver
    (a network answer, a disk write, an LLM reply); a [try]/[catch] is a
    [completion] value that either returns or throws. *)

From Stdlib Require Import ZArith String Ascii List Bool Lia.
From stdpp Require Import gmap strings list fin_maps pretty.

#[local] Set Warnings "-register-all".
#[local] Open Scope string_scope.
#[local] Open Scope Z_scope.

(* ===================================================================== *)
(** ** JavaScript values *)
(* ===================================================================== *)

Module JS.

(** A value produced by [JSON.parse].  An object is a finite map from its
    own keys to values, so that Leibniz equality is deep equality.
    Numbers are the integers. *)
Inductive json : Type :=
| JNull
| JBool (b : bool)
| JNum (n : Z)
| JString (s : string)
| JArray (items : list json)
| JObject (fields : gmap string json).

(** [ToBoolean]: what [if (v)], [!v] and [v || w] test. *)
Definition truthy (j : json) : bool :=
  match j with
  | JNull => false
  | JBool b => b
  | JNum n => negb (n =? 0)
  | JString s => negb (String.eqb s "")
  | JArray _ => true
  | JObject _ => true
  end.

(** A possibly [undefined] value. *)
Definition truthy_opt (o : option json) : bool :=
  match o with
  | None => false
  | Some j => truthy j
  end.

(** [ToString], as applied by [new Error(v)], template literals and
    [localStorage.setItem]. *)
Fixpoint to_string (j : json) : string :=
  match j with
  | JNull => "null"
  | JBool true => "true"
  | JBool false => "false"
  | JNum n => pretty n
  | JString s => s
  | JArray l =>
      String.concat ","
        (List.map (fun x => match x with
                            | JNull => ""
                            | _ => to_string x
                            end) l)
  | JObject _ => "[object Object]"
  end.

Definition quoted (s : string) : string :=
  String "034"%char (s ++ String "034"%char EmptyString).

(** A value as [JSON.parse] and [response.json()] build it, with the own
    keys of every object in their order (each key once).  [JSON.stringify]
    writes the keys in that order, which the finite map of a [JObject]
    does not keep: two bodies with the same keys and values in another
    order are one [json] value and two [parsed] values. *)
Inductive parsed : Type :=
| PNull
| PBool (b : bool)
| PNum (n : Z)
| PString (s : string)
| PArray (items : list parsed)
| PObject (fields : list (string * parsed)).

(** The content of a parsed value, the order of the keys forgotten. *)
Fixpoint plain (v : parsed) : json :=
  match v with
  | PNull => JNull
  | PBool b => JBool b
  | PNum n => JNum n
  | PString s => JString s
  | PArray l => JArray (List.map plain l)
  | PObject fields =>
      JObject (list_to_map
                 (List.map (fun kv => let '(k, x) := kv in (k, plain x))
                           fields))
  end.

(** A serializer in the manner of [JSON.stringify]: the keys of an object
    in their order, strings quoted as they stand.  It serves to
    instantiate the [JSON_stringify] parameter of the adapter on concrete
    runs. *)
Fixpoint stringify (v : parsed) : string :=
  match v with
  | PNull => "null"
  | PBool true => "true"
  | PBool false => "false"
  | PNum n => pretty n
  | PString s => quoted s
  | PArray l => "[" ++ String.concat "," (List.map stringify l) ++ "]"
  | PObject fields =>
      "{" ++ String.concat ","
               (List.map (fun kv => let '(k, x) := kv in
                                    quoted k ++ ":" ++ stringify x)
                         fields)
          ++ "}"
  end.

(** [v.k] for a key [k] that is neither an array index, [length] nor the
    name of a built-in method: only an object has such a property. *)
Definition get_prop (j : json) (k : string) : option json :=
  match j with
  | JObject m => m !! k
  | _ => None
  end.

(** [v?.k]: [undefined] stays [undefined]; on [null] too. *)
Definition opt_prop (o : option json) (k : string) : option json :=
  match o with
  | None => None
  | Some j => get_prop j k
  end.

(** [v?.[i]] for a numeric index [i]. *)
Definition opt_index (o : option json) (i : nat) : option json :=
  match o with
  | Some (JArray l) => l !! i
  | Some (JObject m) => m !! pretty i
  | Some (JString s) =>
      match String.get i s with
      | Some c => Some (JString (String c EmptyString))
      | None => None
      end
  | _ => None
  end.

(** The own enumerable properties copied by the spread [{...v}]. *)
Definition spread (j : json) : gmap string json :=
  match j with
  | JObject m => m
  | JArray l => list_to_map (imap (fun i x => (pretty i, x)) l)
  | JString s =>
      list_to_map
        (imap (fun i c => (pretty i, JString (String c EmptyString)))
              (list_ascii_of_string s))
  | _ => ∅
  end.

(** [{...a, ...b}]: the keys of [b] win. *)
Definition spread2 (a b : json) : gmap string json :=
  spread b ∪ spread a.

(** [s.includes(t)]. *)
Fixpoint includes (t s : string) : bool :=
  String.prefix t s ||
  match s with
  | EmptyString => false
  | String _ s' => includes t s'
  end.

(** An [Error] object, by its [message]. *)
Record error : Type := Error { message : string }.

(** How a [try] block or an awaited promise completes. *)
Inductive completion (A : Type) : Type :=
| Return (a : A)
| Throw (e : error).
Arguments Return {A} a.
Arguments Throw {A} e.

(** Sequencing: a throw skips the rest of the block. *)
#[export] Instance completion_bind : MBind completion :=
  fun A B (k : A -> completion B) (c : completion A) =>
    match c with
    | Return a => k a
    | Throw e => Throw e
    end.

(** [try { c } catch (e) { h e }]. *)
Definition try_catch {A} (c : completion A) (h : error -> completion A)
  : completion A :=
  match c with
  | Return a => Return a
  | Throw e => h e
  end.

(** [response.ok]. *)
Definition status_ok (status : Z) : bool :=
  (200 <=? status) && (status <=? 299).

(** What [await fetch(...)] delivers: a rejection (network error), or a
    response whose [json()] resolves or rejects (malformed body). *)
Inductive fetch_result : Type :=
| FetchRejects (e : error)
| FetchResponse (status : Z) (body : completion json).

Definition await_fetch (f : fetch_result)
  : completion (Z * completion json) :=
  match f with
  | FetchRejects e => Throw e
  | FetchResponse st b => Return (st, b)
  end.

(** [v.k] where [v] may be [null]: reading a property of [null] throws a
    [TypeError] (message as V8 words it). *)
Definition prop_strict (j : json) (k : string)
  : completion (option json) :=
  match j with
  | JNull =>
      Throw (Error ("Cannot read properties of null (reading '"
                      ++ k ++ "')"))
  | _ => Return (get_prop j k)
  end.

(** [v || w] where [w] is a string, then [ToString]. *)
Definition or_else (o : option json) (w : string) : string :=
  match o with
  | Some j => if truthy j then to_string j else w
  | None => w
  end.

End JS.

Import JS.

(* ===================================================================== *)
(** ** quickstor-backend/index.js *)
(* ===================================================================== *)

Module Backend.

(** What [JSON.parse] of [data.json] yields.  [writeData] is only ever
    handed the body of a full restore, which passed the [typeof] check
    (an object or an array), or [allData] after an assignment. *)
Inductive filedata : Type :=
| FObject (own : gmap string json)
| FArray (items : list json).

(** The disk: [None] when [data.json] is missing or unreadable. *)
Definition disk : Type := option filedata.

(** The result of the property read [allData[docPath]]. *)
Inductive jsval : Type :=
| VUndefined
| VJson (j : json)
| VFunction (name : string)
| VObjectPrototype.

Definition jsval_truthy (v : jsval) : bool :=
  match v with
  | VUndefined => false
  | VJson j => truthy j
  | VFunction _ => true
  | VObjectPrototype => true
  end.

(** The methods every plain object inherits from [Object.prototype]. *)
Definition object_prototype_methods : list string :=
  [ "constructor"; "__defineGetter__"; "__defineSetter__";
    "hasOwnProperty"; "__lookupGetter__"; "__lookupSetter__";
    "isPrototypeOf"; "propertyIsEnumerable"; "toString"; "valueOf";
    "toLocaleString" ].

Definition is_object_prototype_method (k : string) : bool :=
  existsb (String.eqb k) object_prototype_methods.

(** The names a plain object answers to without owning them. *)
Definition inherited (k : string) : bool :=
  String.eqb k "__proto__" || is_object_prototype_method k.

(** [allData[k]] on a plain object: the own property, else what
    [Object.prototype] supplies. *)
Definition object_get (own : gmap string json) (k : string) : jsval :=
  match own !! k with
  | Some v => VJson v
  | None =>
      if String.eqb k "__proto__" then VObjectPrototype
      else if is_object_prototype_method k then VFunction k
      else VUndefined
  end.

(** The own properties after [allData[k] = v] on a plain object.  An own
    property is overwritten.  Otherwise the key [__proto__] reaches the
    setter inherited from [Object.prototype], which replaces the
    prototype (or does nothing) and adds no own property; any other key
    becomes a new own property. *)
Definition object_set (own : gmap string json) (k : string) (v : json)
  : gmap string json :=
  match own !! k with
  | Some _ => <[k := v]> own
  | None => if String.eqb k "__proto__" then own else <[k := v]> own
  end.

Inductive body : Type :=
| BodyJson (j : json)
| BodyEmpty.

Record response : Type := Response { status : Z; payload : body }.

(** [res.json(v)]: the body is [JSON.stringify(v)]; a function has no
    JSON text and [Object.prototype] has no own enumerable property. *)
Definition res_json (st : Z) (v : jsval) : response :=
  match v with
  | VJson j => Response st (BodyJson j)
  | VObjectPrototype => Response st (BodyJson (JObject ∅))
  | VFunction _ => Response st BodyEmpty
  | VUndefined => Response st BodyEmpty
  end.

Definition error_body (msg : string) : json :=
  JObject {[ "error" := JString msg ]}.

Definition internal_server_error : response :=
  Response 500 (BodyJson (error_body "Internal Server Error")).

(** [readData]: a missing or unparsable file reads as [{}]. *)
Definition readData (d : disk) : filedata :=
  match d with
  | Some f => f
  | None => FObject ∅
  end.

(** [writeData]: [fs.writeFile] either succeeds or rejects. *)
Definition writeData (write_ok : bool) (data : filedata)
  : completion disk :=
  if write_ok then Return (Some data)
  else Throw (Error "write failed").

Section Handlers.

(** Property read and assignment on a top-level array follow the
    array exotic object ([length], indices, [Array.prototype]); they
    are left as parameters.  An assignment that throws is [None]. *)
Variable array_get : list json -> string -> jsval.
Variable array_set : list json -> string -> json -> option (list json).

Definition file_get (f : filedata) (k : string) : jsval :=
  match f with
  | FObject own => object_get own k
  | FArray l => array_get l k
  end.

Definition file_set (f : filedata) (k : string) (v : json)
  : completion filedata :=
  match f with
  | FObject own => Return (FObject (object_set own k v))
  | FArray l =>
      match array_set l k v with
      | Some l' => Return (FArray l')
      | None => Throw (Error "Invalid array length")
      end
  end.

(** [app.get] on [/api/data]. *)
Definition get_all (d : disk) : response :=
  match readData d with
  | FObject own => Response 200 (BodyJson (JObject own))
  | FArray l => Response 200 (BodyJson (JArray l))
  end.

(** [app.post] on [/api/data]: the answer and the disk afterwards. *)
Definition post_all (write_ok : bool) (newData : json) (d : disk)
  : response * disk :=
  let invalid :=
    (Response 400 (BodyJson (error_body "Invalid data format")), d) in
  let restore (f : filedata) :=
    match writeData write_ok f with
    | Return d' =>
        (Response 200
           (BodyJson (JObject {[ "success" := JBool true;
                                 "message" :=
                                   JString "Full restore completed" ]})),
         d')
    | Throw _ => (internal_server_error, d)
    end in
  if negb (truthy newData) then invalid
  else match newData with
       | JObject m => restore (FObject m)
       | JArray l => restore (FArray l)
       | _ => invalid
       end.

(** [app.get] on [/api/data/:path]. *)
Definition get_doc (docPath : string) (d : disk) : response :=
  let allData := readData d in
  let docData := file_get allData docPath in
  if jsval_truthy docData then res_json 200 docData
  else Response 404 (BodyJson (error_body "Document not found")).

(** [app.post] on [/api/data/:path]. *)
Definition post_doc (write_ok : bool) (docPath : string) (newData : json)
  (d : disk) : response * disk :=
  let allData := readData d in
  match (allData' ← file_set allData docPath newData;
         writeData write_ok allData') with
  | Return d' =>
      (Response 200
         (BodyJson (JObject {[ "success" := JBool true;
                               "path" := JString docPath ]})),
       d')
  | Throw _ => (internal_server_error, d)
  end.

End Handlers.

(** Array parameters for concrete runs on object stores, where they are
    never consulted. *)
Definition no_array_get (l : list json) (k : string) : jsval :=
  VUndefined.
Definition no_array_set (l : list json) (k : string) (v : json)
  : option (list json) := None.

End Backend.

(* ===================================================================== *)
(** ** firebase.js: the client adapter of the frontend and of the admin *)
(* ===================================================================== *)

Module Adapter.

Inductive http_method : Type := GET | POST.

Record request : Type :=
  Request { method : http_method; url : string; sent_body : option json }.

Record docRef : Type := DocRef { id : option string; path : string }.

Definition getKey (pathSegments : list string) : string :=
  String.concat "/" pathSegments.

Definition doc (pathSegments : list string) : docRef :=
  {| id := List.last (List.map Some pathSegments) None;
     path := getKey pathSegments |}.

(** A snapshot: [exists()], [data()] ([None] is [undefined]) and [id].
    The data is the object [response.json()] built; [D] is how it is
    looked at: as a [json] value where only its content matters (the
    merge of [setDoc]), as a [parsed] value where the order of its keys
    matters too (the [JSON.stringify] of [onSnapshot]). *)
Record snapshot_of (D : Type) : Type :=
  Snapshot { snap_exists : bool; snap_data : option D;
             snap_id : option string }.
Arguments Snapshot {D} _ _ _.
Arguments snap_exists {D} _.
Arguments snap_data {D} _.
Arguments snap_id {D} _.

Definition snapshot : Type := snapshot_of json.

Definition missing_of {D : Type} (r : docRef) : snapshot_of D :=
  {| snap_exists := false; snap_data := None; snap_id := id r |}.

Definition missing (r : docRef) : snapshot := missing_of r.

(** The body of [getDoc], given how [await fetch(...)] completes.  Both
    adapters have the same text. *)
Definition getDoc_from {D : Type} (awaited : completion (Z * completion D))
  (r : docRef) : completion (snapshot_of D) :=
  try_catch
    (response ← awaited;
     if negb (status_ok response.1) then
       if response.1 =? 404 then Return (missing_of r)
       else Throw (Error "Backend error")
     else
       data ← response.2;
       Return {| snap_exists := true; snap_data := Some data;
                 snap_id := id r |})
    (fun e => Return (missing_of r)).

(** [getDoc], given what its [fetch] delivers, the data looked at as a
    [json] value. *)
Definition getDoc (f : fetch_result) (r : docRef) : completion snapshot :=
  getDoc_from (await_fetch f) r.

(** What the [fetch] of a poll delivers, with the body as parsed. *)
Inductive polled : Type :=
| PollRejects (e : error)
| PollResponse (status : Z) (body : completion parsed).

Definition await_polled (p : polled) : completion (Z * completion parsed) :=
  match p with
  | PollRejects e => Throw e
  | PollResponse st b => Return (st, b)
  end.

(** The same delivery with the order of the keys forgotten. *)
Definition fetched (p : polled) : fetch_result :=
  match p with
  | PollRejects e => FetchRejects e
  | PollResponse st b =>
      FetchResponse st match b with
                       | Return v => Return (plain v)
                       | Throw e => Throw e
                       end
  end.

(** [getDoc] as [onSnapshot] calls it: the data keeps the order of its
    keys. *)
Definition getDoc_parsed (p : polled) (r : docRef)
  : completion (snapshot_of parsed) :=
  getDoc_from (await_polled p) r.

Definition plain_snapshot (s : snapshot_of parsed) : snapshot :=
  {| snap_exists := snap_exists s;
     snap_data := match snap_data s with
                  | Some v => Some (plain v)
                  | None => None
                  end;
     snap_id := snap_id s |}.

Record set_options : Type := SetOptions { merge : bool }.

Definition wants_merge (options : option set_options) : bool :=
  match options with
  | Some o => merge o
  | None => false
  end.

Section SetDoc.

Variable BACKEND_URL : string.

Definition doc_url (r : docRef) : string :=
  BACKEND_URL ++ "/" ++ path r.

(** [setDoc], given what the read (if any) and the write deliver: the
    requests sent, in order, and the completion. *)
Definition setDoc (read write : fetch_result) (r : docRef) (data : json)
  (options : option set_options) : list request * completion json :=
  let reads : list request :=
    if wants_merge options then [Request GET (doc_url r) None] else [] in
  let merged : completion json :=
    if wants_merge options then
      existingSnap ← getDoc read r;
      Return (if snap_exists existingSnap then
                match snap_data existingSnap with
                | Some old => JObject (spread2 old data)
                | None => JObject (spread data)
                end
              else data)
    else Return data in
  match merged with
  | Throw e => (reads, Throw e)
  | Return finalData =>
      ((reads ++ [Request POST (doc_url r) (Some finalData)])%list,
       try_catch
         (response ← await_fetch write;
          if negb (status_ok response.1)
          then Throw (Error "Failed to save to backend")
          else response.2)
         (fun e => Throw e))
  end.

End SetDoc.

(** [JSON.stringify(snap.data())] and the initial [lastJson]: [null],
    [undefined], or a JSON text. *)
Inductive json_text : Type :=
| TNull
| TUndefined
| TText (s : string).

#[export] Instance json_text_eq_dec : EqDecision json_text.
Proof. solve_decision. Defined.

(** What drives a subscription: a pending [fetch] delivers its result,
    a timer fires, or the caller invokes the cancellation handle. *)
Inductive event : Type :=
| Deliver (p : polled)
| Tick
| Unsubscribe.

Definition POLL_MS : Z := 2000.

Section Stringify.

(** [JSON.stringify] on a parsed JSON value always yields a text. *)
Variable JSON_stringify : parsed -> string.

Definition stringify_data (d : option parsed) : json_text :=
  match d with
  | None => TUndefined
  | Some v => TText (JSON_stringify v)
  end.

Definition serialized (s : snapshot_of parsed) : json_text :=
  stringify_data (snap_data s).

End Stringify.

(** A read that fails: the network rejects, the status is not 2xx, or
    the body is not JSON. *)
Definition fetch_failed (f : fetch_result) : bool :=
  match f with
  | FetchRejects _ => true
  | FetchResponse st body =>
      negb (status_ok st)
      || match body with
         | Throw _ => true
         | Return _ => false
         end
  end.

(** No two consecutive entries are the same. *)
Fixpoint no_repeat (l : list json_text) : Prop :=
  match l with
  | a :: (b :: _) as tl => a <> b /\ no_repeat tl
  | _ => True
  end.

End Adapter.

(** *** quickstor-frontend/src/firebase.js, [onSnapshot] *)

Module Frontend.
Import Adapter.

Definition BACKEND_URL : string := "http://localhost:3000/api/data".

Inductive phase : Type :=
| InFlight                 (** [await getDoc(docRef)] is pending *)
| Armed (delay : Z)        (** [setTimeout(fetchData, delay)] is pending *)
| Stopped.                 (** nothing is pending *)

Record watcher : Type :=
  Watcher { isActive : bool; lastJson : json_text; stage : phase }.

Section OnSnapshot.

Variable JSON_stringify : parsed -> string.
Variable docRef_ : docRef.

(** The start of [fetchData], up to the [await]. *)
Definition fetchData_start (w : watcher) : watcher :=
  if negb (isActive w) then
    {| isActive := isActive w; lastJson := lastJson w; stage := Stopped |}
  else
    {| isActive := isActive w; lastJson := lastJson w; stage := InFlight |}.

(** The rest of [fetchData], once [getDoc] has resolved: the new state
    and the snapshots handed to [callback]. *)
Definition fetchData_resume (w : watcher) (p : polled)
  : watcher * list (snapshot_of parsed) :=
  let rearm (active : bool) :=
    if active then Armed POLL_MS else Stopped in
  match getDoc_parsed p docRef_ with
  | Return snap =>
      let currentJson := serialized JSON_stringify snap in
      if decide (currentJson ≠ lastJson w) then
        ({| isActive := isActive w; lastJson := currentJson;
            stage := rearm (isActive w) |}, [snap])
      else
        ({| isActive := isActive w; lastJson := lastJson w;
            stage := rearm (isActive w) |}, [])
  | Throw _ =>
      ({| isActive := isActive w; lastJson := lastJson w;
          stage := rearm (isActive w) |}, [])
  end.

(** [onSnapshot(docRef, callback)]: [fetchData()] is called at once. *)
Definition onSnapshot : watcher :=
  fetchData_start
    {| isActive := true; lastJson := TNull; stage := Stopped |}.

Definition step (w : watcher) (e : event)
  : watcher * list (snapshot_of parsed) :=
  match e, stage w with
  | Deliver p, InFlight => fetchData_resume w p
  | Tick, Armed _ => (fetchData_start w, [])
  | Unsubscribe, _ =>
      ({| isActive := false; lastJson := lastJson w; stage := stage w |},
       [])
  | _, _ => (w, [])
  end.

(** The state after a run of events and the callback invocations it
    made, oldest first. *)
Fixpoint run (w : watcher) (es : list event)
  : watcher * list (snapshot_of parsed) :=
  match es with
  | [] => (w, [])
  | e :: es' =>
      let '(w1, out1) := step w e in
      let '(w2, out2) := run w1 es' in
      (w2, (out1 ++ out2)%list)
  end.

Definition callbacks (es : list event) : list (snapshot_of parsed) :=
  (run onSnapshot es).2.

End OnSnapshot.

(** The events of a subscription that is left running: each pending
    fetch delivers, then the timer it armed fires. *)
Definition polls (ps : list polled) : list event :=
  flat_map (fun p => [Deliver p; Tick]) ps.

End Frontend.

(** *** quickstor-admin/src/firebase.js, [onSnapshot] *)

Module Admin.
Import Adapter.

Definition BACKEND_URL : string := "/api/data".

(** [setInterval] keeps firing until cleared; each firing starts a
    [fetchData] of its own, so several may be pending. *)
Record watcher : Type :=
  Watcher { interval : option Z; pending : nat }.

Section OnSnapshot.

Variable docRef_ : docRef.

(** The rest of [fetchData], once [getDoc] has resolved. *)
Definition fetchData_resume (p : polled) : list (snapshot_of parsed) :=
  match getDoc_parsed p docRef_ with
  | Return snap => [snap]
  | Throw _ => []
  end.

(** [onSnapshot(docRef, callback)]: one [fetchData()] at once, and the
    interval. *)
Definition onSnapshot : watcher :=
  {| interval := Some POLL_MS; pending := 1 |}.

Definition step (w : watcher) (e : event)
  : watcher * list (snapshot_of parsed) :=
  match e with
  | Deliver p =>
      match pending w with
      | O => (w, [])
      | S n => ({| interval := interval w; pending := n |},
                fetchData_resume p)
      end
  | Tick =>
      match interval w with
      | Some _ => ({| interval := interval w; pending := S (pending w) |},
                   [])
      | None => (w, [])
      end
  | Unsubscribe => ({| interval := None; pending := pending w |}, [])
  end.

Fixpoint run (w : watcher) (es : list event)
  : watcher * list (snapshot_of parsed) :=
  match es with
  | [] => (w, [])
  | e :: es' =>
      let '(w1, out1) := step w e in
      let '(w2, out2) := run w1 es' in
      (w2, (out1 ++ out2)%list)
  end.

Definition callbacks (es : list event) : list (snapshot_of parsed) :=
  (run onSnapshot es).2.

End OnSnapshot.

End Admin.

(* ===================================================================== *)
(** ** geminiClient.js: the non-streaming gateway call *)
(* ===================================================================== *)

Module Gemini.

Definition MAX_RETRIES : nat := 3.
Definition INITIAL_DELAY_MS : Z := 2000.

(** [INITIAL_DELAY_MS * Math.pow(2, attempt)]. *)
Definition backoff (attempt : nat) : Z :=
  INITIAL_DELAY_MS * 2 ^ Z.of_nat attempt.

(** [typeof promptOrParts === 'string' ? [{ text: promptOrParts }]
    : promptOrParts]. *)
Definition parts_of (promptOrParts : json) : json :=
  match promptOrParts with
  | JString s => JArray [JObject {[ "text" := JString s ]}]
  | _ => promptOrParts
  end.

(** How the [try] block of one attempt ends when it does not throw. *)
Inductive attempt_end : Type :=
| SleepAndContinue (delay : Z)
| ReturnText (text : json).

(** The [try] block of the loop body, given what [fetch] delivers. *)
Definition try_block (f : fetch_result) (attempt : nat)
  : completion attempt_end :=
  response ← await_fetch f;
  if (response.1 =? 429) || (response.1 =? 503) then
    Return (SleepAndContinue (backoff attempt))
  else if negb (status_ok response.1) then
    let errorData :=
      match response.2 with
      | Return j => j
      | Throw _ => JObject ∅
      end in
    err ← prop_strict errorData "error";
    Throw (Error (or_else (opt_prop err "message")
                    ("Gemini API error: " ++ pretty response.1)))
  else
    data ← response.2;
    candidates ← prop_strict data "candidates";
    let text :=
      opt_prop
        (opt_index (opt_prop (opt_prop (opt_index candidates 0) "content")
                             "parts") 0) "text" in
    match text with
    | Some t =>
        if truthy t then Return (ReturnText t)
        else Throw (Error "No response generated from Gemini API")
    | None => Throw (Error "No response generated from Gemini API")
    end.

(** One run: how the call completes, the delays slept (in order) and
    the number of requests sent. *)
Record run : Type :=
  Run { outcome : completion json; sleeps : list Z; fetches : nat }.

Definition slept (delay : Z) (r : run) : run :=
  {| outcome := outcome r; sleeps := delay :: sleeps r;
     fetches := fetches r |}.

Definition fetched (r : run) : run :=
  {| outcome := outcome r; sleeps := sleeps r; fetches := S (fetches r) |}.

Section Call.

(** How the [try] block of attempt number [attempt] ends. *)
Variable tries : nat -> completion attempt_end.

(** [for (let attempt = ...; attempt < MAX_RETRIES; attempt++)] with
    [left] iterations to go, then the final [throw]. *)
Fixpoint loop (left attempt : nat) (lastError : option error) : run :=
  match left with
  | O =>
      {| outcome :=
           Throw (match lastError with
                  | Some e => e
                  | None => Error "Failed after multiple retries"
                  end);
         sleeps := []; fetches := 0 |}
  | S left' =>
      fetched
        match tries attempt with
        | Return (ReturnText text) =>
            {| outcome := Return text; sleeps := []; fetches := 0 |}
        | Return (SleepAndContinue delay) =>
            slept delay (loop left' (S attempt) lastError)
        | Throw error =>
            if (attempt <? MAX_RETRIES - 1)%nat
               && includes "429" (message error)
            then slept (backoff attempt)
                       (loop left' (S attempt) (Some error))
            else loop left' (S attempt) (Some error)
        end
  end.

End Call.




End Gemini.

(* ===================================================================== *)
(** ** aiService.js: token estimation and the context summarizer *)
(* ===================================================================== *)

Module Summarizer.

Definition OPENAI_DEFAULT_URL : string := "https://api.openai.com/v1".

(** [s.substring(0, k)]: a negative [k] counts as 0, a large one as the
    length. *)
Definition substring_to (s : string) (k : Z) : string :=
  String.substring 0 (Z.to_nat k) s.

(** [s.substring(k)]. *)
Definition substring_from (s : string) (k : Z) : string :=
  String.substring (Z.to_nat k) (String.length s - Z.to_nat k) s.

Definition to_lower_ascii (c : ascii) : ascii :=
  let n := nat_of_ascii c in
  if ((65 <=? n) && (n <=? 90))%nat then ascii_of_nat (n + 32) else c.

(** [s.toLowerCase()], on ASCII letters. *)
Fixpoint toLowerCase (s : string) : string :=
  match s with
  | EmptyString => EmptyString
  | String c s' => String (to_lower_ascii c) (toLowerCase s')
  end.

(** [estimateTokenCount]: [Math.ceil(text.length / 4)], and 0 for the
    empty (falsy) string. *)
Definition estimateTokenCount (text : string) : Z :=
  if String.eqb text "" then 0
  else (Z.of_nat (String.length text) + 3) / 4.

Record openai_config : Type :=
  OpenAIConfig { apiKey : option string; baseUrl : option string;
                 model : option string }.

Record ai_config : Type :=
  AIConfig { provider : option string; openai : option openai_config }.

(** [getContextLimit(config)]; [config] may be [null]. *)
Definition getContextLimit (config : option ai_config) : Z :=
  match config with
  | Some c =>
      if decide (provider c = Some "openai") then
        let model :=
          match openai c with
          | Some o =>
              match model o with
              | Some m => toLowerCase m
              | None => ""
              end
          | None => ""
          end in
        if includes "deepseek" model then 131072
        else if includes "gpt-4" model then 128000
        else if includes "gpt-3.5" model then 16385
        else 32000
      else 1000000
  | None => 1000000
  end.

(** What the proxy delivers: [fetch] rejects, or a response with its
    [text()] and its [json()]. *)
Inductive proxy_reply : Type :=
| ProxyRejects (e : error)
| ProxyResponse (status : Z) (text : string) (body : completion json).

(** The request handed to [callOpenAIProxy]. *)
Record chat_request : Type :=
  ChatRequest { req_url : string; req_apiKey : option string;
                req_model : string; req_content : string;
                req_max_tokens : Z }.

(** [callOpenAIProxy]: the response, whose [json()] is still to be
    awaited. *)
Definition callOpenAIProxy (reply : proxy_reply)
  : completion (completion json) :=
  try_catch
    match reply with
    | ProxyRejects e => Throw e
    | ProxyResponse st text body =>
        if negb (status_ok st) then
          Throw (Error (if String.eqb text ""
                        then "Proxy Error: " ++ pretty st
                        else text))
        else Return body
    end
    (fun e => Throw e).

Definition nl : string := String "010"%char EmptyString.

Definition summarizePrompt (text : string) (targetTokens : Z) : string :=
  "You are a document summarizer. Condense the following text while preserving key information."
  ++ nl ++ nl
  ++ "TARGET: ~" ++ pretty (targetTokens * 4) ++ " characters (about "
  ++ pretty targetTokens ++ " tokens)." ++ nl ++ nl
  ++ "RULES:" ++ nl
  ++ "1. Preserve specific facts, figures, statistics, and data points" ++ nl
  ++ "2. Keep important names, dates, and technical terms" ++ nl
  ++ "3. Use concise language but don't lose critical information" ++ nl
  ++ "4. Output ONLY the summary, no explanations" ++ nl ++ nl
  ++ "TEXT TO SUMMARIZE:" ++ nl
  ++ text ++ nl ++ nl
  ++ "SUMMARY:".

(** [summarizeSingleChunk], given how the proxy answers the request it
    sends.  A [content] that is not a string is read through
    [ToString]. *)
Definition summarizeSingleChunk (llm : chat_request -> proxy_reply)
  (text : string) (targetTokens : Z) (config : option ai_config)
  : completion string :=
  let targetChars := targetTokens * 4 in
  try_catch
    (o ← match config with
         | Some c =>
             match openai c with
             | Some o => Return o
             | None =>
                 Throw (Error "Cannot destructure property 'apiKey' of 'config.openai' as it is undefined.")
             end
         | None =>
             Throw (Error "Cannot read properties of null (reading 'openai')")
         end;
     let url := default OPENAI_DEFAULT_URL (baseUrl o)
                ++ "/chat/completions" in
     response ← callOpenAIProxy
                  (llm {| req_url := url; req_apiKey := apiKey o;
                          req_model := default "gpt-4o" (model o);
                          req_content := summarizePrompt text targetTokens;
                          req_max_tokens :=
                            Z.min (targetTokens + 500) 8000 |});
     data ← response;
     err ← prop_strict data "error";
     if truthy_opt err then
       Throw (Error (or_else (opt_prop err "message") "API Error"))
     else
       Return
         (or_else
            (opt_prop
               (opt_prop (opt_index (get_prop data "choices") 0) "message")
               "content") ""))
    (fun error => Return (substring_to text targetChars)).

(** An LLM call that fails: the proxy request rejects or is not answered
    2xx, the body is not JSON, or the body is [null] or carries a truthy
    [error]. *)
Definition reply_failed (p : proxy_reply) : bool :=
  match p with
  | ProxyRejects _ => true
  | ProxyResponse st _ body =>
      negb (status_ok st)
      || match body with
         | Throw _ => true
         | Return JNull => true
         | Return data => truthy_opt (get_prop data "error")
         end
  end.




(** What [report] passes to [onProgress]. *)
Inductive progress : Type :=
| Analyzing (kiloTokens : Z)
| SummarizingDocument
| Splitting (chunks : nat)
| SummarizingChunk (i n : nat)
| AdditionalPass
| Complete.

Record summary : Type :=
  Summary { result : string; calls : nat; reports : list progress }.

(** The number of additional compression passes reported. *)
Definition passes (ps : list progress) : nat :=
  List.length
    (List.filter (fun p => match p with
                           | AdditionalPass => true
                           | _ => false
                           end) ps).

Definition reported (ps : list progress) (r : option (completion summary))
  : option (completion summary) :=
  match r with
  | Some (Return s) =>
      Some (Return {| result := result s; calls := calls s;
                      reports := (ps ++ reports s)%list |})
  | other => other
  end.

(** The [while (remaining.length > 0)] loop; [fuel] bounds its
    iterations, and it runs dry only when [maxChunkChars] is not
    positive. *)
Fixpoint split_chunks (fuel : nat) (maxChunkChars : Z) (remaining : string)
  : option (list string) :=
  if (String.length remaining =? 0)%nat then Some []
  else
    match fuel with
    | O => None
    | S fuel' =>
        match split_chunks fuel' maxChunkChars
                (substring_from remaining maxChunkChars) with
        | Some chunks =>
            Some (substring_to remaining maxChunkChars :: chunks)
        | None => None
        end
    end.

Section Pipeline.

(** The call [summarizeSingleChunk(text, targetTokens, config)], by the
    number of calls made before it. *)
Variable chunk_summarizer : nat -> string -> Z -> completion string.

(** The [for] loop over the chunks, from chunk [i] on: the summaries
    and the reports. *)
Fixpoint summarize_chunks (calls i n : nat) (chunks : list string)
  (tokensPerChunkSummary : Z)
  : completion (list string * list progress) :=
  match chunks with
  | [] => Return ([], [])
  | chunk :: rest =>
      summary ← chunk_summarizer calls chunk tokensPerChunkSummary;
      more ← summarize_chunks (S calls) (S i) n rest
               tokensPerChunkSummary;
      Return (summary :: more.1, SummarizingChunk (S i) n :: more.2)
  end.

(** [summarizeDocumentForContext]; [fuel] bounds the depth of the
    recursion, [calls] counts the summarizer calls made so far. *)
Fixpoint summarizeDocumentForContext (fuel calls : nat) (text : string)
  (targetTokens : Z) (config : option ai_config)
  : option (completion summary) :=
  match fuel with
  | O => None
  | S fuel' =>
      let currentTokens := estimateTokenCount text in
      if currentTokens <=? targetTokens then
        Some (Return {| result := text; calls := calls; reports := [] |})
      else
        let analyzing := Analyzing ((currentTokens + 500) / 1000) in
        let contextLimit := getContextLimit config in
        (* Math.floor(contextLimit * 0.25) *)
        let maxChunkTokens := contextLimit / 4 in
        let maxChunkChars := maxChunkTokens * 4 in
        if currentTokens <? maxChunkTokens then
          Some (s ← chunk_summarizer calls text targetTokens;
                Return {| result := s; calls := S calls;
                          reports := [analyzing; SummarizingDocument] |})
        else
          match split_chunks (String.length text) maxChunkChars text with
          | None => None
          | Some chunks =>
              let n := List.length chunks in
              let tokensPerChunkSummary :=
                Z.min (maxChunkTokens / 10)
                      (targetTokens / Z.of_nat n) in
              match summarize_chunks calls 0 n chunks
                      tokensPerChunkSummary with
              | Throw e => Some (Throw e)
              | Return (chunkSummaries, chunkReports) =>
                  let combinedSummary :=
                    String.concat (nl ++ nl) chunkSummaries in
                  let combinedTokens :=
                    estimateTokenCount combinedSummary in
                  let calls' := (calls + n)%nat in
                  let sofar :=
                    (analyzing :: Splitting n :: chunkReports)%list in
                  if combinedTokens >? targetTokens then
                    reported (sofar ++ [AdditionalPass])%list
                      (summarizeDocumentForContext fuel' calls'
                         combinedSummary targetTokens config)
                  else
                    Some (Return {| result := combinedSummary;
                                    calls := calls';
                                    reports :=
                                      (sofar ++ [Complete])%list |})
              end
          end
  end.

End Pipeline.

(** The routine as the application runs it: every chunk goes through
    [summarizeSingleChunk]; [llm i] is how the proxy answers during the
    call number [i]. *)
Definition summarizeDocumentForContext_llm
  (llm : nat -> chat_request -> proxy_reply) (fuel : nat) (text : string)
  (targetTokens : Z) (config : option ai_config)
  : option (completion summary) :=
  summarizeDocumentForContext
    (fun i chunk t => summarizeSingleChunk (llm i) chunk t config)
    fuel 0 text targetTokens config.

(** Modelled from the spec: the synthetic deterministic summarizer stub
    of the testable properties, absent from the sources; it stands in for
    [summarizeSingleChunk] and returns the first half of its input. *)
Definition halving_stub (calls : nat) (text : string) (targetTokens : Z)
  : completion string :=
  Return (substring_to text (Z.of_nat (String.length text) / 2)).

End Summarizer.

(* ===================================================================== *)
(** ** Settings.jsx: restoring a backup file *)
(* ===================================================================== *)

Module Settings.
Import Adapter.

(** What the handler can change: the browser's [localStorage], the
    requests sent to the backend, the status line, the import flag and
    the pending page reload. *)
Record browser : Type :=
  Browser { localStorage : gmap string string;
            sent : list request;
            status : string * string;
            isImporting : bool;
            reload_in : option Z }.

Definition setItem (k v : string) (b : browser) : browser :=
  {| localStorage := <[k := v]> (localStorage b); sent := sent b;
     status := status b; isImporting := isImporting b;
     reload_in := reload_in b |}.

Definition removeItem (k : string) (b : browser) : browser :=
  {| localStorage := delete k (localStorage b); sent := sent b;
     status := status b; isImporting := isImporting b;
     reload_in := reload_in b |}.

Definition setStatus (type msg : string) (b : browser) : browser :=
  {| localStorage := localStorage b; sent := sent b;
     status := (type, msg); isImporting := isImporting b;
     reload_in := reload_in b |}.

Definition setIsImporting (v : bool) (b : browser) : browser :=
  {| localStorage := localStorage b; sent := sent b;
     status := status b; isImporting := v; reload_in := reload_in b |}.

Definition send (r : request) (b : browser) : browser :=
  {| localStorage := localStorage b; sent := (sent b ++ [r])%list;
     status := status b; isImporting := isImporting b;
     reload_in := reload_in b |}.

Definition schedule_reload (delay : Z) (b : browser) : browser :=
  {| localStorage := localStorage b; sent := sent b;
     status := status b; isImporting := isImporting b;
     reload_in := Some delay |}.

(** [if (v) localStorage.setItem(key, v)]. *)
Definition setItem_if (key : string) (v : option json) (b : browser)
  : browser :=
  match v with
  | Some j => if truthy j then setItem key (to_string j) b else b
  | None => b
  end.

Definition settings_keys : list string :=
  [ "quickstor_ai_config"; "quickstor_system_prompt_custom";
    "quickstor_content_filling_prompt"; "quickstor_prompts" ].

Definition contentKeys : list string :=
  [ "quickstor_pages"; "quickstor_navbar"; "quickstor_footer";
    "quickstor_activeTheme"; "quickstor_savedThemes";
    "quickstor_custom_sections" ].

Definition STAGING : string := "sites/quickstor-staging".
Definition RESTORE_URL : string := "http://localhost:3000/api/data".

(** The branch for v2.0 backups: the settings keys of [localConfig]. *)
Definition restore_localConfig (backup : json) (b : browser) : browser :=
  match get_prop backup "localConfig" with
  | Some localConfig =>
      if truthy localConfig then
        foldr (fun key acc =>
                 setItem_if key (spread localConfig !! key) acc)
              b settings_keys
      else b
  | None => b
  end.

(** Step 1: the settings of the backup go to [localStorage]. *)
Definition restore_settings (backup : json) (b : browser) : browser :=
  match get_prop backup "settings" with
  | Some settings =>
      if truthy settings then
        setItem_if "quickstor_prompts" (get_prop settings "prompts")
          (setItem_if "quickstor_content_filling_prompt"
             (get_prop settings "fillingPrompt")
             (setItem_if "quickstor_system_prompt_custom"
                (get_prop settings "systemPrompt")
                (setItem_if "quickstor_ai_config"
                   (get_prop settings "aiConfig") b)))
      else restore_localConfig backup b
  | None => restore_localConfig backup b
  end.

Section Restore.

(** [JSON.parse], which throws on a malformed text. *)
Variable JSON_parse : string -> completion json.
(** [Date.now()] and [new Date().toISOString()]. *)
Variable now : Z.
Variable now_iso : string.

(** [localConfig.k ? JSON.parse(localConfig.k) : null]. *)
Definition parse_or_null (localConfig : json) (k : string)
  : completion json :=
  match get_prop localConfig k with
  | Some v => if truthy v then JSON_parse (to_string v) else Return JNull
  | None => Return JNull
  end.

(** Step 2: [stagingStateToRestore], [None] for [null]. *)
Definition stagingStateToRestore (backup : json)
  : completion (option json) :=
  if truthy_opt (get_prop backup "appState") then
    Return (get_prop backup "appState")
  else
    match get_prop backup "localConfig" with
    | Some localConfig =>
        if truthy localConfig then
          pages ← parse_or_null localConfig "quickstor_pages";
          navbar ← parse_or_null localConfig "quickstor_navbar";
          footer ← parse_or_null localConfig "quickstor_footer";
          savedThemes ← parse_or_null localConfig "quickstor_savedThemes";
          theme ← parse_or_null localConfig "quickstor_activeTheme";
          customSections ←
            parse_or_null localConfig "quickstor_custom_sections";
          Return (Some (JObject
            {[ "pages" := pages; "navbar" := navbar; "footer" := footer;
               "savedThemes" := savedThemes; "theme" := theme;
               "customSections" := customSections ]}))
        else Return None
    | None => Return None
    end.

(** Step 3: the staging site of the new backend data. *)
Definition merge_staging (newBackendData : gmap string json)
  (staging : option json) : gmap string json :=
  match staging with
  | Some st =>
      if truthy st then
        let node :=
          match newBackendData !! STAGING with
          | Some v => if truthy v then v else JObject ∅
          | None => JObject ∅
          end in
        <[STAGING :=
            JObject
              (<["lastUpdated" := JString now_iso]>
                 (<["version" := JString ("RESTORED-" ++ pretty now)]>
                    (spread2 node st)))]> newBackendData
      else newBackendData
  | None => newBackendData
  end.

(** The [try] block. *)
Definition try_block (text : string) (post : fetch_result) (b : browser)
  : completion unit * browser :=
  match (backup ← JSON_parse text;
         backendData ← prop_strict backup "backendData";
         if negb (truthy_opt backendData)
         then Throw (Error "Invalid backup format: missing backend data")
         else Return (backup, default JNull backendData)) with
  | Throw e => (Throw e, b)
  | Return (backup, backendData) =>
      let b1 := restore_settings backup b in
      match stagingStateToRestore backup with
      | Throw e => (Throw e, b1)
      | Return staging =>
          let newBackendData :=
            merge_staging (spread backendData) staging in
          let b2 :=
            send (Request POST RESTORE_URL
                    (Some (JObject newBackendData))) b1 in
          match (response ← await_fetch post;
                 if negb (status_ok response.1)
                 then Throw (Error "Failed to restore backend data")
                 else Return ()) with
          | Throw e => (Throw e, b2)
          | Return _ =>
              (Return (),
               schedule_reload 1000
                 (setStatus "success"
                    "System restored successfully! Reloading..."
                    (foldl (fun acc key => removeItem key acc)
                           b2 contentKeys)))
          end
      end
  end.

(** [handleFileChange]: [file] is the text of the chosen file ([None]
    when no file was chosen), [confirmed] the answer to the warning. *)
Definition handleFileChange (file : option string) (confirmed : bool)
  (post : fetch_result) (b : browser) : browser :=
  match file with
  | None => b
  | Some text =>
      if negb confirmed then b
      else
        let b0 := setStatus "" "" (setIsImporting true b) in
        let '(c, b1) := try_block text post b0 in
        let b2 :=
          match c with
          | Return _ => b1
          | Throw error =>
              setStatus "error"
                ("Failed to restore backup: " ++ message error) b1
          end in
        setIsImporting false b2
  end.

End Restore.

End Settings.

(* ===================================================================== *)
(** ** geminiClient.js: the call with history and the streaming calls *)
(* ===================================================================== *)

Module GeminiChat.
Import Gemini.

(** [{ k: v, ...rest }] as it reaches [JSON.stringify]: a property whose
    value is [undefined] is not written. *)
Definition with_prop (k : string) (v : option json) (rest : gmap string json)
  : gmap string json :=
  match v with
  | Some j => <[k := j]> rest
  | None => rest
  end.

(** [{ role: msg.role, parts: msg.parts || [{ text: msg.text }] }]. *)
Definition content_of (msg : json) : completion json :=
  role ← prop_strict msg "role";
  parts ← prop_strict msg "parts";
  text ← prop_strict msg "text";
  Return (JObject
            (with_prop "role" role
               {[ "parts" :=
                    if truthy_opt parts then default JNull parts
                    else JArray [JObject (with_prop "text" text ∅)] ]})).

(** [messages.map(msg => ...)]. *)
Fixpoint contents_of (messages : list json) : completion (list json) :=
  match messages with
  | [] => Return []
  | msg :: rest =>
      c ← content_of msg;
      cs ← contents_of rest;
      Return (c :: cs)
  end.

Definition no_key : error :=
  Error "Gemini API key not configured. Please set VITE_GEMINI_API_KEY in your .env file.".

Definition key_missing (GEMINI_API_KEY : option string) : bool :=
  match GEMINI_API_KEY with
  | Some key => String.eqb key ""
  | None => true
  end.

(** [callGeminiAPIWithHistory(messages)]; its loop is the loop of
    [callGeminiAPI], sent with [contents]. *)
Definition callGeminiAPIWithHistory (GEMINI_API_KEY : option string)
  (net : nat -> json -> fetch_result) (messages : list json) : run :=
  if key_missing GEMINI_API_KEY then
    {| outcome := Throw no_key; sleeps := []; fetches := 0 |}
  else
    match contents_of messages with
    | Throw e => {| outcome := Throw e; sleeps := []; fetches := 0 |}
    | Return contents =>
        loop (fun attempt => try_block (net attempt (JArray contents)) attempt)
             MAX_RETRIES 0 None
    end.

(** How the body of a streamed response ends: the reader reports [done],
    or a [read()] rejects. *)
Inductive stream_end : Type :=
| StreamDone
| StreamFails (e : error).

(** What the streaming [fetch] delivers: a rejection, or a response with
    its status, its [json()] (read when the status is not 2xx), the
    decoded chunks its reader yields and how the stream ends. *)
Inductive stream_result : Type :=
| StreamRejects (e : error)
| StreamResponse (status : Z) (body : completion json)
    (chunks : list string) (ending : stream_end).

(** [s.split(c)] for a one-character separator. *)
Fixpoint split_on (c : ascii) (s : string) : list string :=
  match s with
  | EmptyString => [EmptyString]
  | String a s' =>
      if Ascii.eqb a c then EmptyString :: split_on c s'
      else match split_on c s' with
           | h :: t => String a h :: t
           | [] => [String a EmptyString]
           end
  end.

(** The text gathered so far and the calls made to [onChunk], each with
    the text chunk and the full text at that point. *)
Record progress : Type :=
  Progress { fullText : string; emitted : list (json * string) }.

(** What the reading loop keeps true: the full text is the concatenation
    of the chunks handed out, every chunk handed out is truthy, and it
    came with the concatenation up to and including itself. *)
Definition accumulated (p : progress) : Prop :=
  fullText p
  = String.concat "" (List.map (fun c : json * string => to_string c.1)
                        (emitted p))
  /\ forall k t full,
       emitted p !! k = Some (t, full) ->
       truthy t = true
       /\ full = String.concat ""
                  (List.map (fun c : json * string => to_string c.1)
                     (take (S k) (emitted p))).

(** A stream that fails: the fetch rejects, the status is not 2xx, or a
    [read()] rejects. *)
Definition stream_failed (s : stream_result) : bool :=
  match s with
  | StreamRejects _ => true
  | StreamResponse st _ _ ending =>
      negb (status_ok st)
      || match ending with
         | StreamFails _ => true
         | StreamDone => false
         end
  end.


Section Streaming.

(** [JSON.parse], which throws on a malformed text. *)
Variable JSON_parse : string -> completion json.

(** The body of [for (const line of lines)]; [onChunk] is taken to
    return normally. *)
Definition process_line (p : progress) (line : string) : progress :=
  if String.prefix "data: " line then
    match (data ← JSON_parse (Summarizer.substring_from line 6);
           candidates ← prop_strict data "candidates";
           Return (opt_prop
                     (opt_index
                        (opt_prop (opt_prop (opt_index candidates 0) "content")
                                  "parts") 0) "text")) with
    | Return (Some textChunk) =>
        if truthy textChunk then
          let full := fullText p ++ to_string textChunk in
          {| fullText := full;
             emitted := (emitted p ++ [(textChunk, full)])%list |}
        else p
    | _ => p
    end
  else p.

(** The text chunk a line of the stream carries, if any: the line starts
    with [data: ], the rest parses, and the text of the first part of the
    first candidate is truthy. *)
Definition line_text (line : string) : option json :=
  if String.prefix "data: " line then
    match (data ← JSON_parse (Summarizer.substring_from line 6);
           candidates ← prop_strict data "candidates";
           Return (opt_prop
                     (opt_index
                        (opt_prop (opt_prop (opt_index candidates 0) "content")
                                  "parts") 0) "text")) with
    | Return (Some textChunk) =>
        if truthy textChunk then Some textChunk else None
    | _ => None
    end
  else None.

(** The text chunks a stream carries, in order: those of the lines of the
    chunks read. *)
Definition stream_texts (chunks : list string) : list json :=
  flat_map (fun line => match line_text line with
                        | Some textChunk => [textChunk]
                        | None => []
                        end)
           (flat_map (split_on "010"%char) chunks).

(** One turn of [while (true)] with a chunk read. *)
Definition process_chunk (p : progress) (chunk : string) : progress :=
  foldl process_line p (split_on "010"%char chunk).

Definition read_all (chunks : list string) : progress :=
  foldl process_chunk {| fullText := ""; emitted := [] |} chunks.

(** A streaming call: how it completes and the calls made to
    [onChunk]. *)
Record stream_run : Type :=
  StreamRun { stream_outcome : completion json;
              stream_emitted : list (json * string) }.

(** [callGeminiAPIStream(promptOrParts, onChunk)]. *)
Definition callGeminiAPIStream (GEMINI_API_KEY : option string)
  (net : json -> stream_result) (promptOrParts : json) : stream_run :=
  if key_missing GEMINI_API_KEY then
    {| stream_outcome := Throw (Error "Gemini API key not configured.");
       stream_emitted := [] |}
  else
    match net (parts_of promptOrParts) with
    | StreamRejects e => {| stream_outcome := Throw e; stream_emitted := [] |}
    | StreamResponse st body chunks ending =>
        if negb (status_ok st) then
          let errorData :=
            match body with
            | Return j => j
            | Throw _ => JObject ∅
            end in
          {| stream_outcome :=
               err ← prop_strict errorData "error";
               Throw (Error (or_else (opt_prop err "message")
                               ("Gemini API error: " ++ pretty st)));
             stream_emitted := [] |}
        else
          let p := read_all chunks in
          {| stream_outcome :=
               match ending with
               | StreamFails e => Throw e
               | StreamDone =>
                   if String.eqb (fullText p) ""
                   then Throw (Error "No response generated from Gemini API")
                   else Return (JString (fullText p))
               end;
             stream_emitted := emitted p |}
    end.

(** [callGeminiAPIWithHistoryStream(messages, onChunk)]: [stream] is what
    the streaming [fetch] delivers, [net] what the attempts of the
    fallback call get. *)
Definition callGeminiAPIWithHistoryStream (GEMINI_API_KEY : option string)
  (stream : json -> stream_result) (net : nat -> json -> fetch_result)
  (messages : list json) : stream_run * option run :=
  if key_missing GEMINI_API_KEY then
    ({| stream_outcome := Throw (Error "Gemini API key not configured.");
        stream_emitted := [] |}, None)
  else
    match contents_of messages with
    | Throw e => ({| stream_outcome := Throw e; stream_emitted := [] |}, None)
    | Return contents =>
        let fallback (sofar : list (json * string)) :=
          let r := callGeminiAPIWithHistory GEMINI_API_KEY net messages in
          ({| stream_outcome := outcome r; stream_emitted := sofar |},
           Some r) in
        match stream (JArray contents) with
        | StreamRejects e => fallback []
        | StreamResponse st body chunks ending =>
            if negb (status_ok st) then fallback []
            else
              let p := read_all chunks in
              match ending with
              | StreamFails e => fallback (emitted p)
              | StreamDone =>
                  ({| stream_outcome := Return (JString (fullText p));
                      stream_emitted := emitted p |}, None)
              end
        end
    end.

End Streaming.

End GeminiChat.

(* ===================================================================== *)
(** ** Extraction utilities: the CSV fallback and the shape check *)
(* ===================================================================== *)

Module Extraction.

(** The texts are ASCII, as for [Summarizer.toLowerCase].  White space as
    [trim] and [parseInt] see it is then tab, line feed, vertical tab,
    form feed, carriage return and space. *)
Definition is_space (a : ascii) : bool :=
  let n := nat_of_ascii a in
  ((9 <=? n) && (n <=? 13) || (n =? 32))%nat.

Fixpoint trim_start (s : string) : string :=
  match s with
  | EmptyString => EmptyString
  | String a s' => if is_space a then trim_start s' else s
  end.

Fixpoint trim_end (s : string) : string :=
  match s with
  | EmptyString => EmptyString
  | String a s' =>
      let t := trim_end s' in
      if String.eqb t "" && is_space a then EmptyString else String a t
  end.

(** [s.trim()]. *)
Definition trim (s : string) : string := trim_end (trim_start s).

Definition quote : ascii := "034"%char.
Definition apostrophe : ascii := "039"%char.

(** [s.replace] of every run of single or double quotes by nothing. *)
Fixpoint remove_quotes (s : string) : string :=
  match s with
  | EmptyString => EmptyString
  | String a s' =>
      if Ascii.eqb a quote || Ascii.eqb a apostrophe then remove_quotes s'
      else String a (remove_quotes s')
  end.

Fixpoint drop_last_quote (s : string) : string :=
  match s with
  | EmptyString => EmptyString
  | String a EmptyString =>
      if Ascii.eqb a quote then EmptyString else s
  | String a s' => String a (drop_last_quote s')
  end.

(** [s.replace] of a double quote at the start and of one at the end by
    nothing: the one at the start goes, then one at the end of what is
    left. *)
Definition strip_quote_ends (s : string) : string :=
  match s with
  | String a s' => if Ascii.eqb a quote then drop_last_quote s'
                   else drop_last_quote s
  | EmptyString => EmptyString
  end.

Fixpoint count_quotes (s : string) : nat :=
  match s with
  | EmptyString => O
  | String a s' => if Ascii.eqb a quote then S (count_quotes s')
                   else count_quotes s'
  end.

(** [line.split] on the commas followed by an even number of double
    quotes up to the end of the line. *)
Fixpoint split_values (s : string) : list string :=
  match s with
  | EmptyString => [EmptyString]
  | String a s' =>
      if Ascii.eqb a ","%char && Nat.even (count_quotes s')
      then EmptyString :: split_values s'
      else match split_values s' with
           | h :: t => String a h :: t
           | [] => [String a EmptyString]
           end
  end.

Definition cr : ascii := "013"%char.

Fixpoint drop_last_cr (s : string) : string :=
  match s with
  | EmptyString => EmptyString
  | String a EmptyString => if Ascii.eqb a cr then EmptyString else s
  | String a s' => String a (drop_last_cr s')
  end.

Fixpoint strip_cr_but_last (pieces : list string) : list string :=
  match pieces with
  | [] => []
  | [last] => [last]
  | p :: rest => drop_last_cr p :: strip_cr_but_last rest
  end.

(** [csvText.split(/\r?\n/)]. *)
Definition split_lines (s : string) : list string :=
  strip_cr_but_last (GeminiChat.split_on "010"%char s).

Definition digit_value (radix : Z) (a : ascii) : option Z :=
  let n := Z.of_nat (nat_of_ascii a) in
  let v := if (48 <=? n) && (n <=? 57) then n - 48
           else if (97 <=? n) && (n <=? 122) then n - 87
           else if (65 <=? n) && (n <=? 90) then n - 55
           else 36 in
  if v <? radix then Some v else None.

(** The value of the longest prefix of digits, [None] when there is no
    digit. *)
Fixpoint digits_value (radix acc : Z) (seen : bool) (s : string)
  : option Z :=
  match s with
  | EmptyString => if seen then Some acc else None
  | String a s' =>
      match digit_value radix a with
      | Some d => digits_value radix (acc * radix + d) true s'
      | None => if seen then Some acc else None
      end
  end.

(** [parseInt(s)] without a radix, [None] for [NaN]; the integer read is
    kept exact. *)
Definition parseInt (s : string) : option Z :=
  let t := trim_start s in
  let '(sign, t) :=
    match t with
    | String a t' =>
        if Ascii.eqb a "-"%char then (-1, t')
        else if Ascii.eqb a "+"%char then (1, t')
        else (1, t)
    | EmptyString => (1, t)
    end in
  let '(radix, t) :=
    match t with
    | String a (String b t') =>
        if Ascii.eqb a "0"%char
           && (Ascii.eqb b "x"%char || Ascii.eqb b "X"%char)
        then (16, t') else (10, t)
    | _ => (10, t)
    end in
  match digits_value radix 0 false t with
  | Some v => Some (sign * v)
  | None => None
  end.

(** [obj[header] = value] on the row object: [__proto__] meets the
    inherited setter, which ignores a string; an [undefined] value leaves
    the key reading as [undefined]. *)
Definition set_field (obj : gmap string string) (header : string)
  (value : option string) : gmap string string :=
  if String.eqb header "__proto__" then obj
  else match value with
       | Some v => <[header := v]> obj
       | None => delete header obj
       end.

(** [headers.forEach((header, i) => { obj[header] = values[i]; })]. *)
Fixpoint assign_fields (headers : list string) (i : nat)
  (values : list string) (obj : gmap string string) : gmap string string :=
  match headers with
  | [] => obj
  | header :: rest =>
      assign_fields rest (S i) values (set_field obj header (values !! i))
  end.

(** [v || w] on a possibly [undefined] string. *)
Definition or_default (v : option string) (w : string) : string :=
  match v with
  | Some s => if String.eqb s "" then w else s
  | None => w
  end.

(** [parseInt(v) || 0]. *)
Definition int_or_zero (v : option string) : Z :=
  match v with
  | Some s => default 0 (parseInt s)
  | None => 0
  end.

Definition header_of (h : string) : string :=
  remove_quotes (Summarizer.toLowerCase (trim h)).

Definition row_of (headers : list string) (line : string)
  : gmap string string :=
  assign_fields headers 0
    (List.map (fun val => strip_quote_ends (trim val)) (split_values line)) ∅.

(** [lines]: the lines of the text that are not blank. *)
Definition nonblank_lines (csvText : string) : list string :=
  List.filter (fun line => negb (String.eqb (trim line) ""))
              (split_lines csvText).

(** [parseCSVFallback(csvText, sectionType)]. *)
Definition parseCSVFallback (csvText sectionType : string)
  : completion (list json) :=
  match nonblank_lines csvText with
  | first :: (_ :: _) as dataRows =>
      let headers := List.map header_of (GeminiChat.split_on ","%char first) in
      let parsedData := List.map (row_of headers) dataRows in
      if String.eqb sectionType "COMPARISON_GRAPH" then
        Return (List.map (fun row =>
                  JObject {[ "name" :=
                               JString (or_default (row !! "name") "Unknown");
                             "iops" := JNum (int_or_zero (row !! "iops"));
                             "throughput" :=
                               JNum (int_or_zero (row !! "throughput")) ]})
                  parsedData)
      else if String.eqb sectionType "FEATURE_GRID" then
        Return (List.map (fun row =>
                  JObject {[ "icon" :=
                               JString (or_default (row !! "icon") "Star");
                             "title" :=
                               JString (or_default (row !! "title")
                                          "Untitled Feature");
                             "description" :=
                               JString (or_default (row !! "description") "") ]})
                  parsedData)
      else Throw (Error "Unsupported section type for CSV fallback")
  | _ =>
      Throw (Error "File must contain a header row and at least one data row.")
  end.

(** [typeof v === 'string'] and [typeof v === 'number'] on a possibly
    [undefined] value. *)
Definition is_string (v : option json) : bool :=
  match v with
  | Some (JString _) => true
  | _ => false
  end.

Definition is_number (v : option json) : bool :=
  match v with
  | Some (JNum _) => true
  | _ => false
  end.

(** [validateExtractedData(data, sectionType)].  Reading a property of
    [null] throws, which the [catch] turns into [false]: a [null] item,
    and a [null] title, whose [typeof] is ['object']. *)
Definition validateExtractedData (data : json) (sectionType : string)
  : bool :=
  if negb (truthy data) then false
  else if String.eqb sectionType "CUSTOM_HTML" then
    match data with
    | JObject _ => true
    | _ => false
    end
  else if String.eqb sectionType "COMPARISON_GRAPH" then
    match data with
    | JArray items =>
        forallb (fun item =>
                   match item with
                   | JNull => false
                   | _ => is_string (get_prop item "name")
                          && is_number (get_prop item "iops")
                          && is_number (get_prop item "throughput")
                   end) items
    | _ => false
    end
  else if String.eqb sectionType "FEATURE_GRID" then
    match data with
    | JArray items =>
        forallb (fun item =>
                   match item with
                   | JNull => false
                   | _ => is_string (get_prop item "icon")
                          && is_string (get_prop item "title")
                          && is_string (get_prop item "description")
                   end) items
    | _ => false
    end
  else if String.eqb sectionType "HERO" then
    match data with
    | JObject _ | JArray _ =>
        is_string (get_prop data "badge")
        && match get_prop data "title" with
           | Some (JObject _ as title) | Some (JArray _ as title) =>
               is_string (get_prop title "line1")
               && is_string (get_prop title "highlight")
           | Some JNull => false
           | _ => false
           end
        && is_string (get_prop data "subtitle")
    | _ => false
    end
  else false.

(** [extractDataWithAI(fileContent, sectionType, getPrompt)], given how
    the [try] block (the prompt, the call of the AI service and the
    extraction of JSON from its answer) completes.  The result is the
    data and the method. *)
Definition extractDataWithAI (ai : completion json)
  (fileContent sectionType : string) : completion (json * string) :=
  match ai with
  | Return extractedData => Return (extractedData, "ai")
  | Throw aiError =>
      match parseCSVFallback fileContent sectionType with
      | Return csvData => Return (JArray csvData, "csv")
      | Throw csvError =>
          Throw (Error
            ("AI extraction failed: " ++ message aiError
             ++ Summarizer.nl ++ Summarizer.nl
             ++ "CSV fallback also failed: " ++ message csvError
             ++ Summarizer.nl ++ Summarizer.nl
             ++ "Tip: For CSV format, use headers: name,iops,throughput (for graphs) or icon,title,description (for features)"))
      end
  end.

End Extraction.

(* ===================================================================== *)
(** ** promptService.js: loading the prompts *)
(* ===================================================================== *)

Module Prompts.

Definition CACHE_KEY : string := "quickstor_prompts".

(** The service object and the browser storage it reads: [prompts]
    ([JNull] for [null]), whether [initializationPromise] is set, and the
    number of requests for [/prompts.json] made so far. *)
Record state : Type :=
  State { prompts : json; initializationPromise : bool;
          localStorage : gmap string string; fetches : nat }.

(** The fallback: [system.default] is the empty string. *)
Definition fallback_prompts : json :=
  JObject {[ "system" := JObject {[ "default" := JString "" ]} ]}.

(** What the request for the defaults comes to: the body of a 2xx answer
    that parses, and no prompts otherwise. *)
Definition fetched_defaults (f : fetch_result) : option json :=
  match f with
  | FetchResponse st (Return defaults) =>
      if status_ok st then Some defaults else None
  | _ => None
  end.

Section Init.

(** [JSON.parse], which throws on a malformed text. *)
Variable JSON_parse : string -> completion json.

(** Step 2 of [init] and its [catch]: fetch the defaults, or fall back. *)
Definition load_defaults (f : fetch_result) (s : state) : state :=
  let loaded :=
    response ← await_fetch f;
    if negb (status_ok response.1)
    then Throw (Error "Failed to fetch default prompts")
    else response.2 in
  {| prompts := match loaded with
                | Return defaults => defaults
                | Throw _ => fallback_prompts
                end;
     initializationPromise := initializationPromise s;
     localStorage := localStorage s;
     fetches := S (fetches s) |}.

(** [init()], given what the fetch of [/prompts.json] delivers if it is
    made. *)
Definition init (f : fetch_result) (s : state) : state :=
  if initializationPromise s then s
  else
    let s1 := {| prompts := prompts s; initializationPromise := true;
                 localStorage := localStorage s; fetches := fetches s |} in
    match localStorage s !! CACHE_KEY with
    | Some stored =>
        if String.eqb stored "" then load_defaults f s1
        else
          match JSON_parse stored with
          | Return v =>
              {| prompts := v; initializationPromise := true;
                 localStorage := localStorage s; fetches := fetches s |}
          | Throw _ =>
              load_defaults f
                {| prompts := prompts s; initializationPromise := true;
                   localStorage := delete CACHE_KEY (localStorage s);
                   fetches := fetches s |}
          end
    | None => load_defaults f s1
    end.

(** [resetToDefaults()]: the state afterwards; the prompts it returns are
    those of that state. *)
Definition resetToDefaults (f : fetch_result) (s : state) : state :=
  init f
    {| prompts := JNull; initializationPromise := false;
       localStorage :=
         delete "quickstor_system_prompt"
           (delete "quickstor_system_prompt_custom"
              (delete CACHE_KEY (localStorage s)));
       fetches := fetches s |}.

End Init.

(** [get(path)]: the keys of the path are read one after the other with
    [?.], and a falsy end gives the empty string.  The keys are taken to
    be no index and no name of a built-in, as for [get_prop]. *)
Definition get (path : string) (s : state) : json :=
  if negb (truthy (prompts s)) then JString ""
  else
    match fold_left opt_prop (GeminiChat.split_on "."%char path)
                    (Some (prompts s)) with
    | Some v => if truthy v then v else JString ""
    | None => JString ""
    end.

Definition DEFAULT_PERSONA : string :=
  "You are a professional UX copywriter and web designer.".

(** [getSystemPrompt()]. *)
Definition getSystemPrompt (s : state) : json :=
  match localStorage s !! "quickstor_system_prompt_custom" with
  | Some custom =>
      if negb (String.eqb custom "") then JString custom
      else let d := get "system.default" s in
           if truthy d then d else JString DEFAULT_PERSONA
  | None =>
      let d := get "system.default" s in
      if truthy d then d else JString DEFAULT_PERSONA
  end.

(** [getAIPromptPrefix()] of the design-system prompts. *)
Definition getAIPromptPrefix (s : state) : json :=
  match localStorage s !! "quickstor_system_prompt_custom" with
  | Some custom =>
      if negb (String.eqb custom "") then JString custom
      else get "system.default" s
  | None => get "system.default" s
  end.

End Prompts.

(* ===================================================================== *)
(** * Properties *)
(* ===================================================================== *)

(** ** The backend store *)

Section BackendProperties.
Import Backend.

Variable array_get : list json -> string -> jsval.
Variable array_set : list json -> string -> json -> option (list json).

Lemma falsy_cases (v : json) :
  truthy v = false <->
  v = JNull \/ v = JBool false \/ v = JNum 0 \/ v = JString "".
Proof.
  split.
  - destruct v as [|[]|n|s| |]; simpl; try discriminate; auto.
    + intros H. apply negb_false_iff, Z.eqb_eq in H. subst. auto.
    + intros H. apply negb_false_iff, String.eqb_eq in H. subst. auto 6.
  - intros [->|[->|[->| ->]]]; reflexivity.
Qed.

Lemma object_get_own (own : gmap string json) (k : string) (v : json) :
  own !! k = Some v -> object_get own k = VJson v.
Proof. intros H. unfold object_get. now rewrite H. Qed.

Lemma object_get_absent (own : gmap string json) (k : string) :
  own !! k = None -> inherited k = false -> object_get own k = VUndefined.
Proof.
  intros H Hin. unfold object_get. rewrite H.
  apply orb_false_iff in Hin as [-> ->]. reflexivity.
Qed.

(** An assignment under any key but an unowned [__proto__] is read back
    by the next lookup. *)
Lemma object_get_set (own : gmap string json) (k : string) (v : json) :
  (k = "__proto__" -> is_Some (own !! k)) ->
  object_get (object_set own k v) k = VJson v.
Proof.
  intros Hk. unfold object_set.
  destruct (own !! k) eqn:E.
  - apply object_get_own, lookup_insert_eq.
  - destruct (String.eqb_spec k "__proto__") as [->|_].
    + destruct (Hk eq_refl) as [x Hx]. congruence.
    + apply object_get_own, lookup_insert_eq.
Qed.

(** Writing a truthy value (every JSON object is one) to a path and
    reading the path back answers 200 with that very value, for every
    object store and every path but an unowned [__proto__]. *)
Lemma post_doc_get_doc_roundtrip (d : disk) (own : gmap string json)
    (P : string) (V : json) :
  readData d = FObject own ->
  (P = "__proto__" -> is_Some (own !! P)) ->
  truthy V = true ->
  exists d',
    post_doc array_set true P V d =
      (Response 200 (BodyJson (JObject {[ "success" := JBool true;
                                          "path" := JString P ]})), d')
    /\ get_doc array_get P d' = Response 200 (BodyJson V).
Proof.
  intros Hd HP HV. eexists. split.
  - unfold post_doc. rewrite Hd. simpl. reflexivity.
  - unfold get_doc. simpl. rewrite object_get_set by assumption.
    simpl. now rewrite HV.
Qed.

(** C2, at the path [__proto__].  On an empty store, POST
    [/api/data/__proto__] with the object [{"a": 1}] answers 200 but
    writes the mapping back unchanged, and the GET that follows answers
    200 with [{}], which is not the value written.  (For every other
    path the round trip holds: [post_doc_get_doc_roundtrip].) *)
Theorem post_doc_proto_not_read_back :
  let V := JObject {[ "a" := JNum 1 ]} in
  let d := Some (FObject ∅) in
  let after := post_doc array_set true "__proto__" V d in
  status after.1 = 200
  /\ after.2 = d
  /\ get_doc array_get "__proto__" after.2
     = Response 200 (BodyJson (JObject ∅))
  /\ JObject ∅ <> V.
Proof.
  simpl. repeat split.
  intros H. apply (f_equal (fun j => get_prop j "a")) in H.
  vm_compute in H. discriminate.
Qed.

(** C3, as amended.  On an object store and for every path that is not
    a name inherited from [Object.prototype], GET [/api/data/:path]
    answers 404 exactly when the key is absent or its stored value is
    falsy ([null], [false], [0] or the empty string); a truthy stored
    value is returned with status 200; an absent key (a path never
    written) gets the not-found answer; and the handler never answers
    500. *)
Theorem get_doc_404_iff_absent_or_falsy (d : disk)
    (own : gmap string json) (P : string) :
  readData d = FObject own ->
  inherited P = false ->
  (status (get_doc array_get P d) = 404 <->
     own !! P = None
     \/ exists v, own !! P = Some v
                  /\ (v = JNull \/ v = JBool false \/ v = JNum 0
                      \/ v = JString ""))
  /\ (forall v, own !! P = Some v -> truthy v = true ->
        get_doc array_get P d = Response 200 (BodyJson v))
  /\ (own !! P = None ->
        get_doc array_get P d
        = Response 404 (BodyJson (error_body "Document not found")))
  /\ status (get_doc array_get P d) <> 500.
Proof.
  intros Hd Hin. unfold get_doc. rewrite Hd. simpl.
  destruct (own !! P) as [v|] eqn:E.
  - rewrite (object_get_own _ _ _ E). simpl.
    destruct (truthy v) eqn:T; simpl; repeat split; try discriminate.
    + intros [H|(v' & Hv' & Hf)]; [discriminate|].
      injection Hv' as <-. apply falsy_cases in Hf. congruence.
    + intros v' Hv' _. now injection Hv' as <-.
    + intros _. right. exists v. split; [reflexivity|].
      now apply falsy_cases.
    + intros v' Hv' Ht. injection Hv' as <-. congruence.
  - rewrite (object_get_absent _ _ E Hin). simpl.
    repeat split; auto; discriminate.
Qed.

(** C9.  When the stored object maps [P] to a falsy value ([null],
    [false], [0] or the empty string), which a full restore whose body
    is that object puts on disk, GET [/api/data/:path] for [P] answers
    404 although the key is present. *)
Theorem get_doc_falsy_value_is_404 (d : disk) (own : gmap string json)
    (P : string) (v : json) :
  own !! P = Some v ->
  v = JNull \/ v = JBool false \/ v = JNum 0 \/ v = JString "" ->
  let restored := post_all true (JObject own) d in
  status restored.1 = 200
  /\ restored.2 = Some (FObject own)
  /\ is_Some (own !! P)
  /\ get_doc array_get P restored.2
     = Response 404 (BodyJson (error_body "Document not found")).
Proof.
  intros HP Hf. apply falsy_cases in Hf. simpl.
  repeat split; [now exists v|].
  unfold get_doc. simpl. rewrite (object_get_own _ _ _ HP). simpl.
  now rewrite Hf.
Qed.

End BackendProperties.

(** C3 as stated fails: with [{"a": 0}] on disk, GET [/api/data/a]
    answers 404 although the key [a] is present. *)
Lemma get_doc_404_key_present :
  let own : gmap string json := {[ "a" := JNum 0 ]} in
  ~ (Backend.status (Backend.get_doc Backend.no_array_get "a"
                       (Some (Backend.FObject own))) = 404
     <-> own !! "a" = None).
Proof.
  simpl. intros [H _]. specialize (H eq_refl). vm_compute in H. discriminate.
Qed.

Lemma get_doc_404_iff_absent_or_falsy_witness :
  let own : gmap string json := {[ "a" := JNum 0; "b" := JString "x" ]} in
  let d := Some (Backend.FObject own) in
  Backend.get_doc Backend.no_array_get "b" d
    = Backend.Response 200 (Backend.BodyJson (JString "x"))
  /\ Backend.status (Backend.get_doc Backend.no_array_get "a" d) = 404
  /\ Backend.status (Backend.get_doc Backend.no_array_get "c" d) = 404.
Proof.
  intros own d.
  pose proof (get_doc_404_iff_absent_or_falsy Backend.no_array_get d own "b"
                eq_refl eq_refl) as (_ & Hb & _).
  pose proof (get_doc_404_iff_absent_or_falsy Backend.no_array_get d own "a"
                eq_refl eq_refl) as (Ha & _).
  pose proof (get_doc_404_iff_absent_or_falsy Backend.no_array_get d own "c"
                eq_refl eq_refl) as (Hc & _).
  split; [apply Hb; reflexivity|]. split.
  - apply Ha. right. exists (JNum 0). split; [reflexivity|]. auto.
  - apply Hc. left. reflexivity.
Defined.

Lemma get_doc_falsy_value_is_404_witness :
  let own : gmap string json := {[ "a" := JNum 0 ]} in
  own !! "a" = Some (JNum 0)
  /\ Backend.get_doc Backend.no_array_get "a"
       (Backend.post_all true (JObject own) None).2
     = Backend.Response 404
         (Backend.BodyJson (Backend.error_body "Document not found")).
Proof.
  intros own. split; [reflexivity|].
  apply (get_doc_falsy_value_is_404 Backend.no_array_get None own "a" (JNum 0));
    [reflexivity | auto].
Defined.

(** ** The client adapter *)

Section AdapterProperties.
Import Adapter.

Variable BACKEND_URL : string.
Variable JSON_stringify : parsed -> string.
Variable r : docRef.

Lemma getDoc_returns (f : fetch_result) :
  getDoc f r = Return (missing r)
  \/ exists data,
       f = FetchResponse (match f with
                          | FetchResponse st _ => st
                          | _ => 200
                          end) (Return data)
       /\ getDoc f r = Return {| snap_exists := true; snap_data := Some data;
                                 snap_id := id r |}.
Proof.
  destruct f as [e|st [data|e]]; unfold getDoc, getDoc_from; simpl; auto.
  - destruct (status_ok st); simpl; [|destruct (st =? 404); auto].
    right. exists data. auto.
  - destruct (status_ok st); simpl; [|destruct (st =? 404)]; auto.
Qed.

Lemma getDoc_total (f : fetch_result) : exists snap, getDoc f r = Return snap.
Proof. destruct (getDoc_returns f) as [H|(data & _ & H)]; eauto. Qed.

Lemma getDoc_failed (f : fetch_result) :
  fetch_failed f = true -> getDoc f r = Return (missing r).
Proof.
  destruct f as [e|st [data|e]]; unfold getDoc, getDoc_from; simpl; auto.
  - rewrite orb_false_r. intros ->. simpl. now destruct (st =? 404).
  - destruct (status_ok st); simpl; [|destruct (st =? 404)]; auto.
Qed.

(** C10.  [getDoc] resolves whatever its [fetch] delivers.  When the read
    fails (network error, non-2xx status, body that is not JSON) the
    snapshot has [exists() = false] and [data() = undefined], the very
    snapshot a 404 yields; and [setDoc] with [{merge: true}] then sends,
    after its read, the same POST of [data] alone that a [setDoc] without
    [merge] sends, and completes the same way. *)
Theorem getDoc_never_rejects_merge_degrades (read write : fetch_result)
    (data : json) :
  (exists snap, getDoc read r = Return snap)
  /\ (fetch_failed read = true ->
      getDoc read r = Return (missing r)
      /\ snap_exists (missing r) = false
      /\ snap_data (missing r) = None
      /\ (forall body, getDoc (FetchResponse 404 body) r = getDoc read r)
      /\ (setDoc BACKEND_URL read write r data None).1
         = [Request POST (doc_url BACKEND_URL r) (Some data)]
      /\ setDoc BACKEND_URL read write r data (Some (SetOptions true))
         = (Request GET (doc_url BACKEND_URL r) None
              :: (setDoc BACKEND_URL read write r data None).1,
            (setDoc BACKEND_URL read write r data None).2)).
Proof.
  split; [apply getDoc_total|].
  intros Hf. pose proof (getDoc_failed read Hf) as Hg.
  split; [exact Hg|]. split; [reflexivity|]. split; [reflexivity|].
  split; [|split].
  - intros body. rewrite Hg. apply getDoc_failed. reflexivity.
  - reflexivity.
  - unfold setDoc. simpl. rewrite Hg. reflexivity.
Qed.

(** *** The frontend watcher *)

#[local] Abbreviation ser := (serialized JSON_stringify).
#[local] Abbreviation fstep := (Frontend.step JSON_stringify r).
#[local] Abbreviation frun := (Frontend.run JSON_stringify r).
#[local] Abbreviation fcalls := (Frontend.callbacks JSON_stringify r).

(** The two readings of a delivery agree: forgetting the order of the
    keys in the snapshot of the poll gives the snapshot [getDoc] has for
    the same delivery. *)
Lemma getDoc_parsed_plain (p : polled) :
  getDoc (fetched p) r
  = match getDoc_parsed p r with
    | Return snap => Return (plain_snapshot snap)
    | Throw e => Throw e
    end.
Proof.
  destruct p as [e|st [v|e]]; unfold getDoc, getDoc_parsed, getDoc_from;
    simpl; try reflexivity;
    destruct (status_ok st); simpl; try reflexivity;
    destruct (st =? 404); reflexivity.
Qed.

Lemma getDoc_parsed_total (p : polled) :
  exists snap, getDoc_parsed p r = Return snap.
Proof.
  destruct p as [e|st [v|e]]; unfold getDoc_parsed, getDoc_from; simpl;
    eauto; destruct (status_ok st); simpl; eauto;
    destruct (st =? 404); simpl; eauto.
Qed.

Lemma getDoc_parsed_failed (p : polled) :
  fetch_failed (fetched p) = true ->
  getDoc_parsed p r = Return (missing_of r).
Proof.
  destruct p as [e|st [v|e]]; unfold getDoc_parsed, getDoc_from; simpl; auto.
  - rewrite orb_false_r. intros ->. simpl. now destruct (st =? 404).
  - destruct (status_ok st); simpl; [|destruct (st =? 404)]; auto.
Qed.

Lemma serialized_not_null (s : snapshot_of parsed) : ser s <> TNull.
Proof. unfold serialized. now destruct (snap_data s). Qed.

Lemma last_cons {A} (x d : A) (l : list A) :
  List.last (x :: l) d = List.last l x.
Proof.
  revert x d. induction l as [|y l IH]; intros x d; [reflexivity|].
  change (List.last (y :: l) d = List.last (y :: l) x).
  now rewrite (IH y d), (IH y x).
Qed.

Lemma last_snoc {A} (x d : A) (l : list A) :
  List.last (l ++ [x]) d = x.
Proof.
  revert d. induction l as [|y l IH]; intros d; [reflexivity|].
  change ((y :: l) ++ [x])%list with (y :: (l ++ [x]))%list.
  rewrite last_cons. apply IH.
Qed.

(** What the end of a poll does, in full: the snapshot reaches
    [callback] and becomes [lastJson] when its serialization differs
    from [lastJson], and the timer is armed again while the subscription
    is active. *)
Lemma frontend_deliver (w : Frontend.watcher) (p : polled)
    (snap : snapshot_of parsed) :
  Frontend.stage w = Frontend.InFlight ->
  getDoc_parsed p r = Return snap ->
  fstep w (Deliver p)
  = ({| Frontend.isActive := Frontend.isActive w;
        Frontend.lastJson :=
          if decide (ser snap = Frontend.lastJson w)
          then Frontend.lastJson w else ser snap;
        Frontend.stage :=
          if Frontend.isActive w then Frontend.Armed 2000
          else Frontend.Stopped |},
     if decide (ser snap = Frontend.lastJson w) then [] else [snap]).
Proof.
  intros Hst Hs. unfold Frontend.step. rewrite Hst.
  unfold Frontend.fetchData_resume. rewrite Hs.
  destruct (decide (ser snap ≠ Frontend.lastJson w)) as [n|n];
    destruct (decide (ser snap = Frontend.lastJson w)) as [e|e];
    try reflexivity; [contradiction|].
  destruct n. exact e.
Qed.

(** What a firing timer does: it starts the next fetch, unless the
    subscription was cancelled meanwhile. *)
Lemma frontend_tick (w : Frontend.watcher) (d : Z) :
  Frontend.stage w = Frontend.Armed d ->
  fstep w Tick
  = ({| Frontend.isActive := Frontend.isActive w;
        Frontend.lastJson := Frontend.lastJson w;
        Frontend.stage :=
          if Frontend.isActive w then Frontend.InFlight
          else Frontend.Stopped |}, []).
Proof.
  intros Hst. unfold Frontend.step. rewrite Hst.
  unfold Frontend.fetchData_start. now destruct (Frontend.isActive w).
Qed.

(** A step hands [callback] nothing and keeps [lastJson], or hands it one
    snapshot whose serialization differs from [lastJson] and becomes the
    new [lastJson]. *)
Lemma frontend_step_cases (w : Frontend.watcher) (e : event) :
  ((fstep w e).2 = [] /\ Frontend.lastJson (fstep w e).1
                         = Frontend.lastJson w)
  \/ exists snap,
       (fstep w e).2 = [snap]
       /\ Frontend.lastJson (fstep w e).1 = ser snap
       /\ ser snap <> Frontend.lastJson w.
Proof.
  destruct e as [p| |]; unfold Frontend.step.
  - destruct (Frontend.stage w); auto.
    unfold Frontend.fetchData_resume.
    destruct (getDoc_parsed p r) as [snap|err]; auto.
    destruct (decide (ser snap ≠ Frontend.lastJson w)); simpl; auto.
    right. exists snap. auto.
  - destruct (Frontend.stage w); auto.
    left. unfold Frontend.fetchData_start.
    now destruct (negb (Frontend.isActive w)).
  - auto.
Qed.

Lemma frontend_run_invariant (es : list event) (w : Frontend.watcher) :
  no_repeat (Frontend.lastJson w :: List.map ser (frun w es).2)
  /\ Frontend.lastJson (frun w es).1
     = List.last (List.map ser (frun w es).2) (Frontend.lastJson w).
Proof.
  revert w. induction es as [|e es IH]; intros w; [simpl; auto|].
  simpl. pose proof (frontend_step_cases w e) as Hs.
  destruct (fstep w e) as [w1 out1]. specialize (IH w1).
  destruct (frun w1 es) as [w2 out2]. simpl in *.
  destruct Hs as [[-> Hl]|(snap & -> & Hl & Hne)]; simpl.
  - rewrite <- Hl. exact IH.
  - rewrite Hl in IH. destruct IH as [IH1 IH2]. split.
    + split; [congruence | exact IH1].
    + rewrite IH2. symmetry. apply last_cons.
Qed.

Lemma no_repeat_tail (a : json_text) (l : list json_text) :
  no_repeat (a :: l) -> no_repeat l.
Proof. destruct l; simpl; tauto. Qed.

Lemma frontend_run_app (es1 es2 : list event) (w : Frontend.watcher) :
  frun w (es1 ++ es2)
  = ((frun (frun w es1).1 es2).1,
     ((frun w es1).2 ++ (frun (frun w es1).1 es2).2)%list).
Proof.
  revert w. induction es1 as [|e es1 IH]; intros w.
  - simpl. now destruct (frun w es2).
  - change ((e :: es1) ++ es2)%list with (e :: (es1 ++ es2))%list.
    simpl. destruct (fstep w e) as [w1 out1]. rewrite (IH w1).
    destruct (frun w1 es1) as [w2 out2]. simpl.
    destruct (frun w2 es2) as [w3 out3]. simpl.
    now rewrite List.app_assoc.
Qed.

Lemma polls_snoc (ps : list polled) (p : polled) :
  Frontend.polls (ps ++ [p]) = (Frontend.polls ps ++ [Deliver p; Tick])%list.
Proof.
  unfold Frontend.polls. rewrite List.flat_map_app. reflexivity.
Qed.

(** One poll of an active subscription: the fetch ends, the timer fires,
    the next fetch is pending. *)
Lemma frontend_poll (w : Frontend.watcher) (p : polled)
    (snap : snapshot_of parsed) :
  Frontend.stage w = Frontend.InFlight ->
  Frontend.isActive w = true ->
  getDoc_parsed p r = Return snap ->
  frun w [Deliver p; Tick]
  = ({| Frontend.isActive := true;
        Frontend.lastJson :=
          if decide (ser snap = Frontend.lastJson w)
          then Frontend.lastJson w else ser snap;
        Frontend.stage := Frontend.InFlight |},
     if decide (ser snap = Frontend.lastJson w) then [] else [snap]).
Proof.
  intros Hst Ha Hs. cbn [Frontend.run].
  rewrite (frontend_deliver w p snap Hst Hs), Ha. cbv beta iota zeta.
  rewrite (frontend_tick _ 2000) by reflexivity. cbn.
  now rewrite !List.app_nil_r.
Qed.

(** A subscription that is left running is, after any number of polls,
    active with the next fetch pending. *)
Lemma frontend_polls_state (ps : list polled) :
  Frontend.isActive (frun Frontend.onSnapshot (Frontend.polls ps)).1 = true
  /\ Frontend.stage (frun Frontend.onSnapshot (Frontend.polls ps)).1
     = Frontend.InFlight.
Proof.
  induction ps as [|p ps IH] using List.rev_ind; [split; reflexivity|].
  rewrite polls_snoc, frontend_run_app.
  destruct (frun Frontend.onSnapshot (Frontend.polls ps)) as [w out].
  cbn [fst snd] in *. destruct IH as [Ha Hst].
  destruct (getDoc_parsed_total p) as [snap Hs].
  rewrite (frontend_poll w p snap Hst Ha Hs). split; reflexivity.
Qed.

Lemma frontend_polls_snoc (ps : list polled) (p : polled)
    (snap : snapshot_of parsed) :
  getDoc_parsed p r = Return snap ->
  fcalls (Frontend.polls (ps ++ [p]))
  = (fcalls (Frontend.polls ps)
     ++ if decide (ser snap
                   = List.last (List.map ser (fcalls (Frontend.polls ps)))
                               TNull)
        then [] else [snap])%list.
Proof.
  intros Hs. unfold Frontend.callbacks.
  rewrite polls_snoc, frontend_run_app.
  destruct (frontend_polls_state ps) as [Ha Hst].
  destruct (frontend_run_invariant (Frontend.polls ps) Frontend.onSnapshot)
    as [_ Hlast].
  destruct (frun Frontend.onSnapshot (Frontend.polls ps)) as [w out].
  cbn [fst snd] in *.
  rewrite (frontend_poll w p snap Hst Ha Hs). cbn [fst snd].
  now rewrite Hlast.
Qed.

(** C1, as amended.  Frontend adapter: the subscription starts a fetch
    at once.  Every poll that ends arms the 2000 ms timer again while the
    subscription is active, and hands its snapshot to the callback
    exactly when its serialization differs from [lastJson]; a timer that
    fires starts the next fetch.  So a subscription left running keeps
    polling: the first poll always reaches the callback, each later poll
    reaches it exactly when its serialization differs from the one
    handed to the last invocation, [lastJson] is that serialization, and
    on no run do two consecutive invocations carry the same
    serialization.  Admin adapter: the subscription starts one fetch and
    a 2000 ms interval, each firing starts a fetch, and every fetch that
    ends reaches the callback, whatever its content. *)
Theorem onSnapshot_frontend_dedupes_admin_forwards :
  Frontend.onSnapshot
  = {| Frontend.isActive := true; Frontend.lastJson := TNull;
       Frontend.stage := Frontend.InFlight |}
  /\ (forall w p,
        Frontend.stage w = Frontend.InFlight ->
        exists snap,
          getDoc_parsed p r = Return snap
          /\ fstep w (Deliver p)
             = ({| Frontend.isActive := Frontend.isActive w;
                   Frontend.lastJson :=
                     if decide (ser snap = Frontend.lastJson w)
                     then Frontend.lastJson w else ser snap;
                   Frontend.stage :=
                     if Frontend.isActive w then Frontend.Armed 2000
                     else Frontend.Stopped |},
                if decide (ser snap = Frontend.lastJson w)
                then [] else [snap]))
  /\ (forall w d,
        Frontend.stage w = Frontend.Armed d ->
        fstep w Tick
        = ({| Frontend.isActive := Frontend.isActive w;
              Frontend.lastJson := Frontend.lastJson w;
              Frontend.stage :=
                if Frontend.isActive w then Frontend.InFlight
                else Frontend.Stopped |}, []))
  /\ (forall ps,
        Frontend.isActive (frun Frontend.onSnapshot (Frontend.polls ps)).1
        = true
        /\ Frontend.stage (frun Frontend.onSnapshot (Frontend.polls ps)).1
           = Frontend.InFlight)
  /\ (forall p, exists snap,
        getDoc_parsed p r = Return snap
        /\ fcalls (Frontend.polls [p]) = [snap])
  /\ (forall ps p, exists snap,
        getDoc_parsed p r = Return snap
        /\ fcalls (Frontend.polls (ps ++ [p]))
           = (fcalls (Frontend.polls ps)
              ++ if decide
                      (ser snap
                       = List.last
                           (List.map ser (fcalls (Frontend.polls ps)))
                           TNull)
                 then [] else [snap])%list)
  /\ (forall es,
        Frontend.lastJson (frun Frontend.onSnapshot es).1
        = List.last (List.map ser (fcalls es)) TNull
        /\ no_repeat (List.map ser (fcalls es)))
  /\ Admin.onSnapshot = {| Admin.interval := Some 2000; Admin.pending := 1 |}
  /\ (forall w d,
        Admin.interval w = Some d ->
        Admin.step r w Tick
        = ({| Admin.interval := Some d; Admin.pending := S (Admin.pending w) |},
           []))
  /\ (forall w p,
        Admin.pending w <> O ->
        exists snap,
          getDoc_parsed p r = Return snap
          /\ Admin.step r w (Deliver p)
             = ({| Admin.interval := Admin.interval w;
                   Admin.pending := Nat.pred (Admin.pending w) |}, [snap])).
Proof.
  split; [reflexivity|]. split.
  { intros w p Hst. destruct (getDoc_parsed_total p) as [snap Hs].
    exists snap. split; [exact Hs|]. now apply frontend_deliver. }
  split; [exact frontend_tick|].
  split; [exact frontend_polls_state|]. split.
  { intros p. destruct (getDoc_parsed_total p) as [snap Hs]. exists snap.
    split; [exact Hs|].
    change [p] with ([] ++ [p])%list.
    rewrite (frontend_polls_snoc [] p snap Hs).
    change (fcalls (Frontend.polls [])) with (@nil (snapshot_of parsed)).
    cbn [List.map List.last app].
    destruct (decide (ser snap = TNull)) as [e|_]; [|reflexivity].
    now apply serialized_not_null in e. }
  split.
  { intros ps p. destruct (getDoc_parsed_total p) as [snap Hs]. exists snap.
    split; [exact Hs|]. now apply frontend_polls_snoc. }
  split.
  { intros es. split.
    - apply (frontend_run_invariant es Frontend.onSnapshot).
    - eapply no_repeat_tail.
      apply (frontend_run_invariant es Frontend.onSnapshot). }
  split; [reflexivity|]. split.
  { intros w d Hd. unfold Admin.step. now rewrite Hd. }
  intros w p Hp. destruct (getDoc_parsed_total p) as [snap Hs]. exists snap.
  split; [exact Hs|]. unfold Admin.step.
  destruct (Admin.pending w); [contradiction|].
  simpl. unfold Admin.fetchData_resume. now rewrite Hs.
Qed.

End AdapterProperties.

(** C1 as stated fails for the admin adapter: two polls that find the same
    document invoke the callback twice with the same serialization. *)
Lemma admin_onSnapshot_repeats_same_content :
  let r := Adapter.doc ["sites"; "quickstor-staging"] in
  let p := Adapter.PollResponse 200
             (Return (PObject [("title", PString "Home")])) in
  ~ Adapter.no_repeat
      (List.map (Adapter.serialized stringify)
         (Admin.callbacks r
            [Adapter.Deliver p; Adapter.Tick; Adapter.Deliver p])).
Proof. vm_compute. intros [H _]. apply H. reflexivity. Qed.

Lemma onSnapshot_frontend_dedupes_admin_forwards_witness :
  let r := Adapter.doc ["sites"; "quickstor-staging"] in
  let ab := PObject [("a", PNum 1); ("b", PNum 2)] in
  let ba := PObject [("b", PNum 2); ("a", PNum 1)] in
  let snap (v : parsed) :=
    {| Adapter.snap_exists := true; Adapter.snap_data := Some v;
       Adapter.snap_id := Some "quickstor-staging" |} in
  plain ab = plain ba
  /\ Frontend.callbacks stringify r
       (Frontend.polls
          [Adapter.PollResponse 200 (Return ab);
           Adapter.PollResponse 200 (Return ab);
           Adapter.PollResponse 200 (Return ba)])
     = [snap ab; snap ba].
Proof.
  intros r ab ba snap.
  destruct (onSnapshot_frontend_dedupes_admin_forwards stringify r)
    as (_ & _ & _ & _ & H1 & Hn & _).
  split; [vm_compute; reflexivity|].
  destruct (Hn [Adapter.PollResponse 200 (Return ab);
                Adapter.PollResponse 200 (Return ab)]
               (Adapter.PollResponse 200 (Return ba)))
    as (s3 & Hs3 & H3).
  destruct (Hn [Adapter.PollResponse 200 (Return ab)]
               (Adapter.PollResponse 200 (Return ab)))
    as (s2 & Hs2 & H2).
  destruct (H1 (Adapter.PollResponse 200 (Return ab))) as (s1 & Hs1 & H1').
  cbn [app] in H2, H3. rewrite H3, H2, H1'.
  injection Hs1 as <-. injection Hs2 as <-. injection Hs3 as <-.
  reflexivity.
Defined.

Lemma getDoc_never_rejects_merge_degrades_witness :
  let r := Adapter.doc ["sites"; "quickstor-staging"] in
  let read := FetchResponse 500 (Return (JObject ∅)) in
  let write := FetchResponse 200 (Return (JObject {[ "success" := JBool true ]})) in
  let data := JObject {[ "title" := JString "Home" ]} in
  Adapter.fetch_failed read = true
  /\ Adapter.setDoc Admin.BACKEND_URL read write r data
       (Some (Adapter.SetOptions true))
     = ([Adapter.Request Adapter.GET "/api/data/sites/quickstor-staging" None;
         Adapter.Request Adapter.POST "/api/data/sites/quickstor-staging"
           (Some data)],
        Return (JObject {[ "success" := JBool true ]})).
Proof.
  intros r read write data. split; [reflexivity|].
  destruct (getDoc_never_rejects_merge_degrades Admin.BACKEND_URL r
              read write data) as [_ H].
  destruct (H eq_refl) as (_ & _ & _ & _ & _ & ->). reflexivity.
Defined.

(** ** The Gemini gateway *)

Section GeminiProperties.
Import Gemini.

Variable net : nat -> json -> fetch_result.






End GeminiProperties.



(** ** The context summarizer *)

Section SummarizerProperties.
Import Summarizer.

Lemma length_append (a b : string) :
  String.length (a ++ b) = (String.length a + String.length b)%nat.
Proof. induction a as [|c a IH]; simpl; [reflexivity|now rewrite IH]. Qed.

Lemma length_substring (s : string) (n m : nat) :
  String.length (String.substring n m s)
  = Nat.min m (String.length s - n).
Proof.
  revert n m. induction s as [|c s IH]; intros n m.
  - destruct n, m; simpl; lia.
  - destruct n as [|n]; [destruct m as [|m]|]; simpl; [reflexivity| |].
    + specialize (IH 0%nat m). rewrite Nat.sub_0_r in IH.
      now rewrite IH.
    + apply IH.
Qed.

Lemma length_substring_to (s : string) (k : Z) :
  String.length (substring_to s k)
  = Nat.min (Z.to_nat k) (String.length s).
Proof.
  unfold substring_to. rewrite length_substring. now rewrite Nat.sub_0_r.
Qed.

Lemma length_substring_from (s : string) (k : Z) :
  String.length (substring_from s k)
  = (String.length s - Z.to_nat k)%nat.
Proof. unfold substring_from. rewrite length_substring. lia. Qed.

(** [estimateTokenCount] is the ceiling of a quarter of the length. *)
Lemma estimateTokenCount_ceil (text : string) :
  4 * (estimateTokenCount text - 1) < Z.of_nat (String.length text)
  <= 4 * estimateTokenCount text.
Proof.
  unfold estimateTokenCount.
  destruct (String.eqb_spec text "") as [->|_]; [simpl; lia|].
  pose proof (Z.div_mod (Z.of_nat (String.length text) + 3) 4 ltac:(lia)).
  pose proof (Z.mod_pos_bound (Z.of_nat (String.length text) + 3) 4
                ltac:(lia)).
  lia.
Qed.

Lemma estimateTokenCount_length (text : string) :
  estimateTokenCount text = (Z.of_nat (String.length text) + 3) / 4.
Proof.
  unfold estimateTokenCount.
  destruct (String.eqb_spec text "") as [->|_]; reflexivity.
Qed.

(** C7.  A text whose estimated token count, the ceiling of a quarter of
    its length, does not exceed the target is returned unchanged, with no
    summarizer call made and nothing reported, whatever the summarizer
    and the LLM behind it. *)
Theorem summarizeDocumentForContext_identity
    (chunk_summarizer : nat -> string -> Z -> completion string)
    (llm : nat -> chat_request -> proxy_reply)
    (fuel calls : nat) (text : string) (targetTokens : Z)
    (config : option ai_config) :
  estimateTokenCount text <= targetTokens ->
  (4 * (estimateTokenCount text - 1) < Z.of_nat (String.length text)
   <= 4 * estimateTokenCount text)
  /\ summarizeDocumentForContext chunk_summarizer (S fuel) calls text
       targetTokens config
     = Some (Return {| result := text; calls := calls; reports := [] |})
  /\ summarizeDocumentForContext_llm llm (S fuel) text targetTokens config
     = Some (Return {| result := text; calls := 0; reports := [] |}).
Proof.
  intros H. split; [apply estimateTokenCount_ceil|].
  unfold summarizeDocumentForContext_llm. simpl.
  apply Z.leb_le in H. rewrite H. auto.
Qed.

Lemma substring_all (s : string) :
  String.substring 0 (String.length s) s = s.
Proof. induction s as [|c s IH]; simpl; [reflexivity|now rewrite IH]. Qed.

Lemma substring_split (s : string) (n : nat) :
  String.substring 0 n s ++ String.substring n (String.length s - n) s = s.
Proof.
  revert n. induction s as [|c s IH]; intros n.
  - destruct n; reflexivity.
  - destruct n as [|n]; simpl.
    + now rewrite substring_all.
    + change (String c (String.substring 0 n s
                        ++ String.substring n (String.length s - n) s)
              = String c s).
      f_equal. apply IH.
Qed.

Lemma substring_to_from (s : string) (k : Z) :
  substring_to s k ++ substring_from s k = s.
Proof. apply substring_split. Qed.

Lemma append_empty (s : string) : s ++ "" = s.
Proof.
  induction s as [|c s IH]; [reflexivity|].
  change (String c (s ++ "") = String c s). now rewrite IH.
Qed.

Lemma length_zero (s : string) : String.length s = 0%nat -> s = "".
Proof. destruct s; [reflexivity|discriminate]. Qed.

(** A chunk is at most a quarter of the context window, which is at
    least 16385 tokens for every provider. *)
Lemma getContextLimit_quarter (config : option ai_config) :
  4096 <= getContextLimit config / 4
  /\ 4 * (getContextLimit config / 4) <= getContextLimit config.
Proof.
  unfold getContextLimit.
  destruct config as [c|]; [|vm_compute; split; discriminate].
  destruct (decide _); [|vm_compute; split; discriminate].
  repeat match goal with
         | |- context [if ?b then _ else _] => destruct b
         end; vm_compute; split; discriminate.
Qed.

(** The splitting loop ends when the chunk size is positive; its chunks
    are at most that long and make up the text. *)
Lemma split_chunks_spec (size : Z) (fuel : nat) (s : string) :
  0 < size -> (String.length s <= fuel)%nat ->
  exists chunks,
    split_chunks fuel size s = Some chunks
    /\ Forall (fun c => (String.length c <= Z.to_nat size)%nat) chunks
    /\ String.concat "" chunks = s.
Proof.
  intros Hsize. revert s. induction fuel as [|fuel IH]; intros s Hlen.
  - exists []. simpl. replace (String.length s) with 0%nat by lia.
    simpl. repeat split; [constructor|].
    symmetry. apply length_zero. lia.
  - simpl. destruct (Nat.eqb_spec (String.length s) 0) as [E|E].
    + exists []. repeat split; [constructor|].
      symmetry. now apply length_zero.
    + destruct (IH (substring_from s size)) as (chunks & -> & Hall & Hcat).
      { rewrite length_substring_from. lia. }
      exists (substring_to s size :: chunks). split; [reflexivity|]. split.
      * constructor; [|exact Hall]. rewrite length_substring_to. lia.
      * simpl. rewrite Hcat.
        destruct chunks as [|c chunks].
        -- simpl in Hcat. rewrite <- (substring_to_from s size) at 2.
           rewrite <- Hcat. now rewrite append_empty.
        -- simpl. apply substring_to_from.
Qed.

Lemma split_chunks_nonempty (size : Z) (fuel : nat) (s : string)
    (chunks : list string) :
  split_chunks fuel size s = Some chunks -> chunks <> [] ->
  String.length s <> 0%nat.
Proof.
  intros H Hne E. destruct fuel; simpl in H; rewrite E in H; simpl in H;
    injection H as <-; contradiction.
Qed.

Section AnySummarizer.

Variable cs : nat -> string -> Z -> completion string.
Hypothesis cs_returns : forall i text t, exists s, cs i text t = Return s.

(** The loop over the chunks returns one summary per chunk, each a result
    of the summarizer on its chunk, and reports the chunks only. *)
Lemma summarize_chunks_spec (chunks : list string) (calls i n : nat)
    (t : Z) :
  exists summaries reps,
    summarize_chunks cs calls i n chunks t = Return (summaries, reps)
    /\ Forall2 (fun sm c => exists k, cs k c t = Return sm) summaries chunks
    /\ passes reps = 0%nat.
Proof.
  revert calls i. induction chunks as [|c chunks IH]; intros calls i.
  - exists [], []. repeat split. constructor.
  - destruct (cs_returns calls c t) as [sm Hsm].
    destruct (IH (S calls) (S i)) as (sums & reps & Hrec & Hall & Hp).
    exists (sm :: sums), (SummarizingChunk (S i) n :: reps).
    simpl. rewrite Hsm. simpl. rewrite Hrec. simpl.
    repeat split; [|exact Hp].
    constructor; [now exists calls|exact Hall].
Qed.


Lemma passes_app (a b : list progress) :
  passes (a ++ b) = (passes a + passes b)%nat.
Proof. unfold passes. now rewrite List.filter_app, List.length_app. Qed.

(** A result was found to fit the target, or it is what a single
    summarizer call made of a text below the chunk size. *)
Lemma summarize_result (fuel calls : nat) (text : string) (target : Z)
    (config : option ai_config) (s : summary) :
  summarizeDocumentForContext cs fuel calls text target config
  = Some (Return s) ->
  estimateTokenCount (result s) <= target
  \/ exists i text',
       target < estimateTokenCount text' < getContextLimit config / 4
       /\ cs i text' target = Return (result s).
Proof.
  revert calls text s. induction fuel as [|fuel IH]; intros calls text s;
    [discriminate|].
  simpl. destruct (Z.leb_spec (estimateTokenCount text) target) as [Hle|Hgt].
  { intros H. injection H as <-. now left. }
  destruct (Z.ltb_spec (estimateTokenCount text)
              (getContextLimit config / 4)) as [Hlt|Hge].
  - destruct (cs calls text target) as [r|e] eqn:E; [|discriminate].
    simpl. intros H. injection H as <-. right. exists calls, text.
    split; [lia|exact E].
  - destruct (split_chunks _ _ _) as [chunks|]; [|discriminate].
    destruct (summarize_chunks cs calls 0 _ chunks _) as [[sums reps]|e];
      [|discriminate].
    destruct (Z.gtb_spec (estimateTokenCount (String.concat (nl ++ nl) sums))
                target) as [Hbig|Hfit].
    + specialize (IH (calls + List.length chunks)%nat
                     (String.concat (nl ++ nl) sums)).
      destruct (summarizeDocumentForContext cs fuel _ _ target config)
        as [[s'|e']|]; simpl; try discriminate.
      intros H. injection H as <-. simpl. now apply IH.
    + intros H. injection H as <-. simpl. now left.
Qed.

(** Each additional pass takes one unit of depth. *)
Lemma summarize_passes (fuel calls : nat) (text : string) (target : Z)
    (config : option ai_config) (s : summary) :
  summarizeDocumentForContext cs fuel calls text target config
  = Some (Return s) ->
  (passes (reports s) < fuel)%nat.
Proof.
  revert calls text s. induction fuel as [|fuel IH]; intros calls text s;
    [discriminate|].
  simpl. destruct (_ <=? _).
  { intros H. injection H as <-. simpl. unfold passes. simpl. lia. }
  destruct (_ <? _).
  - destruct (cs calls text target) as [r|e]; [|discriminate].
    simpl. intros H. injection H as <-. unfold passes. simpl. lia.
  - destruct (split_chunks _ _ _) as [chunks|]; [|discriminate].
    destruct (summarize_chunks_spec chunks calls 0 (List.length chunks)
                (Z.min (getContextLimit config / 4 / 10)
                       (target / Z.of_nat (List.length chunks))))
      as (sums & reps & -> & _ & Hp).
    destruct (_ >? _).
    + specialize (IH (calls + List.length chunks)%nat
                     (String.concat (nl ++ nl) sums)).
      destruct (summarizeDocumentForContext cs fuel _ _ target config)
        as [[s'|e']|]; simpl; try discriminate.
      intros H. injection H as <-. simpl.
      specialize (IH s' eq_refl).
      change (passes ([Analyzing ((estimateTokenCount text + 500) / 1000);
                       Splitting (List.length chunks)]
                      ++ (reps ++ [AdditionalPass]) ++ reports s')
              < S fuel)%nat.
      rewrite !passes_app, Hp. unfold passes at 1 2. simpl. lia.
    + intros H. injection H as <-. simpl.
      change (passes ([Analyzing ((estimateTokenCount text + 500) / 1000);
                       Splitting (List.length chunks)]
                      ++ reps ++ [Complete]) < S fuel)%nat.
      rewrite !passes_app, Hp. unfold passes. simpl. lia.
Qed.

End AnySummarizer.

Lemma length_concat_cons (sep x : string) (l : list string) :
  String.length (String.concat sep (x :: l))
  = match l with
    | [] => String.length x
    | _ => (String.length x + String.length sep
            + String.length (String.concat sep l))%nat
    end.
Proof.
  destruct l as [|y l]; [reflexivity|].
  change (String.concat sep (x :: y :: l))
    with (x ++ sep ++ String.concat sep (y :: l)).
  rewrite !length_append. lia.
Qed.

(** Joining summaries that are no longer than their chunks, nor than half
    the chunk size, gives a text no longer than the one that was split,
    and a shorter one when that text was longer than half a chunk. *)
Lemma combined_shorter (M : Z) (fuel : nat) :
  2 <= M ->
  forall (s : string) (chunks summaries : list string),
    split_chunks fuel (M * 4) s = Some chunks ->
    Forall2 (fun sm c =>
               (String.length sm <= String.length c)%nat
               /\ Z.of_nat (String.length sm) <= 2 * M) summaries chunks ->
    (String.length (String.concat (nl ++ nl) summaries)
     <= String.length s)%nat
    /\ (2 * M < Z.of_nat (String.length s) ->
        (String.length (String.concat (nl ++ nl) summaries)
         < String.length s)%nat).
Proof.
  intros HM. induction fuel as [|fuel IH]; intros s chunks summaries.
  - simpl. destruct (Nat.eqb_spec (String.length s) 0) as [E|E];
      [|discriminate].
    intros H. injection H as <-. intros HF. inversion HF. simpl. lia.
  - simpl. destruct (Nat.eqb_spec (String.length s) 0) as [E|E].
    { intros H. injection H as <-. intros HF. inversion HF. simpl. lia. }
    destruct (split_chunks fuel (M * 4) (substring_from s (M * 4)))
      as [rest|] eqn:Hrest; [|discriminate].
    intros H. injection H as <-. intros HF.
    inversion HF as [|sm c sums rest' [Hsm1 Hsm2] HF' E1 E2]; subst.
    specialize (IH _ _ _ Hrest HF') as [IH1 _].
    rewrite length_concat_cons.
    rewrite length_substring_to in Hsm1.
    rewrite length_substring_from in IH1.
    destruct sums as [|sm' sums]; [lia|].
    assert (Hne : String.length (substring_from s (M * 4)) <> 0%nat).
    { apply (split_chunks_nonempty _ _ _ _ Hrest).
      inversion HF'. discriminate. }
    rewrite length_substring_from in Hne.
    change (String.length (nl ++ nl)) with 2%nat. lia.
Qed.

Section Contracting.

Variable cs : nat -> string -> Z -> completion string.
Variable config : option ai_config.

Hypothesis cs_returns : forall i text t, exists s, cs i text t = Return s.
Hypothesis cs_contracts :
  forall i chunk t s,
    cs i chunk t = Return s ->
    Z.of_nat (String.length chunk) <= getContextLimit config / 4 * 4 ->
    t <= getContextLimit config / 4 / 10 ->
    (String.length s <= String.length chunk)%nat
    /\ Z.of_nat (String.length s) <= 2 * (getContextLimit config / 4).

(** With such a summarizer every pass works on a shorter text, so a
    depth above the length of the text is never used up. *)
Lemma summarize_terminates (target : Z) (fuel calls : nat) (text : string) :
  (String.length text < fuel)%nat ->
  exists s,
    summarizeDocumentForContext cs fuel calls text target config
    = Some (Return s).
Proof.
  revert calls text. induction fuel as [|fuel IH]; intros calls text Hlen;
    [lia|].
  pose proof (getContextLimit_quarter config) as [HM _].
  simpl. destruct (_ <=? _); [eauto|].
  destruct (Z.ltb_spec (estimateTokenCount text)
              (getContextLimit config / 4)) as [Hlt|Hge].
  { destruct (cs_returns calls text target) as [s ->]. simpl. eauto. }
  destruct (split_chunks_spec (getContextLimit config / 4 * 4)
              (String.length text) text ltac:(lia) ltac:(lia))
    as (chunks & Hsplit & Hall & _).
  rewrite Hsplit.
  destruct (summarize_chunks_spec cs cs_returns chunks calls 0
              (List.length chunks)
              (Z.min (getContextLimit config / 4 / 10)
                     (target / Z.of_nat (List.length chunks))))
    as (sums & reps & -> & HF & _).
  assert (Hshort : (String.length (String.concat (nl ++ nl) sums)
                    < String.length text)%nat).
  { apply (combined_shorter (getContextLimit config / 4)
             (String.length text) ltac:(lia) text chunks sums Hsplit).
    - clear Hsplit. revert Hall.
      induction HF as [|sm c sums' chunks' Hc HF IHF];
        intros Hall; [constructor|].
      inversion Hall as [|? ? Hc1 Hall']; subst.
      constructor; [|now apply IHF].
      destruct Hc as [k Hk]. apply (cs_contracts k c _ sm Hk); lia.
    - pose proof (estimateTokenCount_ceil text). lia. }
  destruct (_ >? _); [|eauto].
  destruct (IH (calls + List.length chunks)%nat
               (String.concat (nl ++ nl) sums) ltac:(lia)) as [s' ->].
  simpl. eauto.
Qed.

End Contracting.

(** *** The halving stub *)

Lemma halving_stub_contracts (config : option ai_config) (i : nat)
    (chunk : string) (t : Z) (s : string) :
  halving_stub i chunk t = Return s ->
  Z.of_nat (String.length chunk) <= getContextLimit config / 4 * 4 ->
  t <= getContextLimit config / 4 / 10 ->
  (String.length s <= String.length chunk)%nat
  /\ Z.of_nat (String.length s) <= 2 * (getContextLimit config / 4).
Proof.
  unfold halving_stub. intros H Hlen _. injection H as <-.
  rewrite length_substring_to.
  pose proof (Z.div_mod (Z.of_nat (String.length chunk)) 2 ltac:(lia)).
  pose proof (Z.mod_pos_bound (Z.of_nat (String.length chunk)) 2 ltac:(lia)).
  lia.
Qed.

Lemma summarize_chunks_cons
    (cs : nat -> string -> Z -> completion string)
    (calls i n : nat) (c : string) (chunks : list string) (t : Z)
    (sm : string) (sums : list string) (reps : list progress) :
  cs calls c t = Return sm ->
  summarize_chunks cs (S calls) (S i) n chunks t = Return (sums, reps) ->
  summarize_chunks cs calls i n (c :: chunks) t
  = Return (sm :: sums, SummarizingChunk (S i) n :: reps).
Proof. intros H1 H2. simpl. rewrite H1. simpl. now rewrite H2. Qed.

Lemma summarize_chunks_halving (chunks : list string) (calls i n : nat)
    (t : Z) :
  exists reps,
    summarize_chunks halving_stub calls i n chunks t
    = Return (List.map (fun c => substring_to c
                                   (Z.of_nat (String.length c) / 2)) chunks,
              reps).
Proof.
  revert calls i. induction chunks as [|c chunks IH]; intros calls i.
  - exists []. reflexivity.
  - destruct (IH (S calls) (S i)) as [reps Hreps].
    exists (SummarizingChunk (S i) n :: reps).
    now apply summarize_chunks_cons.
Qed.

(** C5, as amended.  With the halving stub in place of the chunk
    summarizer, a text whose estimated token count exceeds the target is
    summarized within as many additional passes as it has characters, and
    the routine returns.  The text returned was found to fit the target,
    or else it is the half that a single stub call made of a text below
    the chunk size, which is returned without a check against the target.
    The chunk size is a quarter of the context window, rounded down; a
    text of at least that many tokens is split into chunks of at most
    that many, the halves of the chunks are joined by a blank line, and
    the routine runs again on the joined text when it still exceeds the
    target. *)
Theorem summarizeDocumentForContext_halving_stub (calls : nat)
    (text : string) (target : Z) (config : option ai_config) :
  target < estimateTokenCount text ->
  let M := getContextLimit config / 4 in
  let half := fun c => substring_to c (Z.of_nat (String.length c) / 2) in
  (exists s,
     summarizeDocumentForContext halving_stub (S (String.length text)) calls
       text target config = Some (Return s)
     /\ (passes (reports s) <= String.length text)%nat
     /\ (estimateTokenCount (result s) <= target
         \/ exists text',
              target < estimateTokenCount text' < M
              /\ result s = half text'))
  /\ 4 * M <= getContextLimit config
  /\ (M <= estimateTokenCount text ->
      exists chunks reps,
        split_chunks (String.length text) (M * 4) text = Some chunks
        /\ String.concat "" chunks = text
        /\ Forall (fun c => estimateTokenCount c <= M) chunks
        /\ forall fuel,
             summarizeDocumentForContext halving_stub (S fuel) calls text
               target config
             = let n := List.length chunks in
               let combined :=
                 String.concat (nl ++ nl) (List.map half chunks) in
               let sofar :=
                 (Analyzing ((estimateTokenCount text + 500) / 1000)
                    :: Splitting n :: reps)%list in
               if estimateTokenCount combined >? target then
                 reported (sofar ++ [AdditionalPass])%list
                   (summarizeDocumentForContext halving_stub fuel
                      (calls + n) combined target config)
               else
                 Some (Return {| result := combined; calls := (calls + n)%nat;
                                 reports := (sofar ++ [Complete])%list |})).
Proof.
  intros Hgt M half.
  pose proof (getContextLimit_quarter config) as [HM HM4]. fold M in HM, HM4.
  assert (Hret : forall i t x, exists s, halving_stub i t x = Return s)
    by (intros; eexists; reflexivity).
  split; [|split; [exact HM4|]].
  - destruct (summarize_terminates halving_stub config Hret
                (halving_stub_contracts config) target
                (S (String.length text)) calls text ltac:(lia)) as [s Hs].
    exists s. split; [exact Hs|]. split.
    + pose proof (summarize_passes halving_stub Hret _ _ _ _ _ _ Hs). lia.
    + destruct (summarize_result halving_stub _ _ _ _ _ _ Hs)
        as [Hfit|(i & text' & Hrange & Hcall)]; [now left|].
      right. exists text'. split; [exact Hrange|].
      unfold halving_stub in Hcall. now injection Hcall as <-.
  - intros Hbig.
    destruct (split_chunks_spec (M * 4) (String.length text) text
                ltac:(lia) ltac:(lia)) as (chunks & Hsplit & Hall & Hcat).
    destruct (summarize_chunks_halving chunks calls 0 (List.length chunks)
                (Z.min (M / 10) (target / Z.of_nat (List.length chunks))))
      as [reps Hreps].
    exists chunks, reps. split; [exact Hsplit|]. split; [exact Hcat|]. split.
    + eapply Forall_impl; [exact Hall|]. intros c Hc. simpl in Hc.
      rewrite estimateTokenCount_length.
      apply Z.lt_succ_r, Z.div_lt_upper_bound; lia.
    + intros fuel. simpl. fold M.
      destruct (Z.leb_spec (estimateTokenCount text) target); [lia|].
      destruct (Z.ltb_spec (estimateTokenCount text) M); [lia|].
      rewrite Hsplit. fold M in Hreps. rewrite Hreps. reflexivity.
Qed.

(** *** Failing LLM calls *)



Lemma truncating_contracts (config : option ai_config)
    (cs : nat -> string -> Z -> completion string) :
  (forall i chunk t, cs i chunk t = Return (substring_to chunk (t * 4))) ->
  forall (i : nat) (chunk : string) (t : Z) (s : string),
    cs i chunk t = Return s ->
    Z.of_nat (String.length chunk) <= getContextLimit config / 4 * 4 ->
    t <= getContextLimit config / 4 / 10 ->
    (String.length s <= String.length chunk)%nat
    /\ Z.of_nat (String.length s) <= 2 * (getContextLimit config / 4).
Proof.
  intros Htr i chunk t s Hs _ Ht. rewrite Htr in Hs.
  injection Hs as <-. rewrite length_substring_to.
  pose proof (getContextLimit_quarter config) as [HM _].
  pose proof (Z.div_mod (getContextLimit config / 4) 10 ltac:(lia)).
  pose proof (Z.mod_pos_bound (getContextLimit config / 4) 10 ltac:(lia)).
  lia.
Qed.




End SummarizerProperties.

Lemma summarizeDocumentForContext_identity_witness :
  let config := Some {| Summarizer.provider := Some "openai";
                        Summarizer.openai := None |} in
  Summarizer.estimateTokenCount "hello world" <= 3
  /\ Summarizer.summarizeDocumentForContext_llm
       (fun i req => Summarizer.ProxyRejects (Error "offline"))
       1 "hello world" 3 config
     = Some (Return {| Summarizer.result := "hello world";
                       Summarizer.calls := 0; Summarizer.reports := [] |}).
Proof.
  intros config.
  assert (H : Summarizer.estimateTokenCount "hello world" <= 3)
    by (vm_compute; discriminate).
  split; [exact H|].
  apply (summarizeDocumentForContext_identity
           Summarizer.halving_stub
           (fun i req => Summarizer.ProxyRejects (Error "offline"))
           0 0 "hello world" 3 config H).
Defined.

(** C5 as stated fails.  A text of 16 tokens against a target of 1 is
    below the chunk size, so one stub call halves it and its 8 tokens are
    returned unchecked.  A text of 4096 tokens, a full chunk for
    [gpt-3.5], is halved in a first pass and by a single call in the
    second, and comes back with 1024 tokens against a target of 10. *)
Lemma halving_stub_result_exceeds_target :
  let text := "aaaaaaaaaaaaaaaaaaaaaaaaaaaaaaaaaaaaaaaaaaaaaaaaaaaaaaaaaaaaaaaa" in
  let long := string_of_list_ascii (List.repeat "a"%char (Z.to_nat 16384)) in
  let gpt35 := Some {| Summarizer.provider := Some "openai";
                       Summarizer.openai :=
                         Some {| Summarizer.apiKey := None;
                                 Summarizer.baseUrl := None;
                                 Summarizer.model := Some "GPT-3.5-turbo" |} |} in
  (Summarizer.estimateTokenCount text = 16
   /\ exists s,
        Summarizer.summarizeDocumentForContext Summarizer.halving_stub
          65 0 text 1 None = Some (Return s)
        /\ Summarizer.estimateTokenCount (Summarizer.result s) = 8
        /\ ~ Summarizer.estimateTokenCount (Summarizer.result s) <= 1)
  /\ (Summarizer.estimateTokenCount long = 4096
      /\ exists s,
           Summarizer.summarizeDocumentForContext Summarizer.halving_stub
             (Z.to_nat 16385) 0 long 10 gpt35 = Some (Return s)
           /\ Summarizer.passes (Summarizer.reports s) = 1%nat
           /\ Summarizer.estimateTokenCount (Summarizer.result s) = 1024
           /\ ~ Summarizer.estimateTokenCount (Summarizer.result s) <= 10).
Proof.
  split.
  - split; [reflexivity|]. eexists. split; [vm_compute; reflexivity|].
    split; [reflexivity|]. vm_compute. intros H. now apply H.
  - split; [vm_compute; reflexivity|]. eexists.
    split; [vm_compute; reflexivity|].
    split; [vm_compute; reflexivity|].
    split; [vm_compute; reflexivity|]. vm_compute. intros H. now apply H.
Qed.

Lemma summarizeDocumentForContext_halving_stub_witness :
  let text := "aaaaaaaaaaaaaaaa" in
  1 < Summarizer.estimateTokenCount text
  /\ exists s,
       Summarizer.summarizeDocumentForContext Summarizer.halving_stub
         17 0 text 1 None = Some (Return s)
       /\ (Summarizer.passes (Summarizer.reports s) <= 16)%nat.
Proof.
  intros text.
  assert (H : 1 < Summarizer.estimateTokenCount text)
    by (vm_compute; reflexivity).
  split; [exact H|].
  destruct (summarizeDocumentForContext_halving_stub 0 text 1 None H)
    as [(s & Hs & Hp & _) _].
  exists s. split; [exact Hs | exact Hp].
Defined.


(** ** Restoring a backup *)

Section SettingsProperties.
Import Settings.

Variable JSON_parse : string -> completion json.
Variable now : Z.
Variable now_iso : string.

(** C6.  When the chosen file parses to an object without a
    [backendData] field, the handler ends with the validation error on
    the status line, and [localStorage], the requests sent to the backend
    and the pending reload are what they were before. *)
Theorem handleFileChange_rejects_missing_backendData (text : string)
    (fields : gmap string json) (confirmed : bool) (post : fetch_result)
    (b : browser) :
  JSON_parse text = Return (JObject fields) ->
  fields !! "backendData" = None ->
  let b' := handleFileChange JSON_parse now now_iso (Some text) confirmed
              post b in
  localStorage b' = localStorage b
  /\ sent b' = sent b
  /\ reload_in b' = reload_in b
  /\ (confirmed = true ->
      status b' = ("error",
                   "Failed to restore backup: Invalid backup format: missing backend data")
      /\ isImporting b' = false).
Proof.
  intros Hparse Hmissing. unfold handleFileChange.
  destruct confirmed; simpl; [|repeat split; discriminate].
  unfold try_block. rewrite Hparse. simpl. rewrite Hmissing. simpl.
  repeat split.
Qed.

End SettingsProperties.

Lemma handleFileChange_rejects_missing_backendData_witness :
  let parse := fun s : string =>
    if String.eqb s "{}" then Return (JObject ∅)
    else Throw (Error "Unexpected token") in
  let b := {| Settings.localStorage := {[ "quickstor_prompts" := "[]" ]};
              Settings.sent := [];
              Settings.status := ("", "");
              Settings.isImporting := false;
              Settings.reload_in := None |} in
  let b' := Settings.handleFileChange parse 0 "1970-01-01T00:00:00.000Z"
              (Some "{}") true (FetchRejects (Error "offline")) b in
  (parse "{}" = Return (JObject ∅)
   /\ (∅ : gmap string json) !! "backendData" = None)
  /\ Settings.localStorage b' = Settings.localStorage b
  /\ Settings.sent b' = [].
Proof.
  intros parse b b'. split; [split; reflexivity|].
  destruct (handleFileChange_rejects_missing_backendData parse 0
              "1970-01-01T00:00:00.000Z" "{}" ∅ true
              (FetchRejects (Error "offline")) b eq_refl eq_refl)
    as (H1 & H2 & _).
  split; [exact H1 | exact H2].
Defined.

(* ===================================================================== *)
(** * Further properties of the modelled code *)
(* ===================================================================== *)

(** ** The backend store, continued *)

Section BackendStore.
Import Backend.

Variable array_get : list json -> string -> jsval.
Variable array_set : list json -> string -> json -> option (list json).

Lemma object_set_insert (own : gmap string json) (k : string) (v : json) :
  (k = "__proto__" -> is_Some (own !! k)) ->
  object_set own k v = <[k := v]> own.
Proof.
  intros Hk. unfold object_set. destruct (own !! k) eqn:E; [reflexivity|].
  destruct (String.eqb_spec k "__proto__") as [->|_]; [|reflexivity].
  destruct (Hk eq_refl) as [x Hx]. congruence.
Qed.

Lemma object_set_twice (own : gmap string json) (k : string) (v w : json) :
  object_set (object_set own k v) k w = object_set own k w.
Proof.
  unfold object_set. destruct (own !! k) eqn:E.
  - rewrite lookup_insert_eq. apply insert_insert_eq.
  - destruct (String.eqb k "__proto__") eqn:Ek.
    + now rewrite E.
    + rewrite lookup_insert_eq. apply insert_insert_eq.
Qed.

Lemma object_set_lookup_ne (own : gmap string json) (k q : string)
    (v : json) :
  q <> k -> object_set own k v !! q = own !! q.
Proof.
  intros Hne. unfold object_set.
  destruct (own !! k); [now apply lookup_insert_ne|].
  destruct (String.eqb k "__proto__"); [reflexivity|].
  now apply lookup_insert_ne.
Qed.

Lemma object_set_lookup_eq (own : gmap string json) (k : string) (v : json) :
  object_set own k v !! k
  = match own !! k with
    | Some _ => Some v
    | None => if String.eqb k "__proto__" then None else Some v
    end.
Proof.
  unfold object_set. destruct (own !! k) eqn:E.
  - apply lookup_insert_eq.
  - destruct (String.eqb k "__proto__"); [exact E|apply lookup_insert_eq].
Qed.

Lemma object_set_commute (own : gmap string json) (k q : string)
    (v w : json) :
  k <> q ->
  object_set (object_set own k v) q w = object_set (object_set own q w) k v.
Proof.
  intros Hne. apply map_eq. intros i.
  destruct (decide (i = k)) as [->|Hik]; [|destruct (decide (i = q)) as [->|Hiq]].
  - rewrite (object_set_lookup_ne _ q k) by congruence.
    rewrite !object_set_lookup_eq.
    now rewrite (object_set_lookup_ne own q k) by congruence.
  - rewrite (object_set_lookup_ne _ k q) by congruence.
    rewrite !object_set_lookup_eq.
    now rewrite (object_set_lookup_ne own k q) by congruence.
  - now rewrite !object_set_lookup_ne by congruence.
Qed.

(** On an object store, a successful POST to a path is an insertion into
    the mapping: the full dump shows the new value under the path, and a
    GET of any other path answers as it did before. *)
Theorem post_doc_is_insert (d : disk) (own : gmap string json) (P : string)
    (V : json) :
  readData d = FObject own ->
  (P = "__proto__" -> is_Some (own !! P)) ->
  let d' := (post_doc array_set true P V d).2 in
  d' = Some (FObject (<[P := V]> own))
  /\ get_all d' = Response 200 (BodyJson (JObject (<[P := V]> own)))
  /\ forall Q, Q <> P -> get_doc array_get Q d' = get_doc array_get Q d.
Proof.
  intros Hd HP. unfold post_doc. rewrite Hd. simpl.
  rewrite (object_set_insert own P V HP). repeat split.
  intros Q HQ. unfold get_doc. rewrite Hd. simpl.
  unfold object_get. now rewrite lookup_insert_ne by congruence.
Qed.

(** On an object store the last write to a path wins, and writes to two
    different paths leave the same store in either order. *)
Theorem post_doc_last_write_wins (d : disk) (own : gmap string json)
    (P Q : string) (V W : json) :
  readData d = FObject own ->
  (post_doc array_set true P W (post_doc array_set true P V d).2).2
  = (post_doc array_set true P W d).2
  /\ (P <> Q ->
      (post_doc array_set true Q W (post_doc array_set true P V d).2).2
      = (post_doc array_set true P V (post_doc array_set true Q W d).2).2).
Proof.
  intros Hd. unfold post_doc. rewrite Hd. simpl. split.
  - now rewrite object_set_twice.
  - intros Hne. now rewrite object_set_commute.
Qed.

(** A full restore is turned down with 400 exactly when the body is
    neither an object nor an array, and the disk is then as it was.  An
    object or array body is answered 200 when the file is written and
    500 when the write fails.  Once written, the body has replaced
    whatever was stored, and the full dump returns it as it was sent. *)
Theorem post_all_replaces_store (write_ok : bool) (newData : json)
    (d : disk) :
  let after := post_all write_ok newData d in
  let accepted :=
    (exists m, newData = JObject m) \/ (exists l, newData = JArray l) in
  (status after.1 = 400 <-> ~ accepted)
  /\ (status after.1 = 200 <-> accepted /\ write_ok = true)
  /\ (status after.1 = 500 <-> accepted /\ write_ok = false)
  /\ (status after.1 = 200 ->
      get_all after.2 = Response 200 (BodyJson newData)
      /\ forall d0, (post_all write_ok newData d0).2 = after.2)
  /\ (status after.1 = 400 -> after.2 = d).
Proof.
  clear array_get array_set.
  assert (Hacc : forall j : json,
             ((exists m, j = JObject m) \/ (exists l, j = JArray l))
             <-> match j with
                 | JObject _ | JArray _ => True
                 | _ => False
                 end).
  { intros j. split.
    - intros [[m ->]|[l ->]]; exact I.
    - destruct j; intros H; try contradiction; eauto. }
  cbv zeta. rewrite (Hacc newData).
  destruct newData as [|b|n|s|l|m], write_ok;
    unfold post_all; simpl; repeat case_match; simpl;
    repeat split; intros; try discriminate; try tauto; try lia;
    try congruence;
    repeat match goal with
           | H : _ /\ _ |- _ => destruct H
           end; try discriminate; try contradiction; auto.
Qed.

End BackendStore.

Lemma post_doc_is_insert_witness :
  let own : gmap string json := {[ "sites/live" := JObject ∅ ]} in
  let V := JObject {[ "title" := JString "Home" ]} in
  let d := Some (Backend.FObject own) in
  (Backend.readData d = Backend.FObject own
   /\ ("sites/staging" = "__proto__" -> is_Some (own !! "sites/staging")))
  /\ Backend.get_doc Backend.no_array_get "sites/live"
       (Backend.post_doc Backend.no_array_set true "sites/staging" V d).2
     = Backend.get_doc Backend.no_array_get "sites/live" d.
Proof.
  intros own V d.
  assert (H : "sites/staging" = "__proto__" -> is_Some (own !! "sites/staging"))
    by discriminate.
  split; [split; [reflexivity|exact H]|].
  destruct (post_doc_is_insert Backend.no_array_get Backend.no_array_set d own
              "sites/staging" V eq_refl H) as (_ & _ & Hq).
  apply Hq. discriminate.
Defined.

Lemma post_doc_last_write_wins_witness :
  let own : gmap string json := {[ "a" := JNum 1 ]} in
  let d := Some (Backend.FObject own) in
  Backend.readData d = Backend.FObject own
  /\ (Backend.post_doc Backend.no_array_set true "a" (JNum 3)
        (Backend.post_doc Backend.no_array_set true "a" (JNum 2) d).2).2
     = (Backend.post_doc Backend.no_array_set true "a" (JNum 3) d).2.
Proof.
  intros own d. split; [reflexivity|].
  apply (post_doc_last_write_wins Backend.no_array_set d own "a" "b"
           (JNum 2) (JNum 3) eq_refl).
Defined.

Lemma post_all_replaces_store_witness :
  let body := JObject {[ "sites/live" := JObject ∅ ]} in
  Backend.status (Backend.post_all true body None).1 = 200
  /\ Backend.get_all (Backend.post_all true body None).2
     = Backend.Response 200 (Backend.BodyJson body).
Proof.
  intros body.
  assert (H : Backend.status (Backend.post_all true body None).1 = 200)
    by reflexivity.
  split; [exact H|].
  destruct (post_all_replaces_store true body None)
    as (_ & _ & _ & Hok & _).
  destruct (Hok H) as [Hget _]. exact Hget.
Defined.

(** ** The client adapter, continued *)

Section AdapterWrites.
Import Adapter.

Variable BACKEND_URL : string.
Variable r : docRef.

Lemma getDoc_total' (f : fetch_result) :
  exists snap, getDoc f r = Return snap.
Proof.
  destruct f as [e|st [data|e]]; unfold getDoc, getDoc_from; simpl; eauto;
    destruct (status_ok st); simpl; eauto; destruct (st =? 404); eauto.
Qed.

(** Unlike [getDoc], [setDoc] lets a failed write surface: a rejected
    fetch and an unreadable answer rethrow their error, a status outside
    2xx throws [Failed to save to backend]; a 2xx answer resolves to its
    body.  Either way the POST is the last request sent, and the only
    one unless a merge was asked for. *)
Theorem setDoc_surfaces_write_failure (read write : fetch_result)
    (data : json) (options : option set_options) :
  let res := setDoc BACKEND_URL read write r data options in
  (forall e, write = FetchRejects e -> res.2 = Throw e)
  /\ (forall st body,
        write = FetchResponse st body -> status_ok st = false ->
        res.2 = Throw (Error "Failed to save to backend"))
  /\ (forall st body,
        write = FetchResponse st body -> status_ok st = true ->
        res.2 = body)
  /\ (exists finalData,
        res.1 = ((if wants_merge options
                  then [Request GET (doc_url BACKEND_URL r) None] else [])
                 ++ [Request POST (doc_url BACKEND_URL r) (Some finalData)])%list).
Proof.
  unfold setDoc. destruct (wants_merge options).
  - destruct (getDoc_total' read) as [snap ->]. simpl.
    repeat split.
    + intros e ->. reflexivity.
    + intros st body -> Hst. simpl. now rewrite Hst.
    + intros st body -> Hst. simpl. rewrite Hst. simpl. now destruct body.
    + eexists. reflexivity.
  - simpl. repeat split.
    + intros e ->. reflexivity.
    + intros st body -> Hst. simpl. now rewrite Hst.
    + intros st body -> Hst. simpl. rewrite Hst. simpl. now destruct body.
    + eexists. reflexivity.
Qed.

(** With [{merge: true}] and an existing document that is an object, the
    body written is the shallow merge of the stored fields and the new
    ones: a key of the new data carries the new value, every other key
    keeps the stored one. *)
Theorem setDoc_merge_is_shallow (read write : fetch_result) (st : Z)
    (old new : gmap string json) :
  read = FetchResponse st (Return (JObject old)) ->
  status_ok st = true ->
  exists merged,
    (setDoc BACKEND_URL read write r (JObject new)
       (Some (SetOptions true))).1
    = [Request GET (doc_url BACKEND_URL r) None;
       Request POST (doc_url BACKEND_URL r) (Some (JObject merged))]
    /\ forall k,
         merged !! k = match new !! k with
                       | Some v => Some v
                       | None => old !! k
                       end.
Proof.
  intros -> Hst. exists (new ∪ old). split.
  - unfold setDoc, getDoc, getDoc_from. simpl. rewrite Hst. reflexivity.
  - intros k. rewrite lookup_union. destruct (new !! k), (old !! k); reflexivity.
Qed.

End AdapterWrites.

Section Watchers.
Import Adapter.

Variable JSON_stringify : parsed -> string.
Variable r : docRef.

#[local] Abbreviation wstep := (Frontend.step JSON_stringify r).
#[local] Abbreviation wrun := (Frontend.run JSON_stringify r).

(** The frontend watcher outlives failed reads: whatever a pending fetch
    delivers, the 2000 ms timer is armed again while the subscription is
    active.  A failed read is seen as a missing document, so it reaches
    the callback, with [exists() = false], exactly when the last
    invocation carried a document (or none was made yet). *)
Theorem frontend_watch_survives_failures (w : Frontend.watcher)
    (p : polled) :
  Frontend.stage w = Frontend.InFlight ->
  Frontend.stage (wstep w (Deliver p)).1
  = (if Frontend.isActive w then Frontend.Armed 2000 else Frontend.Stopped)
  /\ (fetch_failed (fetched p) = true ->
      (Frontend.lastJson w = TUndefined -> (wstep w (Deliver p)).2 = [])
      /\ (Frontend.lastJson w <> TUndefined ->
          (wstep w (Deliver p)).2 = [missing_of r]
          /\ Frontend.lastJson (wstep w (Deliver p)).1 = TUndefined)).
Proof.
  intros Hst. unfold Frontend.step. rewrite Hst.
  unfold Frontend.fetchData_resume. split.
  - destruct (getDoc_parsed p r) as [snap|e]; [|reflexivity].
    destruct (decide _); reflexivity.
  - intros Hf. rewrite (getDoc_parsed_failed r p Hf).
    change (serialized JSON_stringify (missing_of r)) with TUndefined.
    split; intros Hl.
    + destruct (decide (TUndefined ≠ Frontend.lastJson w)) as [n|_];
        [congruence|reflexivity].
    + destruct (decide (TUndefined ≠ Frontend.lastJson w)) as [_|n];
        [auto|]. destruct Hl. destruct (Frontend.lastJson w); try reflexivity;
        destruct n; discriminate.
Qed.




End Watchers.

Lemma setDoc_surfaces_write_failure_witness :
  let r := Adapter.doc ["sites"; "quickstor-staging"] in
  let write := FetchResponse 500 (Return (JObject ∅)) in
  status_ok 500 = false
  /\ (Adapter.setDoc Admin.BACKEND_URL (FetchRejects (Error "offline")) write
        r (JObject ∅) None).2
     = Throw (Error "Failed to save to backend").
Proof.
  intros r write. split; [reflexivity|].
  destruct (setDoc_surfaces_write_failure Admin.BACKEND_URL r
              (FetchRejects (Error "offline")) write (JObject ∅) None)
    as (_ & H & _).
  apply (H 500 (Return (JObject ∅))); reflexivity.
Defined.

Lemma setDoc_merge_is_shallow_witness :
  let r := Adapter.doc ["sites"; "quickstor-staging"] in
  let old : gmap string json := {[ "title" := JString "Old"; "theme" := JString "dark" ]} in
  let new : gmap string json := {[ "title" := JString "New" ]} in
  let read := FetchResponse 200 (Return (JObject old)) in
  (read = FetchResponse 200 (Return (JObject old)) /\ status_ok 200 = true)
  /\ exists merged,
       (Adapter.setDoc Admin.BACKEND_URL read (FetchRejects (Error "offline"))
          r (JObject new) (Some (Adapter.SetOptions true))).1
       = [Adapter.Request Adapter.GET (Adapter.doc_url Admin.BACKEND_URL r) None;
          Adapter.Request Adapter.POST (Adapter.doc_url Admin.BACKEND_URL r)
            (Some (JObject merged))]
       /\ merged !! "title" = Some (JString "New")
       /\ merged !! "theme" = Some (JString "dark").
Proof.
  intros r old new read. split; [split; reflexivity|].
  destruct (setDoc_merge_is_shallow Admin.BACKEND_URL r read
              (FetchRejects (Error "offline")) 200 old new eq_refl eq_refl)
    as (merged & Hreq & Hk).
  exists merged. split; [exact Hreq|]. split.
  - rewrite (Hk "title"). reflexivity.
  - rewrite (Hk "theme"). reflexivity.
Defined.

Lemma frontend_watch_survives_failures_witness :
  let r := Adapter.doc ["sites"; "quickstor-staging"] in
  let w := {| Frontend.isActive := true;
              Frontend.lastJson := Adapter.TText "{}";
              Frontend.stage := Frontend.InFlight |} in
  let p := Adapter.PollRejects (Error "Failed to fetch") in
  (Frontend.stage w = Frontend.InFlight
   /\ Adapter.fetch_failed (Adapter.fetched p) = true
   /\ Frontend.lastJson w <> Adapter.TUndefined)
  /\ (Frontend.step stringify r w (Adapter.Deliver p)).2
     = [Adapter.missing_of r].
Proof.
  intros r w p.
  assert (Hl : Frontend.lastJson w <> Adapter.TUndefined) by discriminate.
  split; [split; [reflexivity|split; [reflexivity|exact Hl]]|].
  destruct (frontend_watch_survives_failures stringify r w p eq_refl)
    as [_ H].
  destruct (H eq_refl) as [_ H2]. apply (H2 Hl).
Defined.



(** ** The Gemini gateway, continued *)

Section GeminiBudget.
Import Gemini GeminiChat.





End GeminiBudget.

Section GeminiStreams.
Import Gemini GeminiChat.

Variable JSON_parse : string -> completion json.

(** The texts of the chunks handed to [onChunk], in order. *)
#[local] Abbreviation texts_of := (List.map (fun c : json * string => to_string c.1)).

Lemma append_assoc (a b c : string) : (a ++ b) ++ c = a ++ b ++ c.
Proof.
  induction a as [|x a IH]; [reflexivity|].
  change (String x ((a ++ b) ++ c) = String x (a ++ b ++ c)).
  now rewrite IH.
Qed.

Lemma concat_cons (x : string) (l : list string) :
  String.concat "" (x :: l) = x ++ String.concat "" l.
Proof.
  destruct l as [|b l]; [|reflexivity].
  simpl. symmetry. apply append_empty.
Qed.

Lemma concat_snoc (l : list string) (x : string) :
  String.concat "" (l ++ [x]) = String.concat "" l ++ x.
Proof.
  induction l as [|a l IH]; [reflexivity|].
  change ((a :: l) ++ [x])%list with (a :: (l ++ [x]))%list.
  now rewrite !concat_cons, IH, append_assoc.
Qed.

Lemma process_line_accumulated (p : progress) (line : string) :
  accumulated p -> accumulated (process_line JSON_parse p line).
Proof.
  intros [Hfull Hall]. unfold process_line.
  destruct (String.prefix "data: " line); [|now split].
  match goal with
  | |- accumulated (match ?c with _ => _ end) => destruct c as [[t|]|e]
  end; try now split.
  destruct (truthy t) eqn:Ht; [|now split].
  split; simpl.
  - rewrite List.map_app. simpl. rewrite concat_snoc. now rewrite Hfull.
  - intros k t' full Hk.
    destruct (decide (k < List.length (emitted p))%nat) as [Hlt|Hge].
    + rewrite lookup_app_l in Hk by exact Hlt.
      destruct (Hall k t' full Hk) as [Ht' Hf]. split; [exact Ht'|].
      rewrite take_app_le by lia. exact Hf.
    + rewrite lookup_app_r in Hk by lia.
      destruct (k - List.length (emitted p))%nat as [|n] eqn:En;
        [|destruct n; discriminate].
      simpl in Hk. injection Hk as <- <-. split; [exact Ht|].
      rewrite take_ge by (rewrite List.length_app; simpl; lia).
      rewrite List.map_app. simpl. rewrite concat_snoc. now rewrite Hfull.
Qed.

Lemma read_all_accumulated (chunks : list string) :
  accumulated (read_all JSON_parse chunks).
Proof.
  unfold read_all.
  assert (H0 : accumulated {| fullText := ""; emitted := [] |}).
  { split; [reflexivity|]. intros k t full Hk. discriminate. }
  revert H0. generalize {| fullText := ""; emitted := [] |}.
  induction chunks as [|c chunks IH]; intros p Hp; [exact Hp|].
  simpl. apply IH. unfold process_chunk.
  revert p Hp. induction (split_on "010"%char c) as [|l ls IHl];
    intros p Hp; [exact Hp|].
  simpl. apply IHl. now apply process_line_accumulated.
Qed.

Lemma process_line_text (p : progress) (line : string) :
  process_line JSON_parse p line
  = match line_text JSON_parse line with
    | Some textChunk =>
        {| fullText := fullText p ++ to_string textChunk;
           emitted :=
             (emitted p
              ++ [(textChunk,
                   (fullText p ++ to_string textChunk)%string)])%list |}
    | None => p
    end.
Proof.
  unfold process_line, line_text.
  destruct (String.prefix "data: " line); [|reflexivity].
  match goal with
  | |- match ?c with _ => _ end = _ => destruct c as [[t|]|e]
  end; try reflexivity.
  destruct (truthy t); reflexivity.
Qed.

Lemma process_lines_texts (lines : list string) (p : progress) :
  List.map fst (emitted (foldl (process_line JSON_parse) p lines))
  = (List.map fst (emitted p)
     ++ flat_map (fun line => match line_text JSON_parse line with
                              | Some textChunk => [textChunk]
                              | None => []
                              end) lines)%list.
Proof.
  revert p. induction lines as [|l ls IH]; intros p.
  - simpl. now rewrite List.app_nil_r.
  - simpl. rewrite IH, process_line_text.
    destruct (line_text JSON_parse l) as [t|]; simpl; [|reflexivity].
    rewrite List.map_app. simpl. now rewrite <- List.app_assoc.
Qed.

Lemma read_all_texts (chunks : list string) :
  List.map fst (emitted (read_all JSON_parse chunks))
  = stream_texts JSON_parse chunks.
Proof.
  unfold read_all, stream_texts.
  change (flat_map _ (flat_map (split_on "010"%char) chunks))
    with ((List.map fst (emitted {| fullText := ""; emitted := [] |})
           ++ flat_map (fun line => match line_text JSON_parse line with
                                    | Some textChunk => [textChunk]
                                    | None => []
                                    end)
                (flat_map (split_on "010"%char) chunks))%list).
  generalize {| fullText := ""; emitted := [] |}.
  induction chunks as [|c chunks IH]; intros p.
  - simpl. now rewrite List.app_nil_r.
  - simpl. rewrite IH. unfold process_chunk.
    rewrite process_lines_texts, List.flat_map_app.
    now rewrite List.app_assoc.
Qed.

(** The streaming call hands [onChunk] the text chunks the stream
    carries, each of them, in order, and each together with the text
    received so far, which is the concatenation of the chunks handed out
    up to that point; this also when the stream fails in the end.  It
    returns the concatenation of them all, and throws rather than return
    an empty text.  A status outside 2xx makes it throw at once, with no
    chunk handed out. *)
Theorem callGeminiAPIStream_accumulates (GEMINI_API_KEY : option string)
    (net : json -> stream_result) (prompt : json) :
  let r := callGeminiAPIStream JSON_parse GEMINI_API_KEY net prompt in
  (forall k t full,
      stream_emitted r !! k = Some (t, full) ->
      truthy t = true
      /\ full = String.concat "" (texts_of (take (S k) (stream_emitted r))))
  /\ (forall v,
        stream_outcome r = Return v ->
        v = JString (String.concat "" (texts_of (stream_emitted r)))
        /\ String.concat "" (texts_of (stream_emitted r)) <> "")
  /\ (forall st body chunks ending,
        net (parts_of prompt) = StreamResponse st body chunks ending ->
        status_ok st = false ->
        stream_emitted r = [] /\ exists e, stream_outcome r = Throw e)
  /\ (forall st body chunks ending,
        key_missing GEMINI_API_KEY = false ->
        net (parts_of prompt) = StreamResponse st body chunks ending ->
        status_ok st = true ->
        List.map fst (stream_emitted r) = stream_texts JSON_parse chunks
        /\ stream_outcome r
           = match ending with
             | StreamFails e => Throw e
             | StreamDone =>
                 let text :=
                   String.concat ""
                     (List.map to_string (stream_texts JSON_parse chunks)) in
                 if String.eqb text ""
                 then Throw (Error "No response generated from Gemini API")
                 else Return (JString text)
             end).
Proof.
  unfold callGeminiAPIStream.
  destruct (key_missing GEMINI_API_KEY); simpl.
  { split; [discriminate|]. split; [discriminate|]. split; [|discriminate].
    intros st body chunks ending _ _. split; eauto. }
  destruct (net (parts_of prompt)) as [e|st body chunks ending]; simpl.
  { split; [discriminate|]. split; [discriminate|].
    split; discriminate. }
  destruct (status_ok st) eqn:Hst; simpl.
  - destruct (read_all_accumulated chunks) as [Hfull Hall].
    split; [exact Hall|]. split; [|split].
    + intros v Hv. destruct ending; [|discriminate].
      destruct (String.eqb_spec (fullText (read_all JSON_parse chunks)) "")
        as [E|E]; [discriminate|].
      injection Hv as <-. rewrite <- Hfull. auto.
    + intros st' body' chunks' ending' Heq Hno. inversion Heq; subst.
      congruence.
    + intros st' body' chunks' ending' _ Heq _. inversion Heq; subst.
      split; [apply read_all_texts|].
      destruct ending'; [|reflexivity].
      rewrite <- read_all_texts, List.map_map, <- Hfull. reflexivity.
  - split; [discriminate|]. split; [|split].
    + intros v Hv. destruct (prop_strict _ "error"); discriminate.
    + intros st' body' chunks' ending' _ _. split; [reflexivity|].
      destruct (prop_strict _ "error"); simpl; eauto.
    + intros st' body' chunks' ending' _ Heq Hok. inversion Heq; subst.
      congruence.
Qed.

(** The streaming call with history falls back to the call without
    streaming whenever the stream fails (rejected fetch, status outside
    2xx, failed read): its outcome is then that of
    [callGeminiAPIWithHistory], while the chunks already handed to
    [onChunk] stay handed out.  A stream that ends normally returns the
    text gathered, the empty text included. *)
Theorem callGeminiAPIWithHistoryStream_falls_back (key : string)
    (stream : json -> stream_result) (net : nat -> json -> fetch_result)
    (messages contents : list json) :
  key <> "" ->
  contents_of messages = Return contents ->
  let res := callGeminiAPIWithHistoryStream JSON_parse (Some key) stream net
               messages in
  (stream_failed (stream (JArray contents)) = true ->
   res.2 = Some (callGeminiAPIWithHistory (Some key) net messages)
   /\ stream_outcome res.1
      = outcome (callGeminiAPIWithHistory (Some key) net messages))
  /\ (forall st body chunks,
        stream (JArray contents) = StreamResponse st body chunks StreamDone ->
        status_ok st = true ->
        res.2 = None
        /\ stream_emitted res.1 = emitted (read_all JSON_parse chunks)
        /\ stream_outcome res.1
           = Return (JString (fullText (read_all JSON_parse chunks))))
  /\ (forall st body,
        stream (JArray contents) = StreamResponse st body [] StreamDone ->
        status_ok st = true ->
        stream_outcome res.1 = Return (JString "")).
Proof.
  intros Hkey Hc. unfold callGeminiAPIWithHistoryStream.
  assert (Hk : key_missing (Some key) = false).
  { simpl. now destruct (String.eqb_spec key ""). }
  rewrite Hk, Hc.
  destruct (stream (JArray contents)) as [e|st body chunks ending]; simpl.
  { split; [auto|]. split; discriminate. }
  destruct (status_ok st) eqn:Hst; simpl.
  - destruct ending; simpl.
    + split; [discriminate|]. split.
      * intros st' body' chunks' Heq _. inversion Heq; subst. auto.
      * intros st' body' Heq _. inversion Heq; subst. reflexivity.
    + split; [auto|]. split; discriminate.
  - split; [auto|]. split; intros; congruence.
Qed.

End GeminiStreams.


Lemma callGeminiAPIStream_accumulates_witness :
  let answer := fun t : string =>
    JObject {[ "candidates" :=
      JArray [JObject {[ "content" :=
        JObject {[ "parts" := JArray [JObject {[ "text" := JString t ]}] ]} ]}] ]} in
  let parse := fun s : string =>
    if String.eqb s "A" then Return (answer "Hel")
    else if String.eqb s "B" then Return (answer "lo")
    else Throw (Error "Unexpected token") in
  let chunks := ["data: A" ++ String "010"%char "data: B"; "data: {"] in
  let net := fun parts : json =>
    GeminiChat.StreamResponse 200 (Return JNull) chunks GeminiChat.StreamDone in
  let r := GeminiChat.callGeminiAPIStream parse (Some "k") net (JString "p") in
  (GeminiChat.key_missing (Some "k") = false /\ status_ok 200 = true)
  /\ GeminiChat.stream_texts parse chunks = [JString "Hel"; JString "lo"]
  /\ List.map fst (GeminiChat.stream_emitted r)
     = GeminiChat.stream_texts parse chunks
  /\ GeminiChat.stream_outcome r = Return (JString "Hello").
Proof.
  intros answer parse chunks net r.
  split; [split; reflexivity|].
  split; [vm_compute; reflexivity|].
  destruct (callGeminiAPIStream_accumulates parse (Some "k") net (JString "p"))
    as (_ & _ & _ & Hs).
  destruct (Hs 200 (Return JNull) chunks GeminiChat.StreamDone
              eq_refl eq_refl eq_refl) as [Hem Hout].
  split; [exact Hem|]. unfold r. rewrite Hout. vm_compute. reflexivity.
Defined.

Lemma callGeminiAPIWithHistoryStream_falls_back_witness :
  let parse := fun s : string => Throw (Error "Unexpected token") in
  let messages := [JObject {[ "role" := JString "user";
                              "text" := JString "hi" ]}] in
  let contents :=
    [JObject {[ "role" := JString "user";
                "parts" := JArray [JObject {[ "text" := JString "hi" ]}] ]}] in
  let stream := fun c : json =>
    GeminiChat.StreamRejects (Error "Failed to fetch") in
  let net := fun (attempt : nat) (c : json) =>
    FetchResponse 500 (Return (JObject ∅)) in
  ("k" <> "" /\ GeminiChat.contents_of messages = Return contents
   /\ GeminiChat.stream_failed (stream (JArray contents)) = true)
  /\ GeminiChat.stream_outcome
       (GeminiChat.callGeminiAPIWithHistoryStream parse (Some "k") stream net
          messages).1
     = Gemini.outcome
         (GeminiChat.callGeminiAPIWithHistory (Some "k") net messages).
Proof.
  intros parse messages contents stream net.
  assert (Hk : "k" <> "") by discriminate.
  assert (Hc : GeminiChat.contents_of messages = Return contents)
    by (vm_compute; reflexivity).
  split; [split; [exact Hk|split; [exact Hc|reflexivity]]|].
  destruct (callGeminiAPIWithHistoryStream_falls_back parse "k" stream net
              messages contents Hk Hc) as [Hf _].
  destruct (Hf eq_refl) as [_ Ho]. exact Ho.
Defined.

(** ** The context summarizer, continued *)

Section SummarizerMore.
Import Summarizer.

(** The token estimate is never negative, is zero for the empty text
    only, grows with the length, and the estimate of a concatenation is
    at most the sum of the estimates. *)
Theorem estimateTokenCount_monotone_subadditive (a b : string) :
  0 <= estimateTokenCount a
  /\ (estimateTokenCount a = 0 <-> a = "")
  /\ ((String.length a <= String.length b)%nat ->
      estimateTokenCount a <= estimateTokenCount b)
  /\ estimateTokenCount (a ++ b)
     <= estimateTokenCount a + estimateTokenCount b.
Proof.
  rewrite !estimateTokenCount_length, length_append.
  pose proof (Z.div_mod (Z.of_nat (String.length a) + 3) 4 ltac:(lia)).
  pose proof (Z.mod_pos_bound (Z.of_nat (String.length a) + 3) 4 ltac:(lia)).
  pose proof (Z.div_mod (Z.of_nat (String.length b) + 3) 4 ltac:(lia)).
  pose proof (Z.mod_pos_bound (Z.of_nat (String.length b) + 3) 4 ltac:(lia)).
  pose proof (Z.div_mod (Z.of_nat (String.length a + String.length b) + 3) 4
                ltac:(lia)).
  pose proof (Z.mod_pos_bound
                (Z.of_nat (String.length a + String.length b) + 3) 4
                ltac:(lia)).
  split; [lia|]. split; [|split; [intros; lia|lia]].
  split.
  - intros Hz. apply length_zero. lia.
  - intros ->. reflexivity.
Qed.

Lemma split_chunks_partition_fuel (size : Z) (fuel : nat) (s : string) :
  0 < size -> (String.length s <= fuel)%nat ->
  exists chunks,
    split_chunks fuel size s = Some chunks
    /\ String.concat "" chunks = s
    /\ Forall (fun c => (1 <= String.length c <= Z.to_nat size)%nat) chunks
    /\ (forall i c, chunks !! i = Some c -> (S i < List.length chunks)%nat ->
                    String.length c = Z.to_nat size)
    /\ Z.of_nat (List.length chunks)
       = (Z.of_nat (String.length s) + size - 1) / size.
Proof.
  intros Hsize. revert s. induction fuel as [|fuel IH]; intros s Hlen.
  - exists []. simpl. replace (String.length s) with 0%nat by lia.
    simpl. split; [reflexivity|]. split; [symmetry; apply length_zero; lia|].
    split; [constructor|]. split; [intros i c Hc; discriminate|].
    symmetry. apply Z.div_small. lia.
  - simpl. destruct (Nat.eqb_spec (String.length s) 0) as [E|E].
    + exists []. split; [reflexivity|].
      split; [symmetry; now apply length_zero|].
      split; [constructor|]. split; [intros i c Hc; discriminate|].
      rewrite E. symmetry. apply Z.div_small. simpl. lia.
    + destruct (IH (substring_from s size))
        as (chunks & Hsp & Hcat & Hall & Hfull & Hcount).
      { rewrite length_substring_from. lia. }
      rewrite Hsp. exists (substring_to s size :: chunks).
      split; [reflexivity|].
      assert (Hrest : chunks = [] <-> (String.length s <= Z.to_nat size)%nat).
      { rewrite length_substring_from in Hcount. split.
        - intros ->. simpl in Hcount.
          destruct (Nat.le_gt_cases (String.length s) (Z.to_nat size))
            as [|Hgt]; [assumption|].
          symmetry in Hcount.
          apply Z.div_small_iff in Hcount; lia.
        - intros Hle. destruct chunks; [reflexivity|].
          simpl in Hcount.
          replace (String.length s - Z.to_nat size)%nat with 0%nat
            in Hcount by lia.
          rewrite Z.div_small in Hcount by (simpl; lia). lia. }
      split; [|split; [|split]].
      * rewrite concat_cons, Hcat. apply substring_to_from.
      * constructor; [|exact Hall]. rewrite length_substring_to. lia.
      * intros i c Hc Hi. destruct i as [|i].
        -- simpl in Hc. injection Hc as <-. rewrite length_substring_to.
           destruct chunks as [|c' chunks']; [simpl in Hi; lia|].
           destruct (Nat.le_gt_cases (String.length s) (Z.to_nat size))
             as [Hle|Hgt]; [|lia].
           apply Hrest in Hle. discriminate.
        -- simpl in Hc, Hi. apply (Hfull i c Hc). lia.
      * rewrite length_substring_from in Hcount.
        change (List.length (substring_to s size :: chunks))
          with (S (List.length chunks)).
        rewrite Nat2Z.inj_succ, Hcount.
        destruct (Nat.le_gt_cases (String.length s) (Z.to_nat size))
          as [Hle|Hgt].
        -- replace (String.length s - Z.to_nat size)%nat with 0%nat by lia.
           rewrite Z.div_small by (simpl; lia).
           apply (Z.div_unique _ _ _ (Z.of_nat (String.length s) - 1)); lia.
        -- replace (Z.of_nat (String.length s) + size - 1)
             with (Z.of_nat (String.length s - Z.to_nat size) + size - 1
                   + 1 * size) by lia.
           rewrite Z.div_add by lia. lia.
Qed.

(** With a positive chunk size the splitting loop ends and cuts the text
    into the least number of chunks that holds it: joined back they give
    the text, none is empty, and all but the last have exactly the chunk
    size.  With a chunk size that is not positive the loop never ends on
    a text that is not empty. *)
Theorem split_chunks_partition (size : Z) (s : string) :
  (0 < size ->
   exists chunks,
     split_chunks (String.length s) size s = Some chunks
     /\ String.concat "" chunks = s
     /\ Forall (fun c => (1 <= String.length c <= Z.to_nat size)%nat) chunks
     /\ (forall i c, chunks !! i = Some c -> (S i < List.length chunks)%nat ->
                     String.length c = Z.to_nat size)
     /\ Z.of_nat (List.length chunks)
        = (Z.of_nat (String.length s) + size - 1) / size)
  /\ (size <= 0 -> s <> "" -> forall fuel, split_chunks fuel size s = None).
Proof.
  split.
  - intros Hsize. now apply split_chunks_partition_fuel.
  - intros Hsize Hs fuel. induction fuel as [|fuel IH]; simpl;
      destruct (Nat.eqb_spec (String.length s) 0) as [E|E];
      try (apply length_zero in E; contradiction); [reflexivity|].
    assert (Hsame : substring_from s size = s).
    { unfold substring_from. replace (Z.to_nat size) with 0%nat by lia.
      rewrite Nat.sub_0_r. apply substring_all. }
    now rewrite Hsame, IH.
Qed.

End SummarizerMore.

Section SummarizerFallback.
Import Summarizer.

Lemma summarizeSingleChunk_no_openai (llm : chat_request -> proxy_reply)
    (text : string) (t : Z) (config : option ai_config) :
  match config with
  | Some c => openai c = None
  | None => True
  end ->
  summarizeSingleChunk llm text t config = Return (substring_to text (t * 4)).
Proof.
  destruct config as [[prov [o|]]|]; simpl; [discriminate| |]; reflexivity.
Qed.

Lemma summarizeSingleChunk_all_failed (llm : chat_request -> proxy_reply)
    (text : string) (t : Z) (config : option ai_config) :
  (forall req, reply_failed (llm req) = true) ->
  summarizeSingleChunk llm text t config = Return (substring_to text (t * 4)).
Proof.
  intros Hfail. unfold summarizeSingleChunk.
  destruct config as [[prov [o|]]|]; try reflexivity. simpl.
  match goal with
  | |- context [llm ?req] => specialize (Hfail req); destruct (llm req)
                               as [e|st txt body]
  end; [reflexivity|].
  simpl in Hfail. unfold callOpenAIProxy. simpl.
  destruct (status_ok st); simpl; [|reflexivity].
  destruct body as [data|e]; simpl; [|reflexivity].
  destruct data; simpl in *; try discriminate; try reflexivity.
  now rewrite Hfail.
Qed.

(** When no LLM call can succeed, because every call fails or because
    the configuration has no [openai] section and none is even made, the
    routine degrades to cutting: for every target that is not negative it
    returns a text whose estimated token count is within the target. *)
Theorem summarizeDocumentForContext_truncation_fits
    (llm : nat -> chat_request -> proxy_reply) (text : string) (target : Z)
    (config : option ai_config) :
  (forall i req, reply_failed (llm i req) = true)
  \/ match config with
     | Some c => openai c = None
     | None => True
     end ->
  0 <= target ->
  exists s,
    summarizeDocumentForContext_llm llm (S (String.length text)) text target
      config = Some (Return s)
    /\ estimateTokenCount (result s) <= target.
Proof.
  intros Hcase Htarget.
  assert (Htr : forall i chunk t,
             summarizeSingleChunk (llm i) chunk t config
             = Return (substring_to chunk (t * 4))).
  { intros i chunk t. destruct Hcase as [Hfail|Hcfg].
    - now apply summarizeSingleChunk_all_failed.
    - now apply summarizeSingleChunk_no_openai. }
  unfold summarizeDocumentForContext_llm.
  destruct (summarize_terminates
              (fun i chunk t => summarizeSingleChunk (llm i) chunk t config)
              config
              (fun i chunk t => ex_intro _ _ (Htr i chunk t))
              (truncating_contracts config _ Htr) target
              (S (String.length text)) 0 text ltac:(lia)) as [s Hs].
  exists s. split; [exact Hs|].
  destruct (summarize_result _ _ _ _ _ _ _ Hs)
    as [Hfit|(i & text' & _ & Hcall)]; [exact Hfit|].
  simpl in Hcall. rewrite Htr in Hcall. injection Hcall as <-.
  rewrite estimateTokenCount_length, length_substring_to.
  apply Z.lt_succ_r, Z.div_lt_upper_bound; lia.
Qed.

(** When the proxy answers 2xx with a JSON body that carries no error,
    [summarizeSingleChunk] returns the content of the first choice as it
    is, whatever the target and the length of the text; a body without
    such a content yields the empty text, not the cut chunk. *)
Theorem summarizeSingleChunk_returns_answer_verbatim (reply : proxy_reply)
    (st : Z) (raw : string) (data : gmap string json) (text : string)
    (t : Z) (prov : option string) (o : openai_config) :
  reply = ProxyResponse st raw (Return (JObject data)) ->
  status_ok st = true ->
  truthy_opt (data !! "error") = false ->
  let content :=
    opt_prop (opt_prop (opt_index (data !! "choices") 0) "message")
             "content" in
  let res := summarizeSingleChunk (fun _ => reply) text t
               (Some {| provider := prov; openai := Some o |}) in
  (forall c, content = Some (JString c) -> res = Return c)
  /\ (content = None -> res = Return "").
Proof.
  intros -> Hst Herr content res. unfold res, summarizeSingleChunk.
  simpl. unfold callOpenAIProxy. simpl. rewrite Hst. simpl.
  rewrite Herr. simpl. fold content. split.
  - intros c ->. simpl. destruct (String.eqb_spec c "") as [->|_]; reflexivity.
  - intros ->. reflexivity.
Qed.

End SummarizerFallback.

Lemma estimateTokenCount_monotone_subadditive_witness :
  (String.length "abcd" <= String.length "abcde")%nat
  /\ Summarizer.estimateTokenCount "abcd"
     <= Summarizer.estimateTokenCount "abcde".
Proof.
  assert (H : (String.length "abcd" <= String.length "abcde")%nat)
    by (simpl; lia).
  split; [exact H|].
  destruct (estimateTokenCount_monotone_subadditive "abcd" "abcde")
    as (_ & _ & Hm & _).
  exact (Hm H).
Defined.

Lemma split_chunks_partition_witness :
  0 < 4
  /\ exists chunks,
       Summarizer.split_chunks (String.length "abcdefghij") 4 "abcdefghij"
       = Some chunks
       /\ Z.of_nat (List.length chunks) = 3.
Proof.
  assert (H : 0 < 4) by lia.
  split; [exact H|].
  destruct (split_chunks_partition 4 "abcdefghij") as [Hp _].
  destruct (Hp H) as (chunks & Hs & _ & _ & _ & Hc).
  exists chunks. split; [exact Hs|]. rewrite Hc. reflexivity.
Defined.

Lemma summarizeDocumentForContext_truncation_fits_witness :
  let llm := fun (i : nat) (req : Summarizer.chat_request) =>
               Summarizer.ProxyRejects (Error "Failed to fetch") in
  let config : option Summarizer.ai_config := None in
  (match config with
   | Some c => Summarizer.openai c = None
   | None => True
   end /\ 0 <= 2)
  /\ exists s,
       Summarizer.summarizeDocumentForContext_llm llm
         (S (String.length "hello world, hello")) "hello world, hello" 2
         config = Some (Return s)
       /\ Summarizer.estimateTokenCount (Summarizer.result s) <= 2.
Proof.
  intros llm config.
  assert (H2 : 0 <= 2) by lia.
  split; [split; [exact I|exact H2]|].
  apply (summarizeDocumentForContext_truncation_fits llm
           "hello world, hello" 2 config (or_intror I) H2).
Defined.

Lemma summarizeSingleChunk_returns_answer_verbatim_witness :
  let data : gmap string json :=
    {[ "choices" :=
         JArray [JObject {[ "message" :=
           JObject {[ "content" := JString "a summary longer than asked" ]} ]}] ]} in
  let reply := Summarizer.ProxyResponse 200 "" (Return (JObject data)) in
  let o := {| Summarizer.apiKey := Some "sk"; Summarizer.baseUrl := None;
              Summarizer.model := None |} in
  (status_ok 200 = true /\ truthy_opt (data !! "error") = false)
  /\ Summarizer.summarizeSingleChunk (fun _ => reply) "text" 1
       (Some {| Summarizer.provider := Some "openai";
                Summarizer.openai := Some o |})
     = Return "a summary longer than asked".
Proof.
  intros data reply o. split; [split; reflexivity|].
  destruct (summarizeSingleChunk_returns_answer_verbatim reply 200 "" data
              "text" 1 (Some "openai") o eq_refl eq_refl eq_refl) as [Hc _].
  apply Hc. reflexivity.
Defined.

(** ** Restoring a backup, continued *)

Section RestoreProperties.
Import Adapter Settings.

Variable JSON_parse : string -> completion json.
Variable now : Z.
Variable now_iso : string.

Lemma setItem_if_other (key k : string) (v : option json) (b : browser) :
  k <> key ->
  localStorage (setItem_if key v b) !! k = localStorage b !! k.
Proof.
  intros Hne. unfold setItem_if. destruct v as [j|]; [|reflexivity].
  destruct (truthy j); [|reflexivity]. simpl.
  now apply lookup_insert_ne.
Qed.

Lemma setItem_if_rest (key : string) (v : option json) (b : browser) :
  sent (setItem_if key v b) = sent b
  /\ status (setItem_if key v b) = status b
  /\ isImporting (setItem_if key v b) = isImporting b
  /\ reload_in (setItem_if key v b) = reload_in b.
Proof.
  unfold setItem_if. destruct v as [j|]; [|auto]. destruct (truthy j); auto.
Qed.

Lemma restore_localConfig_frame (backup : json) (b : browser) (k : string) :
  ~ In k settings_keys ->
  localStorage (restore_localConfig backup b) !! k = localStorage b !! k.
Proof.
  intros Hk. unfold restore_localConfig.
  destruct (get_prop backup "localConfig") as [lc|]; [|reflexivity].
  destruct (truthy lc); [|reflexivity].
  induction settings_keys as [|key keys IH]; [reflexivity|].
  simpl. rewrite setItem_if_other.
  - apply IH. intros Hin. apply Hk. now right.
  - intros ->. apply Hk. now left.
Qed.

Lemma restore_localConfig_rest (backup : json) (b : browser) :
  sent (restore_localConfig backup b) = sent b
  /\ reload_in (restore_localConfig backup b) = reload_in b.
Proof.
  unfold restore_localConfig.
  destruct (get_prop backup "localConfig") as [lc|]; [|auto].
  destruct (truthy lc); [|auto].
  induction settings_keys as [|key keys IH]; [auto|].
  simpl. destruct (setItem_if_rest key (spread lc !! key)
                     (foldr (fun key acc =>
                               setItem_if key (spread lc !! key) acc) b keys))
    as (-> & _ & _ & ->). exact IH.
Qed.

Lemma restore_settings_untouched (backup : json) (b : browser)
  (k : string) :
  ~ In k settings_keys ->
  localStorage (restore_settings backup b) !! k = localStorage b !! k
  /\ sent (restore_settings backup b) = sent b
  /\ reload_in (restore_settings backup b) = reload_in b.
Proof.
  intros Hk. unfold restore_settings.
  destruct (get_prop backup "settings") as [settings|];
    [destruct (truthy settings)|];
    try (split; [now apply restore_localConfig_frame
                |apply restore_localConfig_rest]).
  split.
  - rewrite !setItem_if_other; [reflexivity| | | |];
      intros ->; apply Hk; simpl; auto.
  - repeat match goal with
           | |- context [setItem_if ?key ?v ?b0] =>
               destruct (setItem_if_rest key v b0) as (-> & _ & _ & ->)
           end. auto.
Qed.

(** Restoring the settings of a backup, from its [settings] or from the
    [localConfig] of an older file, writes nothing but the four settings
    keys of [localStorage]: every other key, the content keys among them,
    keeps its value, and no request is sent. *)
Theorem restore_settings_frame (backup : json) (b : browser) :
  (forall k, ~ In k settings_keys ->
     localStorage (restore_settings backup b) !! k = localStorage b !! k)
  /\ sent (restore_settings backup b) = sent b
  /\ reload_in (restore_settings backup b) = reload_in b.
Proof.
  split; [intros k Hk; now apply restore_settings_untouched|].
  apply (restore_settings_untouched backup b "").
  unfold settings_keys.
  repeat (intros [H|H]; [discriminate|revert H]). intros [].
Qed.

Lemma remove_content_keys (b : browser) (k : string) :
  localStorage (foldl (fun acc key => removeItem key acc) b contentKeys) !! k
  = if bool_decide (In k contentKeys) then None else localStorage b !! k.
Proof.
  destruct (bool_decide_reflect (In k contentKeys)) as [Hin|Hout]; simpl.
  - simpl in Hin.
    repeat (destruct Hin as [<-|Hin];
            [repeat (rewrite lookup_delete_eq || rewrite lookup_delete_ne by discriminate);
             reflexivity|]).
    destruct Hin.
  - rewrite !lookup_delete_ne; [reflexivity| | | | | |];
      intros <-; apply Hout; simpl; auto 10.
Qed.

Lemma merge_staging_other (newBackendData : gmap string json)
    (staging : option json) (k : string) :
  k <> STAGING ->
  merge_staging now now_iso newBackendData staging !! k
  = newBackendData !! k.
Proof.
  intros Hk. unfold merge_staging. destruct staging as [st|]; [|reflexivity].
  destruct (truthy st); [|reflexivity]. now apply lookup_insert_ne.
Qed.

(** A restore that goes through (the file parses to an object with a
    truthy [backendData], the staging state can be rebuilt and the
    backend answers 2xx) sends one POST, whose body agrees with the
    [backendData] of the file on every key but the staging site.  It
    then removes the six content keys from [localStorage], leaves every
    key that is neither a content key nor a settings key alone, shows the
    success status and schedules the reload in 1000 ms. *)
Theorem handleFileChange_success (text : string) (fields : gmap string json)
    (backendData : json) (staging : option json) (st : Z)
    (body : completion json) (b : browser) :
  JSON_parse text = Return (JObject fields) ->
  fields !! "backendData" = Some backendData ->
  truthy backendData = true ->
  stagingStateToRestore JSON_parse (JObject fields) = Return staging ->
  status_ok st = true ->
  let b' := handleFileChange JSON_parse now now_iso (Some text) true
              (FetchResponse st body) b in
  status b' = ("success", "System restored successfully! Reloading...")
  /\ reload_in b' = Some 1000
  /\ isImporting b' = false
  /\ (forall k, In k contentKeys -> localStorage b' !! k = None)
  /\ (forall k, ~ In k contentKeys -> ~ In k settings_keys ->
                localStorage b' !! k = localStorage b !! k)
  /\ exists sentData,
       sent b' = (sent b ++ [Request POST RESTORE_URL
                               (Some (JObject sentData))])%list
       /\ forall k, k <> STAGING -> sentData !! k = spread backendData !! k.
Proof.
  intros Hparse Hbd Htruthy Hstaging Hst. unfold handleFileChange.
  simpl. unfold try_block. rewrite Hparse. simpl. rewrite Hbd. simpl.
  rewrite Htruthy. simpl. rewrite Hstaging. simpl. rewrite Hst. simpl.
  split; [reflexivity|]. split; [reflexivity|]. split; [reflexivity|].
  split; [|split].
  - intros k Hk.
    change (localStorage
              (foldl (fun acc key => removeItem key acc)
                 (send (Request POST RESTORE_URL
                          (Some (JObject
                             (merge_staging now now_iso (spread backendData)
                                staging))))
                    (restore_settings (JObject fields)
                       (setStatus "" "" (setIsImporting true b))))
                 contentKeys) !! k = None).
    rewrite remove_content_keys. now rewrite bool_decide_eq_true_2.
  - intros k Hc Hs.
    change (localStorage
              (foldl (fun acc key => removeItem key acc)
                 (send (Request POST RESTORE_URL
                          (Some (JObject
                             (merge_staging now now_iso (spread backendData)
                                staging))))
                    (restore_settings (JObject fields)
                       (setStatus "" "" (setIsImporting true b))))
                 contentKeys) !! k = localStorage b !! k).
    rewrite remove_content_keys, bool_decide_eq_false_2 by exact Hc.
    simpl. now destruct (restore_settings_untouched (JObject fields)
                           (setStatus "" "" (setIsImporting true b)) k Hs)
      as [-> _].
  - eexists. split.
    + destruct (restore_settings_untouched (JObject fields)
                  (setStatus "" "" (setIsImporting true b))
                  "") as (_ & Hsent & _); [simpl; intuition discriminate|].
      simpl in Hsent. rewrite Hsent. reflexivity.
    + intros k Hk. now apply merge_staging_other.
Qed.

Lemma setItem_if_set (key : string) (j : json) (b : browser) :
  truthy j = true ->
  localStorage (setItem_if key (Some j) b) !! key = Some (to_string j).
Proof.
  intros Ht. unfold setItem_if. rewrite Ht. simpl. apply lookup_insert_eq.
Qed.

(** The restore is not atomic.  When the settings of the file carry an
    [aiConfig] and the POST to the backend then fails (the fetch rejects
    or is answered outside 2xx), the handler ends on the error status
    with no reload scheduled and the content keys as they were, but the
    [quickstor_ai_config] entry of [localStorage] already holds the value
    from the file, and the request was sent. *)
Theorem handleFileChange_failed_push_keeps_settings (text : string)
    (fields settings : gmap string json) (backendData : json)
    (aiConfig : string) (staging : option json) (post : fetch_result)
    (b : browser) :
  JSON_parse text = Return (JObject fields) ->
  fields !! "backendData" = Some backendData ->
  truthy backendData = true ->
  fields !! "settings" = Some (JObject settings) ->
  settings !! "aiConfig" = Some (JString aiConfig) ->
  aiConfig <> "" ->
  stagingStateToRestore JSON_parse (JObject fields) = Return staging ->
  match post with
  | FetchRejects _ => True
  | FetchResponse st _ => status_ok st = false
  end ->
  let b' := handleFileChange JSON_parse now now_iso (Some text) true post b in
  localStorage b' !! "quickstor_ai_config" = Some aiConfig
  /\ (exists msg, status b' = ("error", "Failed to restore backup: " ++ msg))
  /\ reload_in b' = reload_in b
  /\ (forall k, In k contentKeys -> localStorage b' !! k = localStorage b !! k)
  /\ List.length (sent b') = S (List.length (sent b)).
Proof.
  intros Hparse Hbd Htruthy Hset Hai Hne Hstaging Hpost.
  unfold handleFileChange. simpl. unfold try_block. rewrite Hparse. simpl.
  rewrite Hbd. simpl. rewrite Htruthy. simpl. rewrite Hstaging. simpl.
  set (b0 := setStatus "" "" (setIsImporting true b)).
  assert (Hai' : localStorage (restore_settings (JObject fields) b0)
                 !! "quickstor_ai_config" = Some aiConfig).
  { unfold restore_settings. simpl. rewrite Hset. simpl.
    rewrite !setItem_if_other by discriminate. rewrite Hai.
    rewrite setItem_if_set; [reflexivity|]. simpl.
    now destruct (String.eqb_spec aiConfig ""). }
  assert (Hframe : forall k, In k contentKeys ->
             localStorage (restore_settings (JObject fields) b0) !! k
             = localStorage b !! k).
  { intros k Hk.
    destruct (restore_settings_untouched (JObject fields) b0 k) as [-> _];
      [|reflexivity].
    simpl in Hk. simpl. intuition (subst; discriminate). }
  destruct (restore_settings_untouched (JObject fields) b0 "")
    as (_ & Hsent & Hreload); [simpl; intuition discriminate|].
  destruct post as [e|st body]; simpl in *; [|rewrite Hpost; simpl].
  - split; [exact Hai'|]. split; [eauto|]. split; [exact Hreload|].
    split; [exact Hframe|]. rewrite Hsent, List.length_app. simpl. lia.
  - split; [exact Hai'|]. split; [eauto|]. split; [exact Hreload|].
    split; [exact Hframe|]. rewrite Hsent, List.length_app. simpl. lia.
Qed.

(** A file that is not JSON, that parses to [null], or whose
    [backendData] is missing or falsy is turned down before anything is
    written: [localStorage], the requests sent and the pending reload
    stay as they were and the status line shows the error. *)
Theorem handleFileChange_rejects_unusable_file (text : string)
    (post : fetch_result) (b : browser) :
  (exists e, JSON_parse text = Throw e)
  \/ JSON_parse text = Return JNull
  \/ (exists backup, JSON_parse text = Return backup
                     /\ truthy_opt (get_prop backup "backendData") = false) ->
  let b' := handleFileChange JSON_parse now now_iso (Some text) true post b in
  localStorage b' = localStorage b
  /\ sent b' = sent b
  /\ reload_in b' = reload_in b
  /\ isImporting b' = false
  /\ exists msg, status b' = ("error", "Failed to restore backup: " ++ msg).
Proof.
  intros Hcase. unfold handleFileChange. simpl. unfold try_block.
  destruct Hcase as [[e ->]|[->|(backup & -> & Hbd)]]; simpl.
  - repeat split; eauto.
  - repeat split; eauto.
  - destruct backup; simpl in *; try rewrite Hbd; simpl; repeat split; eauto.
Qed.

End RestoreProperties.

Lemma restore_settings_frame_witness :
  let backup := JObject {[ "settings" :=
                  JObject {[ "aiConfig" := JString "{}" ]} ]} in
  let b := {| Settings.localStorage := {[ "quickstor_pages" := "[]" ]};
              Settings.sent := []; Settings.status := ("", "");
              Settings.isImporting := false; Settings.reload_in := None |} in
  ~ In "quickstor_pages" Settings.settings_keys
  /\ Settings.localStorage (Settings.restore_settings backup b)
       !! "quickstor_pages" = Some "[]".
Proof.
  intros backup b.
  assert (H : ~ In "quickstor_pages" Settings.settings_keys)
    by (simpl; intuition discriminate).
  split; [exact H|].
  destruct (restore_settings_frame backup b) as [Hk _].
  rewrite (Hk "quickstor_pages" H). reflexivity.
Defined.

Lemma handleFileChange_success_witness :
  let fields : gmap string json :=
    {[ "backendData" := JObject {[ "sites/quickstor-live" := JObject ∅ ]};
       "appState" := JObject {[ "pages" := JArray [] ]} ]} in
  let parse := fun s : string =>
    if String.eqb s "backup" then Return (JObject fields)
    else Throw (Error "Unexpected token") in
  let b := {| Settings.localStorage := {[ "quickstor_pages" := "[]" ]};
              Settings.sent := []; Settings.status := ("", "");
              Settings.isImporting := false; Settings.reload_in := None |} in
  let b' := Settings.handleFileChange parse 5 "1970-01-01T00:00:00.005Z"
              (Some "backup") true (FetchResponse 200 (Return (JObject ∅))) b in
  (parse "backup" = Return (JObject fields) /\ status_ok 200 = true)
  /\ Settings.localStorage b' !! "quickstor_pages" = None
  /\ Settings.reload_in b' = Some 1000.
Proof.
  intros fields parse b b'. split; [split; reflexivity|].
  destruct (handleFileChange_success parse 5 "1970-01-01T00:00:00.005Z"
              "backup" fields
              (JObject {[ "sites/quickstor-live" := JObject ∅ ]})
              (Some (JObject {[ "pages" := JArray [] ]})) 200
              (Return (JObject ∅)) b eq_refl eq_refl eq_refl eq_refl eq_refl)
    as (_ & Hr & _ & Hk & _).
  split; [|exact Hr]. apply Hk. simpl. auto.
Defined.

Lemma handleFileChange_failed_push_keeps_settings_witness :
  let settings : gmap string json := {[ "aiConfig" := JString "{}" ]} in
  let fields : gmap string json :=
    {[ "backendData" := JObject ∅; "settings" := JObject settings ]} in
  let parse := fun s : string =>
    if String.eqb s "backup" then Return (JObject fields)
    else Throw (Error "Unexpected token") in
  let b := {| Settings.localStorage := ∅;
              Settings.sent := []; Settings.status := ("", "");
              Settings.isImporting := false; Settings.reload_in := None |} in
  let b' := Settings.handleFileChange parse 5 "1970-01-01T00:00:00.005Z"
              (Some "backup") true (FetchRejects (Error "Failed to fetch")) b in
  (parse "backup" = Return (JObject fields) /\ "{}" <> "")
  /\ Settings.localStorage b' !! "quickstor_ai_config" = Some "{}"
  /\ Settings.reload_in b' = None.
Proof.
  intros settings fields parse b b'.
  assert (Hne : "{}" <> "") by discriminate.
  split; [split; [reflexivity|exact Hne]|].
  destruct (handleFileChange_failed_push_keeps_settings parse 5
              "1970-01-01T00:00:00.005Z" "backup" fields settings (JObject ∅)
              "{}" None (FetchRejects (Error "Failed to fetch")) b
              eq_refl eq_refl eq_refl eq_refl eq_refl Hne eq_refl I)
    as (Ha & _ & Hr & _).
  split; [exact Ha|exact Hr].
Defined.

Lemma handleFileChange_rejects_unusable_file_witness :
  let parse := fun s : string => Throw (Error "Unexpected token") in
  let b := {| Settings.localStorage := {[ "quickstor_pages" := "[]" ]};
              Settings.sent := []; Settings.status := ("", "");
              Settings.isImporting := false; Settings.reload_in := None |} in
  (exists e, parse "not json" = Throw e)
  /\ Settings.localStorage
       (Settings.handleFileChange parse 5 "1970-01-01T00:00:00.005Z"
          (Some "not json") true (FetchRejects (Error "offline")) b)
     = Settings.localStorage b.
Proof.
  intros parse b.
  assert (H : exists e, parse "not json" = Throw e) by (eexists; reflexivity).
  split; [exact H|].
  apply (handleFileChange_rejects_unusable_file parse 5
           "1970-01-01T00:00:00.005Z" "not json"
           (FetchRejects (Error "offline")) b (or_introl H)).
Defined.

(* ===================================================================== *)
(** ** The CSV fallback and the shape check *)
(* ===================================================================== *)

Section ExtractionProperties.

Import Extraction.

Lemma concat_sep_cons (sep x y : string) (l : list string) :
  String.concat sep (x :: y :: l) = x ++ sep ++ String.concat sep (y :: l).
Proof. reflexivity. Qed.

Lemma split_on_nonempty (c : ascii) (s : string) :
  GeminiChat.split_on c s <> [].
Proof.
  destruct s; simpl; [discriminate|].
  destruct (Ascii.eqb a c); [discriminate|].
  destruct (GeminiChat.split_on c s); discriminate.
Qed.

Lemma split_on_join (c : ascii) (s : string) :
  String.concat (String c EmptyString) (GeminiChat.split_on c s) = s.
Proof.
  induction s as [|a s IH]; [reflexivity|].
  pose proof (split_on_nonempty c s) as Hne.
  simpl GeminiChat.split_on.
  destruct (Ascii.eqb_spec a c) as [->|Hac];
    destruct (GeminiChat.split_on c s) as [|h t]; try congruence.
  - rewrite concat_sep_cons, IH. reflexivity.
  - destruct t as [|h' t].
    + simpl in *. now rewrite IH.
    + rewrite <- IH. reflexivity.
Qed.

Lemma split_values_nonempty (s : string) : split_values s <> [].
Proof.
  destruct s; simpl; [discriminate|].
  destruct (_ && _); [discriminate|].
  destruct (split_values s); discriminate.
Qed.

Lemma split_values_join_eq (s : string) :
  String.concat "," (split_values s) = s.
Proof.
  induction s as [|a s IH]; [reflexivity|].
  pose proof (split_values_nonempty s) as Hne.
  simpl split_values.
  destruct (Ascii.eqb a ","%char && Nat.even (count_quotes s)) eqn:E;
    destruct (split_values s) as [|h t]; try congruence.
  - apply andb_true_iff in E as [Ea _].
    apply Ascii.eqb_eq in Ea as ->.
    rewrite concat_sep_cons, IH. reflexivity.
  - destruct t as [|h' t].
    + simpl in *. now rewrite IH.
    + rewrite <- IH. reflexivity.
Qed.

Lemma count_quotes_app (a b : string) :
  count_quotes (a ++ b) = (count_quotes a + count_quotes b)%nat.
Proof.
  induction a as [|c a IH]; [reflexivity|].
  simpl. destruct (Ascii.eqb c quote); simpl; now rewrite IH.
Qed.

Lemma split_values_no_quote (s : string) :
  count_quotes s = O -> split_values s = GeminiChat.split_on ","%char s.
Proof.
  induction s as [|a s IH]; [reflexivity|].
  simpl. destruct (Ascii.eqb a quote) eqn:Eq; [discriminate|].
  intros H. rewrite H, (IH H). simpl. now rewrite andb_true_r.
Qed.

(** A comma inside a quoted field does not separate: a line made of a
    quoted text without quotes inside is one value. *)
Lemma split_values_quoted (s : string) :
  count_quotes s = O ->
  split_values (String quote (s ++ String quote EmptyString))
  = [String quote (s ++ String quote EmptyString)].
Proof.
  intros H.
  assert (Hin : forall t, count_quotes t = O ->
            split_values (t ++ String quote EmptyString)
            = [t ++ String quote EmptyString]).
  { induction t as [|a t IH]; [reflexivity|].
    simpl. destruct (Ascii.eqb a quote) eqn:Eq; [discriminate|].
    intros Ht. rewrite count_quotes_app, Ht. simpl.
    rewrite andb_false_r. now rewrite (IH Ht). }
  simpl. now rewrite (Hin s H).
Qed.

Lemma validate_graph_rows (rows : list (gmap string string)) :
  validateExtractedData
    (JArray (List.map (fun row =>
               JObject {[ "name" :=
                            JString (or_default (row !! "name") "Unknown");
                          "iops" := JNum (int_or_zero (row !! "iops"));
                          "throughput" :=
                            JNum (int_or_zero (row !! "throughput")) ]})
               rows))
    "COMPARISON_GRAPH" = true.
Proof.
  unfold validateExtractedData. simpl.
  induction rows as [|r rows IH]; [reflexivity|].
  simpl. now rewrite IH.
Qed.

Lemma validate_grid_rows (rows : list (gmap string string)) :
  validateExtractedData
    (JArray (List.map (fun row =>
               JObject {[ "icon" :=
                            JString (or_default (row !! "icon") "Star");
                          "title" :=
                            JString (or_default (row !! "title")
                                       "Untitled Feature");
                          "description" :=
                            JString (or_default (row !! "description") "") ]})
               rows))
    "FEATURE_GRID" = true.
Proof.
  unfold validateExtractedData. simpl.
  induction rows as [|r rows IH]; [reflexivity|].
  simpl. now rewrite IH.
Qed.

Lemma parseCSVFallback_rows_valid (csvText sectionType : string)
  (rows : list json) :
  parseCSVFallback csvText sectionType = Return rows ->
  validateExtractedData (JArray rows) sectionType = true.
Proof.
  unfold parseCSVFallback.
  destruct (nonblank_lines csvText) as [|first [|second rest]];
    try discriminate.
  destruct (String.eqb_spec sectionType "COMPARISON_GRAPH") as [->|_].
  - intros [= <-]. apply validate_graph_rows.
  - destruct (String.eqb_spec sectionType "FEATURE_GRID") as [->|_];
      [|discriminate].
    intros [= <-]. apply validate_grid_rows.
Qed.

(** Whatever [parseCSVFallback] returns passes
    [validateExtractedData] for the section type asked for: that type is
    one of the two list types, and there is one row per non-blank line
    after the header line, also when cells are missing, empty or not
    numbers. *)
Theorem parseCSVFallback_result_validates
  (csvText sectionType : string) (rows : list json) :
  parseCSVFallback csvText sectionType = Return rows ->
  validateExtractedData (JArray rows) sectionType = true
  /\ S (length rows) = length (nonblank_lines csvText)
  /\ (sectionType = "COMPARISON_GRAPH" \/ sectionType = "FEATURE_GRID").
Proof.
  intros H. split; [now apply (parseCSVFallback_rows_valid csvText)|].
  revert H. unfold parseCSVFallback.
  destruct (nonblank_lines csvText) as [|first [|second rest]];
    try discriminate.
  destruct (String.eqb_spec sectionType "COMPARISON_GRAPH") as [->|_].
  - intros [= <-]. split; [|now left]. simpl. now rewrite !List.length_map.
  - destruct (String.eqb_spec sectionType "FEATURE_GRID") as [->|_];
      [|discriminate].
    intros [= <-]. split; [|now right]. simpl. now rewrite !List.length_map.
Qed.

(** [parseCSVFallback] throws exactly in two cases, and the check
    of the lines comes first: with fewer than two non-blank lines it
    asks for a header row and a data row whatever the section type; with
    two or more it refuses every section type but the two list types, and
    returns for these. *)
Theorem parseCSVFallback_throws_iff (csvText sectionType : string) :
  ((length (nonblank_lines csvText) < 2)%nat ->
   parseCSVFallback csvText sectionType
   = Throw (Error
       "File must contain a header row and at least one data row."))
  /\ ((2 <= length (nonblank_lines csvText))%nat ->
      if String.eqb sectionType "COMPARISON_GRAPH"
         || String.eqb sectionType "FEATURE_GRID"
      then exists rows, parseCSVFallback csvText sectionType = Return rows
      else parseCSVFallback csvText sectionType
           = Throw (Error "Unsupported section type for CSV fallback")).
Proof.
  unfold parseCSVFallback.
  destruct (nonblank_lines csvText) as [|first [|second rest]]; simpl.
  - split; [reflexivity|lia].
  - split; [reflexivity|lia].
  - split; [lia|]. intros _.
    destruct (String.eqb sectionType "COMPARISON_GRAPH"); simpl; [eauto|].
    destruct (String.eqb sectionType "FEATURE_GRID"); simpl; eauto.
Qed.

(** The splitting of a data row loses nothing and respects quotes:
    joining the values with commas gives the line back, a line without a
    double quote splits as [split(',')] does, and a line that is one
    quoted field is one value whatever commas it holds. *)
Theorem split_values_respects_quotes (line : string) :
  String.concat "," (split_values line) = line
  /\ (count_quotes line = O ->
      split_values line = GeminiChat.split_on ","%char line)
  /\ (count_quotes line = O ->
      split_values (String quote (line ++ String quote EmptyString))
      = [String quote (line ++ String quote EmptyString)]).
Proof.
  split; [apply split_values_join_eq|].
  split; [apply split_values_no_quote|apply split_values_quoted].
Qed.

(** [extractDataWithAI] hands out CSV data only after the AI path has
    failed, and such data always passes [validateExtractedData]; an
    answer of the AI path is passed on unchecked.  It throws exactly when
    both paths fail. *)
Theorem extractDataWithAI_fallback (ai : completion json)
  (fileContent sectionType : string) :
  (forall data, ai = Return data ->
     extractDataWithAI ai fileContent sectionType = Return (data, "ai"))
  /\ (forall data method,
        extractDataWithAI ai fileContent sectionType = Return (data, method) ->
        method = "csv" ->
        (exists e, ai = Throw e)
        /\ validateExtractedData data sectionType = true)
  /\ ((exists e, extractDataWithAI ai fileContent sectionType = Throw e)
      <-> (exists e, ai = Throw e)
          /\ (exists e, parseCSVFallback fileContent sectionType = Throw e)).
Proof.
  unfold extractDataWithAI. split; [now intros data ->|]. split.
  - intros data method. destruct ai as [d|aiError]; [now intros [= <- <-]|].
    destruct (parseCSVFallback fileContent sectionType) as [rows|e] eqn:E;
      [|discriminate].
    intros [= <- <-] _. split; [eauto|].
    now apply (parseCSVFallback_rows_valid fileContent).
  - destruct ai as [d|aiError].
    + split; [intros [e He]; discriminate|intros [[e He] _]; discriminate].
    + destruct (parseCSVFallback fileContent sectionType) as [rows|e].
      * split; [intros [e He]; discriminate|intros [_ [e He]]; discriminate].
      * split; eauto.
Qed.

End ExtractionProperties.

Lemma parseCSVFallback_result_validates_witness :
  let csv := String.concat (String "010"%char EmptyString)
               ["Name,IOPS,Throughput"; "QuickStor,1200000,n/a"; "";
                "Other"] in
  let rows :=
    [JObject {[ "name" := JString "QuickStor"; "iops" := JNum 1200000;
                "throughput" := JNum 0 ]};
     JObject {[ "name" := JString "Other"; "iops" := JNum 0;
                "throughput" := JNum 0 ]}] in
  Extraction.parseCSVFallback csv "COMPARISON_GRAPH" = Return rows
  /\ Extraction.validateExtractedData (JArray rows) "COMPARISON_GRAPH" = true.
Proof.
  intros csv rows.
  assert (H : Extraction.parseCSVFallback csv "COMPARISON_GRAPH" = Return rows)
    by (vm_compute; reflexivity).
  split; [exact H|].
  apply (parseCSVFallback_result_validates csv "COMPARISON_GRAPH" rows H).
Defined.

Lemma parseCSVFallback_throws_iff_witness :
  (length (Extraction.nonblank_lines "icon,title,description") < 2)%nat
  /\ Extraction.parseCSVFallback "icon,title,description" "HERO"
     = Throw (Error
         "File must contain a header row and at least one data row.").
Proof.
  assert (H : (length (Extraction.nonblank_lines "icon,title,description")
               < 2)%nat) by (vm_compute; lia).
  split; [exact H|].
  apply (proj1 (parseCSVFallback_throws_iff "icon,title,description" "HERO")
           H).
Defined.

Lemma split_values_respects_quotes_witness :
  Extraction.count_quotes "a, b" = O
  /\ Extraction.split_values
       (String Extraction.quote ("a, b" ++ String Extraction.quote ""))
     = [String Extraction.quote ("a, b" ++ String Extraction.quote "")].
Proof.
  split; [reflexivity|].
  apply (proj2 (proj2 (split_values_respects_quotes "a, b")) eq_refl).
Defined.

(* ===================================================================== *)
(** ** The prompt service *)
(* ===================================================================== *)

Section PromptsProperties.

Import Prompts.

Variable JSON_parse : string -> completion json.

Lemma load_defaults_spec (f : fetch_result) (s : state) :
  load_defaults f s
  = {| prompts := default fallback_prompts (fetched_defaults f);
       initializationPromise := initializationPromise s;
       localStorage := localStorage s;
       fetches := S (fetches s) |}.
Proof.
  unfold load_defaults, fetched_defaults.
  destruct f as [e|st [d|e]]; simpl; try reflexivity;
    destruct (status_ok st); reflexivity.
Qed.

Lemma init_promise (f : fetch_result) (s : state) :
  initializationPromise (init JSON_parse f s) = true.
Proof.
  unfold init. destruct (initializationPromise s) eqn:E; [exact E|].
  repeat case_match; rewrite ?load_defaults_spec; reflexivity.
Qed.

Lemma init_fresh_no_cache (f : fetch_result) (s : state) :
  initializationPromise s = false ->
  localStorage s !! CACHE_KEY = None ->
  init JSON_parse f s
  = {| prompts := default fallback_prompts (fetched_defaults f);
       initializationPromise := true;
       localStorage := localStorage s;
       fetches := S (fetches s) |}.
Proof.
  intros Hp Hc. unfold init. rewrite Hp, Hc.
  now rewrite load_defaults_spec.
Qed.

Lemma reset_storage_no_cache (m : gmap string string) :
  delete "quickstor_system_prompt"
    (delete "quickstor_system_prompt_custom" (delete CACHE_KEY m))
  !! CACHE_KEY = None.
Proof.
  rewrite !lookup_delete_ne by discriminate. apply lookup_delete_eq.
Qed.

(** [init] does its work once: it leaves the promise set, so that a
    second call changes nothing and asks for nothing, whatever the
    storage holds by then and whatever the network would answer.  One
    call makes at most one request and touches no key of the storage but
    the cache key. *)
Theorem init_runs_once (f f' : fetch_result) (s : state) :
  init JSON_parse f' (init JSON_parse f s) = init JSON_parse f s
  /\ initializationPromise (init JSON_parse f s) = true
  /\ (fetches s <= fetches (init JSON_parse f s) <= S (fetches s))%nat
  /\ (forall k, k <> CACHE_KEY ->
        localStorage (init JSON_parse f s) !! k = localStorage s !! k)
  /\ (forall stored : gmap string string,
        let later :=
          {| prompts := prompts (init JSON_parse f s);
             initializationPromise :=
               initializationPromise (init JSON_parse f s);
             localStorage := stored;
             fetches := fetches (init JSON_parse f s) |} in
        init JSON_parse f' later = later).
Proof.
  split.
  { pose proof (init_promise f s) as H.
    unfold init at 1. now rewrite H. }
  split; [apply init_promise|].
  assert (Hlater : forall stored : gmap string string,
             let later :=
               {| prompts := prompts (init JSON_parse f s);
                  initializationPromise :=
                    initializationPromise (init JSON_parse f s);
                  localStorage := stored;
                  fetches := fetches (init JSON_parse f s) |} in
             init JSON_parse f' later = later).
  { intros stored later. unfold later, init at 1. cbn [initializationPromise].
    now rewrite (init_promise f s). }
  cut ((fetches s <= fetches (init JSON_parse f s) <= S (fetches s))%nat
       /\ (forall k, k <> CACHE_KEY ->
             localStorage (init JSON_parse f s) !! k = localStorage s !! k)).
  { intros [H1 H2]. split; [exact H1|]. split; [exact H2|exact Hlater]. }
  clear Hlater.
  unfold init. destruct (initializationPromise s); [split; [lia|auto]|].
  repeat case_match; rewrite ?load_defaults_spec; simpl;
    (split; [lia|]); intros k Hk; auto.
  now rewrite lookup_delete_ne.
Qed.

(** After a first [init], a non-empty cache text left in the storage is
    one that parses, its value is the prompts in use, and no request was
    made: a text that does not parse has been removed. *)
Theorem init_cache_consistent (f : fetch_result) (s : state)
  (stored : string) :
  initializationPromise s = false ->
  localStorage (init JSON_parse f s) !! CACHE_KEY = Some stored ->
  stored <> "" ->
  JSON_parse stored = Return (prompts (init JSON_parse f s))
  /\ fetches (init JSON_parse f s) = fetches s
  /\ localStorage (init JSON_parse f s) = localStorage s.
Proof.
  intros Hp. unfold init. rewrite Hp.
  destruct (localStorage s !! CACHE_KEY) as [c|] eqn:Hc.
  - destruct (String.eqb_spec c "") as [->|Hne].
    + rewrite load_defaults_spec. simpl. rewrite Hc.
      intros [= <-] H. now destruct H.
    + destruct (JSON_parse c) as [v|e] eqn:Hparse.
      * simpl. rewrite Hc. intros [= <-] _. auto.
      * rewrite load_defaults_spec. simpl.
        now rewrite lookup_delete_eq.
  - rewrite load_defaults_spec. simpl. now rewrite Hc.
Qed.

(** [resetToDefaults] always asks the network, once, and never reads the
    cache: the prompts afterwards are the fetched defaults, or the
    fallback when the request fails, whatever the service held before;
    the three keys are gone from the storage and every other key is as
    it was. *)
Theorem resetToDefaults_reloads (f : fetch_result) (s : state) :
  let s' := resetToDefaults JSON_parse f s in
  prompts s' = default fallback_prompts (fetched_defaults f)
  /\ fetches s' = S (fetches s)
  /\ initializationPromise s' = true
  /\ (forall k,
        localStorage s' !! k
        = if bool_decide (k ∈ [CACHE_KEY; "quickstor_system_prompt_custom";
                               "quickstor_system_prompt"])
          then None else localStorage s !! k).
Proof.
  unfold resetToDefaults.
  rewrite init_fresh_no_cache;
    [|reflexivity|apply reset_storage_no_cache].
  simpl. repeat split. intros k.
  destruct (bool_decide_reflect
              (k ∈ [CACHE_KEY; "quickstor_system_prompt_custom";
                    "quickstor_system_prompt"])) as [Hin|Hout].
  - rewrite !elem_of_cons in Hin.
    destruct Hin as [->|[->|[->|Hin]]].
    + rewrite !lookup_delete_ne by discriminate. apply lookup_delete_eq.
    + rewrite lookup_delete_ne by discriminate. apply lookup_delete_eq.
    + apply lookup_delete_eq.
    + now apply elem_of_nil in Hin.
  - rewrite !lookup_delete_ne; [reflexivity|..];
      intros <-; apply Hout; rewrite !elem_of_cons; auto.
Qed.

(** [getSystemPrompt] never answers with an empty prompt: a non-empty
    custom prompt wins over the loaded ones, and without a usable
    [system.default] the built-in persona is the answer.  So right after
    a reset whose request failed the answer is the built-in persona. *)
Theorem getSystemPrompt_never_empty (f : fetch_result) (s : state) :
  truthy (getSystemPrompt s) = true
  /\ (forall custom, custom <> "" ->
        localStorage s !! "quickstor_system_prompt_custom" = Some custom ->
        getSystemPrompt s = JString custom)
  /\ (fetched_defaults f = None ->
      getSystemPrompt (resetToDefaults JSON_parse f s)
      = JString DEFAULT_PERSONA).
Proof.
  split; [|split].
  - unfold getSystemPrompt.
    destruct (localStorage s !! "quickstor_system_prompt_custom") as [c|];
      [destruct (String.eqb c "") eqn:Ec; simpl; [|now rewrite Ec]|];
      destruct (truthy (get "system.default" s)) eqn:Ed; auto.
  - intros custom Hne Hc. unfold getSystemPrompt. rewrite Hc.
    now destruct (String.eqb_spec custom "").
  - intros Hf. unfold resetToDefaults.
    rewrite init_fresh_no_cache;
      [|reflexivity|apply reset_storage_no_cache].
    unfold getSystemPrompt. simpl.
    rewrite lookup_delete_ne by discriminate. rewrite lookup_delete_eq.
    unfold get. simpl. rewrite Hf. reflexivity.
Qed.

(** The two readers of the system prompt agree wherever
    [getAIPromptPrefix] has something to say; where it answers with the
    empty string, [getSystemPrompt] answers with the built-in persona. *)
Theorem getAIPromptPrefix_agrees (s : state) :
  getSystemPrompt s
  = if truthy (getAIPromptPrefix s) then getAIPromptPrefix s
    else JString DEFAULT_PERSONA.
Proof.
  unfold getSystemPrompt, getAIPromptPrefix.
  destruct (localStorage s !! "quickstor_system_prompt_custom") as [c|];
    [destruct (String.eqb c "") eqn:Ec; simpl; [|now rewrite Ec]|];
    reflexivity.
Qed.

End PromptsProperties.

Lemma init_cache_consistent_witness :
  let parse := fun s : string =>
    if String.eqb s "{}" then Return (JObject ∅)
    else Throw (Error "Unexpected token") in
  let s := {| Prompts.prompts := JNull;
              Prompts.initializationPromise := false;
              Prompts.localStorage := {[ Prompts.CACHE_KEY := "{}" ]};
              Prompts.fetches := 0 |} in
  Prompts.fetches (Prompts.init parse (FetchRejects (Error "offline")) s)
  = O.
Proof.
  intros parse s.
  apply (init_cache_consistent parse (FetchRejects (Error "offline")) s "{}"
           eq_refl eq_refl).
  discriminate.
Defined.

Lemma getSystemPrompt_never_empty_witness :
  let parse := fun s : string => Throw (Error "Unexpected token") in
  let s := {| Prompts.prompts := JObject ∅;
              Prompts.initializationPromise := true;
              Prompts.localStorage :=
                {[ "quickstor_system_prompt_custom" := "Be brief." ]};
              Prompts.fetches := 1 |} in
  Prompts.fetched_defaults (FetchResponse 404 (Return JNull)) = None
  /\ Prompts.getSystemPrompt
       (Prompts.resetToDefaults parse (FetchResponse 404 (Return JNull)) s)
     = JString Prompts.DEFAULT_PERSONA.
Proof.
  intros parse s. split; [reflexivity|].
  apply (proj2 (proj2 (getSystemPrompt_never_empty parse
                         (FetchResponse 404 (Return JNull)) s)) eq_refl).
Defined.
